(** * space_heater.c: the supervisor, the workers and the stop flag

    A shallow embedding of [space_heater.c].  The file has two
    implementations selected by the preprocessor, one for Windows and one
    for POSIX systems; both are embedded, each in a module of its own.

    The supervisor [main] is a straight-line program over operating-system
    calls.  It is embedded as a tree of calls ([prog]): every node is a call
    the source makes, with the continuation receiving the value the call
    returned.  The operating system is an oracle giving the result of each
    call; running a program against an oracle ([exec]) yields the calls made,
    in order, and the exit status.  [exec] lets every call return;
    [exec_until] runs the same program when the calls that wait for the
    workers ([pthread_join], [WaitForMultipleObjects]) return only if the
    workers do.

    The POSIX process as a whole (supervisor, worker threads, signal handler
    and the flag they share) is a transition system ([Posix.step]) whose
    steps interleave under a schedule; the supervisor's part in it is the
    same [Posix.main]. *)

From Stdlib Require Import ZArith List String Ascii Bool Lia.
From Stdlib Require Import DecimalString DecimalFacts DecimalPos.
Import ListNotations.

Local Open Scope Z_scope.
Local Open Scope list_scope.

(** ** C strings and formatted output *)

Module CStr.

(** The line feed written [\n] in the source. *)
Definition LF : string := String "010"%char EmptyString.

(** The terminating zero byte of a C string. *)
Definition NUL : ascii := "000"%char.

Definition cat (a b : string) : string := String.append a b.

Infix "+++" := cat (right associativity, at level 60).

(** [%d] of an [int] (also used for [%lu] of a non-negative [DWORD]). *)
Definition dec (z : Z) : string := NilZero.string_of_int (Z.to_int z).

(** A [printf] template with one integer argument: [%d] and [%lu] are
    replaced by the decimal form of the argument, every other character
    is copied. *)
Fixpoint sprintf1 (fmt : string) (arg : Z) : string :=
  match fmt with
  | EmptyString => EmptyString
  | String "%" (String "d" rest) => dec arg +++ sprintf1 rest arg
  | String "%" (String "l" (String "u" rest)) => dec arg +++ sprintf1 rest arg
  | String c rest => String c (sprintf1 rest arg)
  end.

(** The bytes of a character array, as far as the model needs them: the
    characters from the start of the array on. *)
Fixpoint take (n : nat) (s : string) : string :=
  match n, s with
  | S n', String c s' => String c (take n' s')
  | _, _ => EmptyString
  end.

Fixpoint drop (n : nat) (s : string) : string :=
  match n, s with
  | S n', String _ s' => drop n' s'
  | _, _ => s
  end.

(** [strlen]: the number of characters before the first zero byte. *)
Fixpoint strlen (s : string) : nat :=
  match s with
  | EmptyString => O
  | String c s' => if Ascii.eqb c NUL then O else S (strlen s')
  end.

(** Writing [new] at the start of the array [old]. *)
Definition overlay (new old : string) : string :=
  new +++ drop (String.length new) old.

End CStr.

Import CStr.

(** ** Programs over operating-system calls *)

Section Prog.

Variable call : Type.

Inductive prog : Type :=
| Ret (status : Z)
| Call (c : call) (k : Z -> prog).

(** Running a program against an oracle for the calls' results: the calls
    made, in order, and the exit status. *)
Fixpoint exec (o : call -> Z) (p : prog) : list call * Z :=
  match p with
  | Ret status => ([], status)
  | Call c k => let r := exec o (k (o c)) in (c :: fst r, snd r)
  end.

End Prog.

Arguments Ret {call} status.
Arguments Call {call} c k.
Arguments exec {call} o p.

(** ** Calls that wait

    [exec] lets every call return.  Two calls of the source wait instead:
    [pthread_join] returns only when its thread has returned, and
    [WaitForMultipleObjects(..., TRUE, INFINITE)] only when all have.  A run
    in which such a call never returns ends there, without a status. *)

Section Waiting.

Variable call : Type.

(** Running a program when the calls [waits] picks never return: the calls
made, the last being the one main is left waiting in, and the exit status if
the program ended. *)
Fixpoint exec_until (waits : call -> bool) (o : call -> Z) (p : prog call)
  : list call * option Z :=
  match p with
  | Ret status => ([], Some status)
  | Call c k =>
      if waits c then ([c], None)
      else let r := exec_until waits o (k (o c)) in (c :: fst r, snd r)
  end.

(** A sequence of calls up to and including the first that never returns. *)
Fixpoint upto (waits : call -> bool) (t : list call) : list call :=
  match t with
  | [] => []
  | c :: t' => if waits c then [c] else c :: upto waits t'
  end.

End Waiting.

Arguments exec_until {call} waits o p.
Arguments upto {call} waits t.

Declare Scope prog_scope.
Delimit Scope prog_scope with prog.
Notation "x <- c ;; k" := (Call c (fun x => k))
(at level 61, c at next level, right associativity) : prog_scope.
Notation "c ;; k" := (Call c (fun _ => k))
(at level 61, right associativity) : prog_scope.

(** The indices [0, 1, ..., n-1] of a [for (i = 0; i < n; i++)] loop. *)
Definition range (n : Z) : list Z := map Z.of_nat (seq 0 (Z.to_nat n)).

(** The two output streams of the POSIX implementation. *)
Inductive stream : Type := Stdout | Stderr.

(** <stdlib.h> *)
Definition EXIT_SUCCESS : Z := 0.
Definition EXIT_FAILURE : Z := 1.
Definition NULL : Z := 0.

(** ** The POSIX implementation *)

Module Posix.

(** <signal.h> *)
Definition SIGINT : Z := 2.
Definition SIGTERM : Z := 15.
Definition SIG_ERR : Z := -1.

(** The calls of the POSIX implementation.  A thread is named by its slot
    [i] of the array [threads]. *)
Inductive call : Type :=
| sysconf_NPROCESSORS_ONLN          (* sysconf(_SC_NPROCESSORS_ONLN), as stored in the int numThreads *)
| signal (sig : Z)                  (* signal(sig, exit_handler) *)
| malloc (n : Z)                    (* malloc(n * sizeof(pthread_t)) *)
| pthread_create (i : Z)            (* pthread_create(&threads[i], NULL, cpu_heater, NULL) *)
| fprintf (s : stream) (text : string)
| free                              (* free(threads) *)
| pthread_join (i : Z).             (* pthread_join(threads[i], NULL) *)

Local Open Scope prog_scope.

(** for (i = 0; i < numThreads; i++) { if (pthread_create(...) != 0) {...} } *)
Fixpoint spawn_loop (idx : list Z) (rest : prog call) : prog call :=
  match idx with
  | [] => rest
  | i :: idx' =>
      r <- pthread_create i ;;
      if negb (r =? 0) then
        fprintf Stderr (sprintf1 ("Error creating thread %d." +++ LF) i) ;;
        free ;;
        Ret EXIT_FAILURE
      else spawn_loop idx' rest
  end.

(** for (i = 0; i < numThreads; ++i) { pthread_join(threads[i], NULL); } *)
Fixpoint join_loop (idx : list Z) (rest : prog call) : prog call :=
  match idx with
  | [] => rest
  | i :: idx' => pthread_join i ;; join_loop idx' rest
  end.

Definition main : prog call :=
  numThreads <- sysconf_NPROCESSORS_ONLN ;;
  signal SIGINT ;;
  signal SIGTERM ;;
  if numThreads <=? 0 then
    fprintf Stderr ("Error getting the number of processors." +++ LF) ;;
    Ret EXIT_FAILURE
  else
    threads <- malloc numThreads ;;
    if threads =? NULL then
      fprintf Stderr ("Error allocating memory for threads." +++ LF) ;;
      Ret EXIT_FAILURE
    else
      spawn_loop (range numThreads)
        (fprintf Stdout (sprintf1 ("Started %d worker threads" +++ LF) numThreads) ;;
         join_loop (range numThreads)
           (free ;;
            Ret EXIT_SUCCESS)).

(** The memory shared by the supervisor, the workers and the handler:
    [static volatile int stop = 0;] *)
Record memory : Type := { stop : Z }.

Definition initial_memory : memory := {| stop := 0 |}.

(** void exit_handler(const int signal): the calls it makes and the memory
    it leaves. *)
Definition exit_handler (signal : Z) (m : memory) : list call * memory :=
  ([fprintf Stdout (sprintf1 ("Received exit signal %d: Exiting..." +++ LF) signal)],
   {| stop := 1 |}).

(** One evaluation of the condition of [while (!stop) {}] in cpu_heater:
    the value read, and whether the loop goes on. *)
Definition cpu_heater_test (m : memory) : Z * bool :=
  (stop m, stop m =? 0).

(** *** The running process

    The supervisor, the worker threads and the signal handler share the
    memory.  A step of the process is a step of one of them, chosen by the
    scheduler; the steps interleave. *)

Inductive thread_state : Type := Spinning | Returned.

Record process : Type := {
  mem : memory;
  supervisor : prog call;                (* what main has still to do *)
  trace : list call;                     (* the calls main has made, oldest first *)
  threads : list (Z * thread_state);     (* the created threads, by slot *)
  handlers : list Z;                     (* signals exit_handler is installed for *)
  console : list (stream * string);      (* what was written, oldest first *)
  reads : list Z;                        (* the values the workers read from stop, oldest first *)
  exit_status : option Z
}.

Definition initial : process :=
  {| mem := initial_memory; supervisor := main; trace := []; threads := [];
     handlers := []; console := []; reads := []; exit_status := None |}.

Fixpoint lookup (i : Z) (l : list (Z * thread_state)) : option thread_state :=
  match l with
  | [] => None
  | (j, t) :: l' => if i =? j then Some t else lookup i l'
  end.

Fixpoint update (i : Z) (t : thread_state) (l : list (Z * thread_state))
  : list (Z * thread_state) :=
  match l with
  | [] => []
  | (j, u) :: l' => if i =? j then (j, t) :: l' else (j, u) :: update i t l'
  end.

(** The text the calls of a handler put on the console. *)
Fixpoint written (cs : list call) : list (stream * string) :=
  match cs with
  | [] => []
  | fprintf s text :: cs' => (s, text) :: written cs'
  | _ :: cs' => written cs'
  end.

Inductive action : Type :=
| Supervisor                 (* main makes its next call, or returns *)
| Worker (i : Z)             (* the thread of slot i tests its loop condition *)
| Deliver (sig : Z).         (* the signal sig arrives and its handler runs *)

(** main makes its next call.  [pthread_join] waits: it returns only once
the thread has returned.  Returning from main ends the process. *)
Definition supervisor_step (o : call -> Z) (p : process) : option process :=
  match supervisor p with
  | Ret status =>
      Some {| mem := mem p; supervisor := supervisor p; trace := trace p;
              threads := threads p; handlers := handlers p;
              console := console p; reads := reads p;
              exit_status := Some status |}
  | Call c k =>
      match c with
      | pthread_join i =>
          match lookup i (threads p) with
          | Some Returned =>
              Some {| mem := mem p; supervisor := k (o c); trace := trace p ++ [c];
                      threads := threads p; handlers := handlers p;
                      console := console p; reads := reads p;
                      exit_status := None |}
          | _ => None
          end
      | pthread_create i =>
          Some {| mem := mem p; supervisor := k (o c); trace := trace p ++ [c];
                  threads := if o c =? 0 then (i, Spinning) :: threads p
                             else threads p;
                  handlers := handlers p; console := console p;
                  reads := reads p; exit_status := None |}
      | signal sig =>
          Some {| mem := mem p; supervisor := k (o c); trace := trace p ++ [c];
                  threads := threads p;
                  handlers := if o c =? SIG_ERR then handlers p
                              else sig :: handlers p;
                  console := console p; reads := reads p; exit_status := None |}
      | fprintf s text =>
          Some {| mem := mem p; supervisor := k (o c); trace := trace p ++ [c];
                  threads := threads p; handlers := handlers p;
                  console := console p ++ [(s, text)];
                  reads := reads p; exit_status := None |}
      | _ =>
          Some {| mem := mem p; supervisor := k (o c); trace := trace p ++ [c];
                  threads := threads p; handlers := handlers p;
                  console := console p; reads := reads p; exit_status := None |}
      end
  end.

(** The thread of slot i evaluates [!stop] once and returns or spins on. *)
Definition worker_step (i : Z) (p : process) : option process :=
  match lookup i (threads p) with
  | Some Spinning =>
      let (v, again) := cpu_heater_test (mem p) in
      Some {| mem := mem p; supervisor := supervisor p; trace := trace p;
              threads := update i (if again then Spinning else Returned) (threads p);
              handlers := handlers p; console := console p;
              reads := reads p ++ [v]; exit_status := None |}
  | _ => None
  end.

(** A signal with exit_handler installed arrives and the handler runs.  (A
signal without a handler ends the process by its default action; the model
does not follow such runs.) *)
Definition deliver_step (sig : Z) (p : process) : option process :=
  if existsb (Z.eqb sig) (handlers p) then
    let (cs, m) := exit_handler sig (mem p) in
    Some {| mem := m; supervisor := supervisor p; trace := trace p;
            threads := threads p; handlers := handlers p;
            console := console p ++ written cs;
            reads := reads p; exit_status := None |}
  else None.

(** One step; [None] when the action cannot be taken (the process has
ended, the join waits, there is no such spinning thread, the signal is
not handled). *)
Definition step (o : call -> Z) (p : process) (a : action) : option process :=
  match exit_status p with
  | Some _ => None
  | None =>
      match a with
      | Supervisor => supervisor_step o p
      | Worker i => worker_step i p
      | Deliver sig => deliver_step sig p
      end
  end.

(** A schedule is a list of actions; an action that cannot be taken is
    passed over. *)
Fixpoint run (o : call -> Z) (schedule : list action) (p : process) : process :=
  match schedule with
  | [] => p
  | a :: schedule' =>
      match step o p a with
      | Some p' => run o schedule' p'
      | None => run o schedule' p
      end
  end.

(** Once a read has seen the flag set, every later read sees it set; and
while the flag is clear no read has seen it set. *)
Definition reads_settled (p : process) : Prop :=
  (stop (mem p) = 0 -> Forall (fun v => v = 0) (reads p))
  /\ (forall earlier v later,
         reads p = earlier ++ v :: later -> v <> 0 ->
         Forall (fun w => w <> 0) later).

(** The process follows main: the calls made so far and the calls still to
come are the calls of main run on its own, with the same status; and the
status the process ended with is the one main returned. *)
Definition follows_main (o : call -> Z) (p : process) : Prop :=
  exec o main
  = (trace p ++ fst (exec o (supervisor p)), snd (exec o (supervisor p)))
  /\ (forall status, exit_status p = Some status -> supervisor p = Ret status).

(** A returned worker and a completed join both tell that the flag is set. *)
Definition flag_explains (p : process) : Prop :=
  (stop (mem p) = 0 \/ stop (mem p) = 1)
  /\ (forall i, In (i, Returned) (threads p) -> stop (mem p) <> 0)
  /\ (forall i, In (pthread_join i) (trace p) -> stop (mem p) <> 0).

(** [main] gets past its start-up checks with [N] processors: the count is
positive and the array of thread handles is allocated. *)
Definition starts (o : call -> Z) (N : Z) : Prop :=
  o sysconf_NPROCESSORS_ONLN = N /\ 0 < N /\ o (malloc N) <> NULL.

(** Kinds of calls, for reading traces. *)
Definition is_create (c : call) : bool :=
  match c with pthread_create _ => true | _ => false end.

Definition is_join (c : call) : bool :=
  match c with pthread_join _ => true | _ => false end.

Definition writes_to (s : stream) (c : call) : bool :=
  match c, s with
  | fprintf Stdout _, Stdout => true
  | fprintf Stderr _, Stderr => true
  | _, _ => false
  end.

(** The calls main makes before the spawn loop. *)
Definition prologue (N : Z) : list call :=
  [sysconf_NPROCESSORS_ONLN; signal SIGINT; signal SIGTERM; malloc N].

Definition is_free (c : call) : bool :=
  match c with free => true | _ => false end.

Definition is_signal (c : call) : bool :=
  match c with signal _ => true | _ => false end.

(** A schedule that lets the process run to its end: main reads the count
and registers its handlers; the signal [sig] arrives either right then
([early]) or once the start-up line is written; main allocates, spawns the
[N] workers and announces them; every worker tests its loop condition once;
main joins them, frees the array and returns. *)
Definition shutdown_schedule (early : bool) (sig N : Z) : list action :=
  repeat Supervisor 3
    ++ (if early then [Deliver sig] else [])
    ++ repeat Supervisor (Z.to_nat N + 2)
    ++ (if early then [] else [Deliver sig])
    ++ map Worker (range N)
    ++ repeat Supervisor (Z.to_nat N + 2).

(** Every thread of the pool and every installed handler comes from a call
main has made, and that call succeeded. *)
Definition pool_from_trace (o : call -> Z) (p : process) : Prop :=
  (forall i t, In (i, t) (threads p) ->
     In (pthread_create i) (trace p) /\ o (pthread_create i) = 0)
  /\ (forall sig, In sig (handlers p) ->
        In (signal sig) (trace p) /\ o (signal sig) <> SIG_ERR).

(** What holds of every state the process reaches. *)
Definition reachable_facts (o : call -> Z) (p : process) : Prop :=
  follows_main o p /\ flag_explains p /\ pool_from_trace o p.

Definition is_print (c : call) : bool :=
  match c with fprintf _ _ => true | _ => false end.

(** The joins that never return when only the workers of the slots
[returned] picks return from cpu_heater. *)
Definition waits_for (returned : Z -> bool) (c : call) : bool :=
  match c with
  | pthread_join i => negb (returned i)
  | _ => false
  end.

End Posix.

(** ** The Windows implementation *)

Module Windows.

(** <windows.h>, <strsafe.h> *)
Definition FALSE : Z := 0.
Definition TRUE : Z := 1.
Definition INVALID_HANDLE_VALUE : Z := -1.
Definition STD_OUTPUT_HANDLE : Z := -11.
Definition STD_ERROR_HANDLE : Z := -12.
Definition S_OK : Z := 0.
Definition STRSAFE_E_INSUFFICIENT_BUFFER : Z := -2147024774.

(** CHAR messageBuffer[128]; ARRAYSIZE(messageBuffer) *)
Definition ARRAYSIZE_messageBuffer : nat := 128.

(** StringCchPrintfA(dest, cchDest, format, arg) of <strsafe.h>: the
    formatted text and its terminating zero are written to [dest] when
    they fit in [cchDest] characters; otherwise the text is cut to
    [cchDest - 1] characters and the call reports the shortage.  The
    result is the HRESULT and the new content of [dest]. *)
Definition StringCchPrintfA (dest : string) (cchDest : nat) (format : string)
    (arg : Z) : Z * string :=
  let text := sprintf1 format arg in
  if (String.length text <? cchDest)%nat then
    (S_OK, overlay (text +++ String NUL EmptyString) dest)
  else
    (STRSAFE_E_INSUFFICIENT_BUFFER,
     overlay (take (cchDest - 1) text +++ String NUL EmptyString) dest).

(** The calls of the Windows implementation. *)
Inductive call : Type :=
| GetStdHandle (nStdHandle : Z)
| OutputDebugStringA (text : string)
| SetConsoleCtrlHandler              (* SetConsoleCtrlHandler(ExitHandler, TRUE) *)
| WriteConsoleA (h : Z) (chars : string)
    (* WriteConsoleA(h, buffer, n, NULL, NULL); chars are the first n characters of buffer *)
| GetSystemInfo                      (* sysinfo.dwNumberOfProcessors, as stored in the INT numThreads *)
| HeapAlloc (n : Z)                  (* HeapAlloc(GetProcessHeap(), 0, n * sizeof(HANDLE)) *)
| CreateThread (i : Z)               (* threads[i] = CreateThread(NULL, 0, CpuHeater, NULL, 0, NULL) *)
| HeapFree                           (* HeapFree(GetProcessHeap(), 0, threads) *)
| WaitForMultipleObjects (nCount : Z) (handles : list Z)
    (* WaitForMultipleObjects(nCount, threads, TRUE, INFINITE); handles are threads[0..nCount-1] *)
| CloseHandle (h : Z).

(** ExitProcess(uExitCode) ends the process with that status. *)
Definition ExitProcess (uExitCode : Z) : prog call := Ret uExitCode.

(** threads[i] = h *)
Definition store (threads : Z -> Z) (i h : Z) : Z -> Z :=
  fun j => if j =? i then h else threads j.

Local Open Scope prog_scope.

(** for (i = 0; i < numThreads; i++) { threads[i] = CreateThread(...); ... } *)
Fixpoint spawn_loop (idx : list Z) (stdErr : Z) (messageBuffer : string)
    (threads : Z -> Z) (rest : (Z -> Z) -> prog call) : prog call :=
  match idx with
  | [] => rest threads
  | i :: idx' =>
      h <- CreateThread i ;;
      let threads := store threads i h in
      if threads i =? NULL then
        let message := "ERROR: Failed to create thread %d." +++ LF in
        let res := StringCchPrintfA messageBuffer ARRAYSIZE_messageBuffer message i in
        let messageBuffer := snd res in
        if fst res =? S_OK then
          WriteConsoleA stdErr (take (strlen message) messageBuffer) ;;
          HeapFree ;;
          ExitProcess EXIT_FAILURE
        else
          let message := "ERROR: Failed to create a thread" +++ LF in
          WriteConsoleA stdErr (take (strlen message) message) ;;
          HeapFree ;;
          ExitProcess EXIT_FAILURE
      else spawn_loop idx' stdErr messageBuffer threads rest
  end.

(** for (i = 0; i < numThreads; ++i) { CloseHandle(threads[i]); } *)
Fixpoint close_loop (idx : list Z) (threads : Z -> Z) (rest : prog call)
  : prog call :=
  match idx with
  | [] => rest
  | i :: idx' => CloseHandle (threads i) ;; close_loop idx' threads rest
  end.

(** INT main(void).  [messageBuffer] and [heap] are the contents the
    uninitialised array messageBuffer and the block returned by HeapAlloc
    happen to have. *)
Definition main (messageBuffer : string) (heap : Z -> Z) : prog call :=
  stdOut <- GetStdHandle STD_OUTPUT_HANDLE ;;
  if (stdOut =? NULL) || (stdOut =? INVALID_HANDLE_VALUE) then
    OutputDebugStringA "ERROR: Failed to initialize standard output" ;;
    ExitProcess EXIT_FAILURE
  else
  stdErr <- GetStdHandle STD_ERROR_HANDLE ;;
  if (stdErr =? NULL) || (stdErr =? INVALID_HANDLE_VALUE) then
    OutputDebugStringA "ERROR: Failed to initialize standard error ouput" ;;
    ExitProcess EXIT_FAILURE
  else
  r <- SetConsoleCtrlHandler ;;
  if r =? FALSE then
    let message := "ERROR: Failed to set console ctrl handler" +++ LF in
    WriteConsoleA stdErr (take (strlen message) message) ;;
    ExitProcess EXIT_FAILURE
  else
  numThreads <- GetSystemInfo ;;
  if numThreads <=? 0 then
    let message := "ERROR: Failed to get number of processors" +++ LF in
    WriteConsoleA stdErr (take (strlen message) message) ;;
    ExitProcess EXIT_FAILURE
  else
  threads <- HeapAlloc numThreads ;;
  if threads =? NULL then
    let message := "ERROR: Failed to allocate memory for threads" +++ LF in
    WriteConsoleA stdErr (take (strlen message) message) ;;
    ExitProcess EXIT_FAILURE
  else
  spawn_loop (range numThreads) stdErr messageBuffer heap (fun threads =>
    let message := "Started %d worker threads" +++ LF in
    let res := StringCchPrintfA messageBuffer ARRAYSIZE_messageBuffer message numThreads in
    let messageBuffer := snd res in
    (if fst res =? S_OK then
       Call (WriteConsoleA stdOut (take (strlen messageBuffer) messageBuffer))
     else
       let message := "Started worker threads" +++ LF in
       Call (WriteConsoleA stdOut (take (strlen message) message)))
    (fun _ =>
    WaitForMultipleObjects numThreads (map threads (range numThreads)) ;;
    close_loop (range numThreads) threads
      (HeapFree ;;
       Ret EXIT_SUCCESS))).

(** static HANDLE stdOut; static HANDLE stdErr; static volatile BOOL stop = FALSE; *)
Record memory : Type := { stdOut : Z; stdErr : Z; stop : Z }.

(** BOOL WINAPI ExitHandler(CONST DWORD signal): the calls it makes, the
    memory it leaves and its result. *)
Definition ExitHandler (messageBuffer : string) (signal : Z) (m : memory)
  : list call * memory * Z :=
  let message := "Received exit signal %lu: Exiting..." +++ LF in
  let res := StringCchPrintfA messageBuffer ARRAYSIZE_messageBuffer message signal in
  let messageBuffer := snd res in
  (if fst res =? S_OK then
     [WriteConsoleA (stdErr m) (take (strlen messageBuffer) messageBuffer)]
   else
     let message := "Received exit signal: Exiting..." +++ LF in
     [WriteConsoleA (stdErr m) (take (strlen message) message)],
   {| stdOut := stdOut m; stdErr := stdErr m; stop := TRUE |},
   TRUE).

(** [main] has its two console handles and its control handler. *)
Definition console_ready (o : call -> Z) (hOut hErr : Z) : Prop :=
  o (GetStdHandle STD_OUTPUT_HANDLE) = hOut /\ hOut <> NULL /\ hOut <> INVALID_HANDLE_VALUE
  /\ o (GetStdHandle STD_ERROR_HANDLE) = hErr /\ hErr <> NULL /\ hErr <> INVALID_HANDLE_VALUE
  /\ o SetConsoleCtrlHandler <> FALSE.

(** [main] gets past its start-up checks with [N] processors. *)
Definition starts (o : call -> Z) (hOut hErr N : Z) : Prop :=
  console_ready o hOut hErr
  /\ o GetSystemInfo = N /\ 0 < N /\ o (HeapAlloc N) <> NULL.

(** Kinds of calls, for reading traces. *)
Definition is_create (c : call) : bool :=
  match c with CreateThread _ => true | _ => false end.

Definition is_wait (c : call) : bool :=
  match c with WaitForMultipleObjects _ _ => true | _ => false end.

Definition is_write (c : call) : bool :=
  match c with WriteConsoleA _ _ => true | _ => false end.

(** The calls main makes before the spawn loop. *)
Definition prologue (N : Z) : list call :=
  [GetStdHandle STD_OUTPUT_HANDLE; GetStdHandle STD_ERROR_HANDLE;
   SetConsoleCtrlHandler; GetSystemInfo; HeapAlloc N].

(** The array of handles once the spawn loop has run over [idx]. *)
Definition filled (o : call -> Z) (idx : list Z) (threads : Z -> Z) : Z -> Z :=
  fold_left (fun t i => store t i (o (CreateThread i))) idx threads.

(** The characters the failure branch of the spawn loop passes to
WriteConsoleA for slot [k]. *)
Definition failure_text (messageBuffer : string) (k : Z) : string :=
  let message := "ERROR: Failed to create thread %d." +++ LF in
  let res := StringCchPrintfA messageBuffer ARRAYSIZE_messageBuffer message k in
  if fst res =? S_OK then take (strlen message) (snd res)
  else "ERROR: Failed to create a thread" +++ LF.

(** The largest INT. *)
Definition INT_MAX : Z := 2147483647.

Definition is_free (c : call) : bool :=
  match c with HeapFree => true | _ => false end.

Definition is_close (c : call) : bool :=
  match c with CloseHandle _ => true | _ => false end.

Definition is_debug (c : call) : bool :=
  match c with OutputDebugStringA _ => true | _ => false end.

(** The characters main passes to WriteConsoleA for its start-up line. *)
Definition started_text (messageBuffer : string) (numThreads : Z) : string :=
  let message := "Started %d worker threads" +++ LF in
  let res := StringCchPrintfA messageBuffer ARRAYSIZE_messageBuffer message numThreads in
  if fst res =? S_OK then take (strlen (snd res)) (snd res)
  else "Started worker threads" +++ LF.

(** One evaluation of the condition of [while (!stop) {}] in CpuHeater: the
value read, and whether the loop goes on. *)
Definition CpuHeater_test (m : memory) : Z * bool :=
  (stop m, stop m =? FALSE).

(** What happens to the shared memory, in order: the system calls
ExitHandler for a control event (on a stack whose array messageBuffer holds
some content), or a worker evaluates its loop condition. *)
Inductive event : Type :=
| Control (signal : Z) (messageBuffer : string)
| Poll.

(** Playing the events: the memory left, the values the workers read (oldest
first) and the calls the handlers made (oldest first). *)
Fixpoint play (es : list event) (m : memory) : memory * list Z * list call :=
  match es with
  | [] => (m, [], [])
  | Control signal messageBuffer :: es' =>
      let '(cs, m', _) := ExitHandler messageBuffer signal m in
      let '(m'', polled, calls) := play es' m' in
      (m'', polled, cs ++ calls)
  | Poll :: es' =>
      let '(m'', polled, calls) := play es' m in
      (m'', fst (CpuHeater_test m) :: polled, calls)
  end.

Definition is_alloc (c : call) : bool :=
  match c with HeapAlloc _ => true | _ => false end.

Definition is_control (e : event) : bool :=
  match e with Control _ _ => true | Poll => false end.

(** The wait never returns unless all the workers return from CpuHeater. *)
Definition waits_for (all_returned : bool) (c : call) : bool :=
  match c with
  | WaitForMultipleObjects _ _ => negb all_returned
  | _ => false
  end.

End Windows.

(** ** Sample hosts *)

(** A POSIX host with four processors where every call succeeds. *)
Definition posix_host4 (c : Posix.call) : Z :=
  match c with
  | Posix.sysconf_NPROCESSORS_ONLN => 4
  | Posix.malloc _ => 4096
  | _ => 0
  end.

(** A POSIX host with four processors where the third thread cannot be
created. *)
Definition posix_host4_third_spawn_fails (c : Posix.call) : Z :=
  match c with
  | Posix.sysconf_NPROCESSORS_ONLN => 4
  | Posix.malloc _ => 4096
  | Posix.pthread_create 2 => 11
  | _ => 0
  end.

(** A POSIX host whose processor count cannot be read. *)
Definition posix_host_no_count (c : Posix.call) : Z :=
  match c with
  | Posix.sysconf_NPROCESSORS_ONLN => -1
  | Posix.malloc _ => 4096
  | _ => 0
  end.

(** A POSIX host with two processors where signal(SIGTERM, exit_handler)
fails and every other call succeeds. *)
Definition posix_host2_sigterm_refused (c : Posix.call) : Z :=
  match c with
  | Posix.sysconf_NPROCESSORS_ONLN => 2
  | Posix.signal 15 => Posix.SIG_ERR
  | Posix.malloc _ => 4096
  | _ => 0
  end.

(** A POSIX host with one processor where signal(SIGINT, exit_handler)
fails and every other call succeeds. *)
Definition posix_host1_sigint_refused (c : Posix.call) : Z :=
  match c with
  | Posix.sysconf_NPROCESSORS_ONLN => 1
  | Posix.signal 2 => Posix.SIG_ERR
  | Posix.malloc _ => 4096
  | _ => 0
  end.

(** A run of that host: main starts its worker, SIGTERM arrives, the worker
sees the flag, main joins it and returns. *)
Definition sigterm_run : list Posix.action :=
  [Posix.Supervisor; Posix.Supervisor; Posix.Supervisor; Posix.Supervisor;
   Posix.Supervisor; Posix.Supervisor;
   Posix.Worker 0; Posix.Deliver 15; Posix.Worker 0;
   Posix.Supervisor; Posix.Supervisor; Posix.Supervisor].

(** A run on the four-processor host in which two workers poll the flag
before and after SIGINT arrives. *)
Definition sigint_run : list Posix.action :=
  [Posix.Supervisor; Posix.Supervisor; Posix.Supervisor; Posix.Supervisor;
   Posix.Supervisor; Posix.Supervisor;
   Posix.Worker 0; Posix.Worker 1; Posix.Deliver 2; Posix.Worker 1; Posix.Worker 0].

(** A POSIX host with two processors where every call succeeds. *)
Definition posix_host2 (c : Posix.call) : Z :=
  match c with
  | Posix.sysconf_NPROCESSORS_ONLN => 2
  | Posix.malloc _ => 4096
  | _ => 0
  end.

(** A POSIX host with four processors where the array cannot be allocated. *)
Definition posix_host4_no_memory (c : Posix.call) : Z :=
  match c with
  | Posix.sysconf_NPROCESSORS_ONLN => 4
  | _ => 0
  end.


(** A run on a two-processor host in which no signal arrives: main starts
both workers and waits for the first while they poll the flag. *)
Definition quiet_run : list Posix.action :=
  [Posix.Supervisor; Posix.Supervisor; Posix.Supervisor; Posix.Supervisor;
   Posix.Supervisor; Posix.Supervisor; Posix.Supervisor;
   Posix.Worker 0; Posix.Worker 1; Posix.Supervisor; Posix.Worker 0].

(** Whether an action is the arrival of SIGINT or SIGTERM with its handler
registered on the host [o]. *)
Definition stops_heater (o : Posix.call -> Z) (a : Posix.action) : bool :=
  match a with
  | Posix.Deliver sig =>
      ((sig =? Posix.SIGINT) || (sig =? Posix.SIGTERM))
      && negb (o (Posix.signal sig) =? Posix.SIG_ERR)
  | _ => false
  end.

(** A Windows host with [n] processors where every call succeeds; thread
[i] gets the handle [500 + i]. *)
Definition windows_host (n : Z) (c : Windows.call) : Z :=
  match c with
  | Windows.GetStdHandle h => 100 - h
  | Windows.SetConsoleCtrlHandler => 1
  | Windows.GetSystemInfo => n
  | Windows.HeapAlloc _ => 4096
  | Windows.CreateThread i => 500 + i
  | _ => 0
  end.

(** The same host, except that the thread of slot [k] cannot be created. *)
Definition windows_host_spawn_fails (n k : Z) (c : Windows.call) : Z :=
  match c with
  | Windows.CreateThread i => if i =? k then NULL else 500 + i
  | _ => windows_host n c
  end.

(** Some content for uninitialised storage. *)
Definition stale_buffer : string := "stale stale stale stale stale stale stale stale".
Definition stale_heap : Z -> Z := fun _ => 77.

(** * Facts *)

(** ** C strings *)

Section CStrFacts.

Lemma cat_assoc (a b c : string) : (a +++ b) +++ c = a +++ (b +++ c).
Proof.
  unfold cat. induction a as [|x a IH]; simpl; [reflexivity|now rewrite IH].
Qed.

Lemma length_cat (a b : string) :
  String.length (a +++ b) = (String.length a + String.length b)%nat.
Proof.
  unfold cat. induction a as [|x a IH]; simpl; [reflexivity|now rewrite IH].
Qed.

Lemma take_cat (a b : string) : take (String.length a) (a +++ b) = a.
Proof.
  unfold cat. induction a as [|x a IH]; simpl.
  - destruct b; reflexivity.
  - now rewrite IH.
Qed.

Lemma take_cat_more (n : nat) (a b : string) :
  take (String.length a + n) (a +++ b) = a +++ take n b.
Proof.
  unfold cat. induction a as [|x a IH]; simpl; [reflexivity|now rewrite IH].
Qed.

Lemma take_cat_less (n : nat) (a b : string) :
  (n <= String.length a)%nat -> take n (a +++ b) = take n a.
Proof.
  unfold cat. revert n. induction a as [|x a IH]; intros n Hn; simpl in *.
  - assert (n = O) by lia. subst. destruct b; reflexivity.
  - destruct n as [|n]; [reflexivity|]. simpl. rewrite IH by lia. reflexivity.
Qed.

Lemma length_take (n : nat) (s : string) :
  String.length (take n s) = Nat.min n (String.length s).
Proof.
  revert s. induction n as [|n IH]; intros [|c s]; simpl; auto.
Qed.

Lemma uint_length (d : Decimal.uint) :
  String.length (NilEmpty.string_of_uint d) = Decimal.nb_digits d.
Proof. induction d; simpl; congruence. Qed.

Lemma uint_strlen (d : Decimal.uint) (s : string) :
  strlen (NilEmpty.string_of_uint d +++ s)
  = (String.length (NilEmpty.string_of_uint d) + strlen s)%nat.
Proof. unfold cat. induction d; simpl; congruence. Qed.

Lemma nilzero_strlen (d : Decimal.uint) (s : string) :
  strlen (NilZero.string_of_uint d +++ s)
  = (String.length (NilZero.string_of_uint d) + strlen s)%nat.
Proof.
  destruct d; try apply uint_strlen. reflexivity.
Qed.

(** The decimal form of a number holds no zero byte. *)
Lemma dec_strlen (z : Z) (s : string) :
  strlen (dec z +++ s) = (String.length (dec z) + strlen s)%nat.
Proof.
  unfold dec. destruct z as [|p|p]; simpl Z.to_int; simpl NilZero.string_of_int.
  - reflexivity.
  - apply nilzero_strlen.
  - change (strlen (String "-" (NilZero.string_of_uint (Pos.to_uint p) +++ s))
            = S (String.length (NilZero.string_of_uint (Pos.to_uint p)) + strlen s)).
    simpl strlen. now rewrite nilzero_strlen.
Qed.

Lemma nilzero_nonempty (d : Decimal.uint) :
  (1 <= String.length (NilZero.string_of_uint d))%nat.
Proof. destruct d; simpl; lia. Qed.

(** The decimal form of a number has at least one character. *)
Lemma dec_nonempty (z : Z) : (1 <= String.length (dec z))%nat.
Proof.
  unfold dec. destruct z as [|p|p]; simpl Z.to_int; simpl NilZero.string_of_int.
  - simpl; lia.
  - apply nilzero_nonempty.
  - simpl. pose proof (nilzero_nonempty (Pos.to_uint p)). lia.
Qed.

Lemma nb_digits_double (d : Decimal.uint) :
  (Decimal.nb_digits (Decimal.Little.double d) <= S (Decimal.nb_digits d))%nat
  /\ (Decimal.nb_digits (Decimal.Little.succ_double d) <= S (Decimal.nb_digits d))%nat.
Proof. induction d; simpl; lia. Qed.

Lemma nb_digits_little (p : positive) :
  (Decimal.nb_digits (Pos.to_little_uint p) <= Pos.size_nat p)%nat.
Proof.
  induction p as [p IH|p IH|]; simpl.
  - pose proof (proj2 (nb_digits_double (Pos.to_little_uint p))). lia.
  - pose proof (proj1 (nb_digits_double (Pos.to_little_uint p))). lia.
  - lia.
Qed.

Lemma size_nat_bound (p : positive) (n : nat) :
  Z.pos p < 2 ^ Z.of_nat n -> (Pos.size_nat p <= n)%nat.
Proof.
  revert n. induction p as [p IH|p IH|]; intros n Hn; simpl.
  - destruct n as [|n]; [simpl in Hn; lia|].
    rewrite Nat2Z.inj_succ, Z.pow_succ_r in Hn by lia.
    specialize (IH n). lia.
  - destruct n as [|n]; [simpl in Hn; lia|].
    rewrite Nat2Z.inj_succ, Z.pow_succ_r in Hn by lia.
    specialize (IH n). lia.
  - destruct n as [|n]; [simpl in Hn; lia|]. lia.
Qed.

(** A positive number below 2^n has at most n decimal digits. *)
Lemma dec_length_le (z : Z) (n : nat) :
  0 < z < 2 ^ Z.of_nat n -> (String.length (dec z) <= n)%nat.
Proof.
  intros [Hpos Hlt]. destruct z as [|p|p]; try lia.
  unfold dec. simpl Z.to_int. simpl NilZero.string_of_int.
  assert (Hd : (Decimal.nb_digits (Pos.to_uint p) <= n)%nat).
  { unfold Pos.to_uint. rewrite DecimalFacts.nb_digits_rev.
    pose proof (nb_digits_little p). pose proof (size_nat_bound p n Hlt). lia. }
  pose proof (DecimalPos.Unsigned.to_uint_nonnil p) as Hnn.
  destruct (Pos.to_uint p) eqn:E; try congruence;
    unfold NilZero.string_of_uint; rewrite uint_length; exact Hd.
Qed.

End CStrFacts.

(** ** Loop indices *)

Lemma In_range (i n : Z) : In i (range n) <-> 0 <= i < n.
Proof.
  unfold range. rewrite in_map_iff. split.
  - intros [k [<- Hk]]. apply in_seq in Hk. lia.
  - intros Hi. exists (Z.to_nat i). split; [lia|]. apply in_seq. lia.
Qed.

Lemma range_length (n : Z) : List.length (range n) = Z.to_nat n.
Proof. unfold range. now rewrite length_map, length_seq. Qed.

Lemma range_NoDup (n : Z) : NoDup (range n).
Proof.
  unfold range. apply NoDup_map_inv with (f := Z.to_nat).
  rewrite map_map. erewrite map_ext; [rewrite map_id; apply seq_NoDup|].
  intros a. simpl. apply Nat2Z.id.
Qed.

Lemma range_split (k n : Z) :
  0 <= k < n -> exists later, range n = range k ++ k :: later.
Proof.
  intros Hk. unfold range.
  replace (Z.to_nat n) with (Z.to_nat k + S (Z.to_nat n - S (Z.to_nat k)))%nat by lia.
  rewrite seq_app, map_app. simpl.
  exists (map Z.of_nat (seq (S (Z.to_nat k)) (Z.to_nat n - S (Z.to_nat k)))).
  now rewrite Z2Nat.id by lia.
Qed.

(** ** Running the POSIX supervisor *)

Section PosixExec.

Import Posix.

Variable o : call -> Z.

Lemma posix_exec_join_loop (idx : list Z) (rest : prog call) :
  exec o (join_loop idx rest)
  = (map pthread_join idx ++ fst (exec o rest), snd (exec o rest)).
Proof.
  induction idx as [|i idx IH]; simpl.
  - now destruct (exec o rest).
  - now rewrite IH.
Qed.

Lemma posix_exec_spawn_loop (idx : list Z) (rest : prog call) :
  (forall i, In i idx -> o (pthread_create i) = 0) ->
  exec o (spawn_loop idx rest)
  = (map pthread_create idx ++ fst (exec o rest), snd (exec o rest)).
Proof.
  induction idx as [|i idx IH]; intros Hok; simpl.
  - now destruct (exec o rest).
  - rewrite (Hok i) by now left. simpl.
    rewrite IH by (intros j Hj; apply Hok; now right). reflexivity.
Qed.

Lemma posix_exec_spawn_loop_fails (before : list Z) (k : Z) (later : list Z)
    (rest : prog call) :
  (forall i, In i before -> o (pthread_create i) = 0) ->
  o (pthread_create k) <> 0 ->
  exec o (spawn_loop (before ++ k :: later) rest)
  = (map pthread_create before
       ++ [pthread_create k;
           fprintf Stderr ("Error creating thread " +++ dec k +++ "." +++ LF);
           free],
     EXIT_FAILURE).
Proof.
  intros Hok Hk. induction before as [|i before IH]; simpl.
  - apply Z.eqb_neq in Hk. rewrite Hk. reflexivity.
  - rewrite (Hok i) by now left. simpl.
    rewrite IH by (intros j Hj; apply Hok; now right). reflexivity.
Qed.

(** main up to the spawn loop. *)
Lemma posix_exec_main (N : Z) :
  starts o N ->
  exec o main
  = (let r := exec o (spawn_loop (range N)
                (Call (fprintf Stdout ("Started " +++ dec N +++ " worker threads" +++ LF))
                   (fun _ => join_loop (range N) (Call free (fun _ => Ret EXIT_SUCCESS)))))
     in (prologue N ++ fst r, snd r)).
Proof.
  intros (HN & Hpos & Hmem). unfold main. cbn [exec]. rewrite HN.
  apply Z.leb_gt in Hpos. rewrite Hpos. cbn [exec].
  apply Z.eqb_neq in Hmem. rewrite Hmem. reflexivity.
Qed.

(** The whole run when every thread is created. *)
Lemma posix_run_to_completion (N : Z) :
  starts o N ->
  (forall i, 0 <= i < N -> o (pthread_create i) = 0) ->
  exec o main
  = (prologue N
       ++ map pthread_create (range N)
       ++ [fprintf Stdout ("Started " +++ dec N +++ " worker threads" +++ LF)]
       ++ map pthread_join (range N)
       ++ [free],
     EXIT_SUCCESS).
Proof.
  intros Hs Hok. rewrite (posix_exec_main N Hs). cbv zeta.
  rewrite posix_exec_spawn_loop by (intros i Hi; apply Hok, In_range, Hi).
  simpl. rewrite posix_exec_join_loop. reflexivity.
Qed.

(** The whole run when the thread of slot k is the first that cannot be
created. *)
Lemma posix_run_spawn_fails (N k : Z) :
  starts o N ->
  0 <= k < N ->
  (forall i, 0 <= i < k -> o (pthread_create i) = 0) ->
  o (pthread_create k) <> 0 ->
  exec o main
  = (prologue N
       ++ map pthread_create (range k)
       ++ [pthread_create k;
           fprintf Stderr ("Error creating thread " +++ dec k +++ "." +++ LF);
           free],
     EXIT_FAILURE).
Proof.
  intros Hs Hk Hok Hfail. rewrite (posix_exec_main N Hs). cbv zeta.
  destruct (range_split k N Hk) as [later ->].
  rewrite posix_exec_spawn_loop_fails; auto.
  intros i Hi. apply Hok, In_range, Hi.
Qed.

End PosixExec.

(** ** Running the Windows supervisor *)

Section WindowsExec.

Import Windows.

Variable o : call -> Z.

Lemma store_same (threads : Z -> Z) (i h : Z) : store threads i h i = h.
Proof. unfold store. now rewrite Z.eqb_refl. Qed.

Lemma filled_outside (idx : list Z) (threads : Z -> Z) (j : Z) :
  ~ In j idx -> filled o idx threads j = threads j.
Proof.
  revert threads. induction idx as [|i idx IH]; intros threads Hj; simpl.
  - reflexivity.
  - unfold filled in *. simpl. rewrite IH by (intros H; apply Hj; now right).
    unfold store. destruct (Z.eqb_spec j i); [|reflexivity].
    exfalso. apply Hj. now left.
Qed.

Lemma filled_inside (idx : list Z) (threads : Z -> Z) (j : Z) :
  In j idx -> filled o idx threads j = o (CreateThread j).
Proof.
  revert threads. induction idx as [|i idx IH]; intros threads Hj.
  - destruct Hj.
  - destruct (in_dec Z.eq_dec j idx) as [Hin|Hout].
    + unfold filled in *. simpl. now apply IH.
    + destruct Hj as [->|Hj]; [|contradiction].
      change (filled o idx (store threads j (o (CreateThread j))) j = o (CreateThread j)).
      rewrite filled_outside by assumption. apply store_same.
Qed.

Lemma windows_exec_close_loop (idx : list Z) (threads : Z -> Z) (rest : prog call) :
  exec o (close_loop idx threads rest)
  = (map (fun i => CloseHandle (threads i)) idx ++ fst (exec o rest),
     snd (exec o rest)).
Proof.
  induction idx as [|i idx IH]; simpl.
  - now destruct (exec o rest).
  - now rewrite IH.
Qed.

Lemma windows_exec_spawn_loop (idx : list Z) (hErr : Z) (buffer : string)
    (threads : Z -> Z) (rest : (Z -> Z) -> prog call) :
  (forall i, In i idx -> o (CreateThread i) <> NULL) ->
  exec o (spawn_loop idx hErr buffer threads rest)
  = (map CreateThread idx ++ fst (exec o (rest (filled o idx threads))),
     snd (exec o (rest (filled o idx threads)))).
Proof.
  revert threads. induction idx as [|i idx IH]; intros threads Hok.
  - simpl. now destruct (exec o (rest threads)).
  - cbn [spawn_loop exec]. rewrite !store_same.
    assert (Hi : (o (CreateThread i) =? NULL) = false)
      by (apply Z.eqb_neq, Hok; now left).
    rewrite Hi. rewrite IH by (intros j Hj; apply Hok; now right).
    reflexivity.
Qed.

Lemma windows_exec_spawn_loop_fails (before : list Z) (k : Z) (later : list Z)
    (hErr : Z) (buffer : string) (threads : Z -> Z)
    (rest : (Z -> Z) -> prog call) :
  (forall i, In i before -> o (CreateThread i) <> NULL) ->
  o (CreateThread k) = NULL ->
  exec o (spawn_loop (before ++ k :: later) hErr buffer threads rest)
  = (map CreateThread before
       ++ [CreateThread k; WriteConsoleA hErr (failure_text buffer k); HeapFree],
     EXIT_FAILURE).
Proof.
  intros Hok Hk. revert threads.
  induction before as [|i before IH]; intros threads.
  - cbn [app spawn_loop exec map]. rewrite !store_same.
    rewrite Hk. cbn [Z.eqb NULL]. unfold failure_text. cbv zeta.
    destruct (fst (StringCchPrintfA buffer ARRAYSIZE_messageBuffer
                     ("ERROR: Failed to create thread %d." +++ LF) k) =? S_OK);
      reflexivity.
  - cbn [app spawn_loop exec map]. rewrite !store_same.
    assert (Hi : (o (CreateThread i) =? NULL) = false)
      by (apply Z.eqb_neq, Hok; now left).
    rewrite Hi. rewrite IH by (intros j Hj; apply Hok; now right).
    reflexivity.
Qed.

End WindowsExec.

(** ** Formatting into messageBuffer *)

Section Formatting.

Import Windows.

Lemma strlen_terminated (a tail : string) :
  strlen a = String.length a ->
  strlen ((a +++ String NUL EmptyString) +++ tail) = String.length a.
Proof.
  unfold cat. induction a as [|c a IH]; simpl; intros H.
  - reflexivity.
  - destruct (Ascii.eqb c NUL); [discriminate|]. f_equal. apply IH. lia.
Qed.

Lemma format_fits (buffer format : string) (arg : Z) :
  (String.length (sprintf1 format arg) < ARRAYSIZE_messageBuffer)%nat ->
  StringCchPrintfA buffer ARRAYSIZE_messageBuffer format arg
  = (S_OK, overlay (sprintf1 format arg +++ String NUL EmptyString) buffer).
Proof.
  intros H. unfold StringCchPrintfA. apply Nat.ltb_lt in H. now rewrite H.
Qed.

Lemma started_text (N : Z) :
  sprintf1 ("Started %d worker threads" +++ LF) N
  = "Started " +++ dec N +++ " worker threads" +++ LF.
Proof. reflexivity. Qed.

Lemma started_fits (N : Z) :
  0 < N <= INT_MAX ->
  (String.length ("Started " +++ dec N +++ " worker threads" +++ LF)
   < ARRAYSIZE_messageBuffer)%nat.
Proof.
  intros HN. rewrite !length_cat.
  assert (String.length (dec N) <= 31)%nat
    by (apply dec_length_le; unfold INT_MAX in HN; simpl; lia).
  unfold ARRAYSIZE_messageBuffer. simpl. lia.
Qed.

Lemma started_strlen (N : Z) :
  strlen ("Started " +++ dec N +++ " worker threads" +++ LF)
  = String.length ("Started " +++ dec N +++ " worker threads" +++ LF).
Proof.
  change (strlen ("Started " +++ dec N +++ " worker threads" +++ LF))
    with (8 + strlen (dec N +++ " worker threads" +++ LF))%nat.
  rewrite dec_strlen, !length_cat. reflexivity.
Qed.

(** What main passes to WriteConsoleA after formatting the start-up line. *)
Lemma started_written (buffer : string) (N : Z) :
  0 < N <= INT_MAX ->
  let res := StringCchPrintfA buffer ARRAYSIZE_messageBuffer
               ("Started %d worker threads" +++ LF) N in
  fst res = S_OK
  /\ take (strlen (snd res)) (snd res)
     = "Started " +++ dec N +++ " worker threads" +++ LF.
Proof.
  intros HN. cbv zeta. rewrite format_fits
    by (rewrite started_text; now apply started_fits).
  rewrite started_text. split; [reflexivity|]. cbn [snd]. unfold overlay.
  rewrite strlen_terminated by apply started_strlen.
  rewrite cat_assoc. apply take_cat.
Qed.

End Formatting.

Section WindowsMain.

Import Windows.

Variable o : call -> Z.
Variables (buffer : string) (heap : Z -> Z) (hOut hErr : Z).

Lemma valid_handle (h : Z) :
  h <> NULL -> h <> INVALID_HANDLE_VALUE ->
  (h =? NULL) || (h =? INVALID_HANDLE_VALUE) = false.
Proof.
  intros H1 H2. apply Z.eqb_neq in H1, H2. now rewrite H1, H2.
Qed.

(** main up to the processor count. *)
Lemma windows_exec_main_ready :
  console_ready o hOut hErr ->
  exec o (main buffer heap)
  = (let r := exec o
       (let numThreads := o GetSystemInfo in
        if numThreads <=? 0 then
          Call (WriteConsoleA hErr ("ERROR: Failed to get number of processors" +++ LF))
            (fun _ => ExitProcess EXIT_FAILURE)
        else
          Call (HeapAlloc numThreads) (fun threads =>
          if threads =? NULL then
            Call (WriteConsoleA hErr ("ERROR: Failed to allocate memory for threads" +++ LF))
              (fun _ => ExitProcess EXIT_FAILURE)
          else
            spawn_loop (range numThreads) hErr buffer heap (fun threads =>
              let res := StringCchPrintfA buffer ARRAYSIZE_messageBuffer
                           ("Started %d worker threads" +++ LF) numThreads in
              (if fst res =? S_OK then
                 Call (WriteConsoleA hOut (take (strlen (snd res)) (snd res)))
               else
                 Call (WriteConsoleA hOut ("Started worker threads" +++ LF)))
              (fun _ =>
                 Call (WaitForMultipleObjects numThreads (map threads (range numThreads)))
                   (fun _ => close_loop (range numThreads) threads
                               (Call HeapFree (fun _ => Ret EXIT_SUCCESS)))))))
     in ([GetStdHandle STD_OUTPUT_HANDLE; GetStdHandle STD_ERROR_HANDLE;
          SetConsoleCtrlHandler; GetSystemInfo] ++ fst r, snd r)).
Proof.
  intros (HO & HO1 & HO2 & HE & HE1 & HE2 & HC).
  unfold main. cbn [exec]. rewrite HO, (valid_handle hOut HO1 HO2). cbn [exec].
  rewrite HE, (valid_handle hErr HE1 HE2). cbn [exec].
  apply Z.eqb_neq in HC. rewrite HC. cbn [exec]. reflexivity.
Qed.

(** The whole run when every thread is created. *)
Lemma windows_run_to_completion (N : Z) :
  starts o hOut hErr N ->
  N <= INT_MAX ->
  (forall i, 0 <= i < N -> o (CreateThread i) <> NULL) ->
  exec o (main buffer heap)
  = (prologue N
       ++ map CreateThread (range N)
       ++ [WriteConsoleA hOut ("Started " +++ dec N +++ " worker threads" +++ LF);
           WaitForMultipleObjects N (map (fun i => o (CreateThread i)) (range N))]
       ++ map (fun i => CloseHandle (o (CreateThread i))) (range N)
       ++ [HeapFree],
     EXIT_SUCCESS).
Proof.
  intros (Hready & HN & Hpos & Hmem) Hmax Hok.
  rewrite (windows_exec_main_ready Hready). cbv zeta.
  rewrite HN. apply Z.leb_gt in Hpos as Hpos'. rewrite Hpos'. cbn [exec].
  apply Z.eqb_neq in Hmem. rewrite Hmem.
  rewrite windows_exec_spawn_loop by (intros i Hi; apply Hok, In_range, Hi).
  destruct (started_written buffer N (conj Hpos Hmax)) as [Hres Htext].
  rewrite Hres, Htext. cbn [Z.eqb S_OK exec fst snd].
  rewrite windows_exec_close_loop. cbn [exec fst snd].
  rewrite (map_ext_in (filled o (range N) heap) (fun i => o (CreateThread i)))
    by (intros i Hi; now apply filled_inside).
  rewrite (map_ext_in (fun i => CloseHandle (filled o (range N) heap i))
                      (fun i => CloseHandle (o (CreateThread i))))
    by (intros i Hi; now rewrite filled_inside).
  reflexivity.
Qed.

(** The whole run when the thread of slot k is the first that cannot be
created. *)
Lemma windows_run_spawn_fails (N k : Z) :
  starts o hOut hErr N ->
  0 <= k < N ->
  (forall i, 0 <= i < k -> o (CreateThread i) <> NULL) ->
  o (CreateThread k) = NULL ->
  exec o (main buffer heap)
  = (prologue N
       ++ map CreateThread (range k)
       ++ [CreateThread k; WriteConsoleA hErr (failure_text buffer k); HeapFree],
     EXIT_FAILURE).
Proof.
  intros (Hready & HN & Hpos & Hmem) Hk Hok Hfail.
  rewrite (windows_exec_main_ready Hready). cbv zeta.
  rewrite HN. apply Z.leb_gt in Hpos as Hpos'. rewrite Hpos'. cbn [exec].
  apply Z.eqb_neq in Hmem. rewrite Hmem.
  destruct (range_split k N Hk) as [later ->].
  rewrite windows_exec_spawn_loop_fails; auto.
  intros i Hi. apply Hok, In_range, Hi.
Qed.

End WindowsMain.

(** ** Reading traces *)

Lemma filter_map_all {A B : Type} (f : B -> bool) (g : A -> B) (l : list A) :
  (forall x, f (g x) = true) -> filter f (map g l) = map g l.
Proof.
  intros H. induction l as [|x l IH]; simpl; [reflexivity|].
  now rewrite H, IH.
Qed.

Lemma filter_map_none {A B : Type} (f : B -> bool) (g : A -> B) (l : list A) :
  (forall x, f (g x) = false) -> filter f (map g l) = [].
Proof.
  intros H. induction l as [|x l IH]; simpl; [reflexivity|].
  now rewrite H, IH.
Qed.

Ltac read_trace :=
  repeat first
    [ rewrite filter_app
    | rewrite filter_map_all by reflexivity
    | rewrite filter_map_none by reflexivity
    | progress cbn [filter app Posix.prologue Windows.prologue
        Posix.is_create Posix.is_join Posix.writes_to
        Windows.is_create Windows.is_wait Windows.is_write] ];
  rewrite ?List.app_nil_r; try reflexivity.

(** * The supervisor *)

(** C1 as stated does not hold: on the host with four processors where the
third thread cannot be created, the probe returns 4 but main attempts three
spawns, joins nothing and returns EXIT_FAILURE. *)
Lemma supervisor_stops_at_a_failed_spawn :
  ~ (forall (o : Posix.call -> Z) (N : Z),
        0 < N ->
        o Posix.sysconf_NPROCESSORS_ONLN = N ->
        filter Posix.is_create (fst (exec o Posix.main))
        = map Posix.pthread_create (range N)
        /\ filter Posix.is_join (fst (exec o Posix.main))
           = map Posix.pthread_join (range N)
        /\ snd (exec o Posix.main) = EXIT_SUCCESS).
Proof.
  intros H.
  destruct (H posix_host4_third_spawn_fails 4) as (_ & _ & Hstatus);
    [lia|reflexivity|discriminate Hstatus].
Qed.

(** On Windows the processor count is queried only once both console
handles and the control handler are in place. *)
Lemma windows_query_made (o : Windows.call -> Z) (buffer : string) (heap : Z -> Z) :
  In Windows.GetSystemInfo (fst (exec o (Windows.main buffer heap))) ->
  Windows.console_ready o
    (o (Windows.GetStdHandle Windows.STD_OUTPUT_HANDLE))
    (o (Windows.GetStdHandle Windows.STD_ERROR_HANDLE)).
Proof.
  unfold Windows.main, Windows.console_ready. cbn [exec].
  destruct ((o (Windows.GetStdHandle Windows.STD_OUTPUT_HANDLE) =? NULL)
            || (o (Windows.GetStdHandle Windows.STD_OUTPUT_HANDLE)
                =? Windows.INVALID_HANDLE_VALUE)) eqn:HO.
  { simpl. intuition discriminate. }
  cbn [exec].
  destruct ((o (Windows.GetStdHandle Windows.STD_ERROR_HANDLE) =? NULL)
            || (o (Windows.GetStdHandle Windows.STD_ERROR_HANDLE)
                =? Windows.INVALID_HANDLE_VALUE)) eqn:HE.
  { simpl. intuition discriminate. }
  cbn [exec].
  destruct (o Windows.SetConsoleCtrlHandler =? Windows.FALSE) eqn:HC.
  { simpl. intuition discriminate. }
  intros _. apply orb_false_elim in HO as [HO1 HO2], HE as [HE1 HE2].
  apply Z.eqb_neq in HO1, HO2, HE1, HE2, HC. repeat split; assumption.
Qed.

(** C8: If the processor-count query returns zero or a negative value, the
program writes a diagnostic to standard error and exits with a nonzero
status; no thread is created (the calls made hold no pthread_create and no
CreateThread). *)
Theorem nonpositive_processor_count_is_fatal :
  (forall (o : Posix.call -> Z),
      o Posix.sysconf_NPROCESSORS_ONLN <= 0 ->
      exec o Posix.main
      = ([Posix.sysconf_NPROCESSORS_ONLN;
          Posix.signal Posix.SIGINT; Posix.signal Posix.SIGTERM;
          Posix.fprintf Stderr ("Error getting the number of processors." +++ LF)],
         EXIT_FAILURE))
  /\ (forall (o : Windows.call -> Z) (buffer : string) (heap : Z -> Z),
      In Windows.GetSystemInfo (fst (exec o (Windows.main buffer heap))) ->
      o Windows.GetSystemInfo <= 0 ->
      exec o (Windows.main buffer heap)
      = ([Windows.GetStdHandle Windows.STD_OUTPUT_HANDLE;
          Windows.GetStdHandle Windows.STD_ERROR_HANDLE;
          Windows.SetConsoleCtrlHandler; Windows.GetSystemInfo;
          Windows.WriteConsoleA (o (Windows.GetStdHandle Windows.STD_ERROR_HANDLE))
            ("ERROR: Failed to get number of processors" +++ LF)],
         EXIT_FAILURE))
  /\ EXIT_FAILURE <> 0.
Proof.
  split; [|split].
  - intros o Hn. unfold Posix.main. cbn [exec].
    apply Z.leb_le in Hn. rewrite Hn. reflexivity.
  - intros o buffer heap Hmade Hn.
    rewrite (windows_exec_main_ready o buffer heap _ _
               (windows_query_made o buffer heap Hmade)).
    cbv zeta. apply Z.leb_le in Hn. rewrite Hn. reflexivity.
  - discriminate.
Qed.

Lemma nonpositive_processor_count_is_fatal_witness :
  (posix_host_no_count Posix.sysconf_NPROCESSORS_ONLN <= 0
   /\ exec posix_host_no_count Posix.main
      = ([Posix.sysconf_NPROCESSORS_ONLN;
          Posix.signal Posix.SIGINT; Posix.signal Posix.SIGTERM;
          Posix.fprintf Stderr ("Error getting the number of processors." +++ LF)],
         EXIT_FAILURE))
  /\ (In Windows.GetSystemInfo
        (fst (exec (windows_host 0) (Windows.main stale_buffer stale_heap)))
      /\ windows_host 0 Windows.GetSystemInfo <= 0
      /\ exec (windows_host 0) (Windows.main stale_buffer stale_heap)
         = ([Windows.GetStdHandle Windows.STD_OUTPUT_HANDLE;
             Windows.GetStdHandle Windows.STD_ERROR_HANDLE;
             Windows.SetConsoleCtrlHandler; Windows.GetSystemInfo;
             Windows.WriteConsoleA 112 ("ERROR: Failed to get number of processors" +++ LF)],
            EXIT_FAILURE)).
Proof.
  assert (Hp : posix_host_no_count Posix.sysconf_NPROCESSORS_ONLN <= 0)
    by (simpl; lia).
  assert (Hmade : In Windows.GetSystemInfo
                    (fst (exec (windows_host 0) (Windows.main stale_buffer stale_heap))))
    by (simpl; tauto).
  assert (Hw : windows_host 0 Windows.GetSystemInfo <= 0) by (simpl; lia).
  split.
  - split; [exact Hp|].
    exact (proj1 nonpositive_processor_count_is_fatal posix_host_no_count Hp).
  - split; [exact Hmade|]. split; [exact Hw|].
    exact (proj1 (proj2 nonpositive_processor_count_is_fatal)
             (windows_host 0) stale_buffer stale_heap Hmade Hw).
Defined.

(** C9: In every execution in which all N spawns succeed, exactly one line
[Started <N> worker threads], N in decimal, is written to standard output:
every spawn comes before it, every join (on Windows: the wait on the
handles) after it, and the supervisor writes nothing else. *)
Theorem started_line_between_spawns_and_joins :
  (forall (o : Posix.call -> Z) (N : Z),
      Posix.starts o N ->
      (forall i, 0 <= i < N -> o (Posix.pthread_create i) = 0) ->
      exists before after,
        fst (exec o Posix.main)
        = before
            ++ Posix.fprintf Stdout ("Started " +++ dec N +++ " worker threads" +++ LF)
            :: after
        /\ filter Posix.is_create before = map Posix.pthread_create (range N)
        /\ filter Posix.is_join before = []
        /\ filter Posix.is_create after = []
        /\ filter Posix.is_join after = map Posix.pthread_join (range N)
        /\ filter (Posix.writes_to Stdout) (before ++ after) = [])
  /\ (forall (o : Windows.call -> Z) (buffer : string) (heap : Z -> Z)
             (hOut hErr N : Z),
      Windows.starts o hOut hErr N ->
      N <= Windows.INT_MAX ->
      (forall i, 0 <= i < N -> o (Windows.CreateThread i) <> NULL) ->
      exists before after,
        fst (exec o (Windows.main buffer heap))
        = before
            ++ Windows.WriteConsoleA hOut ("Started " +++ dec N +++ " worker threads" +++ LF)
            :: after
        /\ filter Windows.is_create before = map Windows.CreateThread (range N)
        /\ filter Windows.is_wait before = []
        /\ filter Windows.is_create after = []
        /\ filter Windows.is_wait after
           = [Windows.WaitForMultipleObjects N
                (map (fun i => o (Windows.CreateThread i)) (range N))]
        /\ filter Windows.is_write (before ++ after) = []).
Proof.
  split.
  - intros o N Hs Hok. rewrite (posix_run_to_completion o N Hs Hok).
    exists (Posix.prologue N ++ map Posix.pthread_create (range N)).
    exists (map Posix.pthread_join (range N) ++ [Posix.free]).
    split; [cbn [fst]; now rewrite <- !app_assoc|].
    repeat split; read_trace.
  - intros o buffer heap hOut hErr N Hs Hmax Hok.
    rewrite (windows_run_to_completion o buffer heap hOut hErr N Hs Hmax Hok).
    exists (Windows.prologue N ++ map Windows.CreateThread (range N)).
    exists (Windows.WaitForMultipleObjects N
              (map (fun i => o (Windows.CreateThread i)) (range N))
            :: map (fun i => Windows.CloseHandle (o (Windows.CreateThread i))) (range N)
            ++ [Windows.HeapFree]).
    split; [cbn [fst]; now rewrite <- !app_assoc|].
    repeat split; read_trace.
Qed.

Lemma started_line_between_spawns_and_joins_witness :
  (Posix.starts posix_host4 4
   /\ (forall i, 0 <= i < 4 -> posix_host4 (Posix.pthread_create i) = 0)
   /\ exists before after,
      fst (exec posix_host4 Posix.main)
      = before
          ++ Posix.fprintf Stdout ("Started " +++ dec 4 +++ " worker threads" +++ LF)
          :: after
      /\ filter Posix.is_create before = map Posix.pthread_create (range 4)
      /\ filter Posix.is_join before = []
      /\ filter Posix.is_create after = []
      /\ filter Posix.is_join after = map Posix.pthread_join (range 4)
      /\ filter (Posix.writes_to Stdout) (before ++ after) = [])
  /\ (Windows.starts (windows_host 4) 111 112 4
      /\ 4 <= Windows.INT_MAX
      /\ (forall i, 0 <= i < 4 -> windows_host 4 (Windows.CreateThread i) <> NULL)
      /\ exists before after,
         fst (exec (windows_host 4) (Windows.main stale_buffer stale_heap))
         = before
             ++ Windows.WriteConsoleA 111 ("Started " +++ dec 4 +++ " worker threads" +++ LF)
             :: after
         /\ filter Windows.is_create before = map Windows.CreateThread (range 4)
         /\ filter Windows.is_wait before = []
         /\ filter Windows.is_create after = []
         /\ filter Windows.is_wait after
            = [Windows.WaitForMultipleObjects 4
                 (map (fun i => windows_host 4 (Windows.CreateThread i)) (range 4))]
         /\ filter Windows.is_write (before ++ after) = []).
Proof.
  assert (Hp : Posix.starts posix_host4 4)
    by (unfold Posix.starts, NULL; simpl; repeat split; lia).
  assert (Hpc : forall i, 0 <= i < 4 -> posix_host4 (Posix.pthread_create i) = 0)
    by (intros i Hi; reflexivity).
  assert (Hw : Windows.starts (windows_host 4) 111 112 4)
    by (unfold Windows.starts, Windows.console_ready, NULL,
          Windows.INVALID_HANDLE_VALUE, Windows.FALSE; simpl; repeat split; lia).
  assert (Hmax : 4 <= Windows.INT_MAX) by (unfold Windows.INT_MAX; lia).
  assert (Hwc : forall i, 0 <= i < 4 -> windows_host 4 (Windows.CreateThread i) <> NULL)
    by (intros i Hi; change (500 + i <> 0); lia).
  split.
  - split; [exact Hp|]. split; [exact Hpc|].
    exact (proj1 started_line_between_spawns_and_joins posix_host4 4 Hp Hpc).
  - split; [exact Hw|]. split; [exact Hmax|]. split; [exact Hwc|].
    exact (proj2 started_line_between_spawns_and_joins
             (windows_host 4) stale_buffer stale_heap 111 112 4 Hw Hmax Hwc).
Defined.

(** C10: On the Windows spawn-failure path, when formatting succeeds, the
number of characters of the diagnostic passed to WriteConsoleA for standard
error is the length of the template ["ERROR: Failed to create thread %d.\n"],
not the length of the formatted text in the buffer: what is written is the
formatted message cut to the template's length, or, when it is shorter, the
message followed by its terminating zero byte. *)
Theorem windows_spawn_diagnostic_has_template_length
    (o : Windows.call -> Z) (buffer : string) (heap : Z -> Z)
    (hOut hErr N k : Z) :
  let template := "ERROR: Failed to create thread %d." +++ LF in
  let formatted := "ERROR: Failed to create thread " +++ dec k +++ "." +++ LF in
  let res := Windows.StringCchPrintfA buffer Windows.ARRAYSIZE_messageBuffer
               template k in
  Windows.starts o hOut hErr N ->
  0 <= k < N ->
  (forall i, 0 <= i < k -> o (Windows.CreateThread i) <> NULL) ->
  o (Windows.CreateThread k) = NULL ->
  fst res = Windows.S_OK ->
  exists written,
    filter Windows.is_write (fst (exec o (Windows.main buffer heap)))
    = [Windows.WriteConsoleA hErr written]
    /\ written = take (strlen template) (snd res)
    /\ strlen template = 35%nat
    /\ String.length written = strlen template
    /\ written = take (strlen template) (formatted +++ String NUL EmptyString)
    /\ ((strlen template <= String.length formatted)%nat ->
        written = take (strlen template) formatted)
    /\ ((String.length formatted < strlen template)%nat ->
        written = formatted +++ String NUL EmptyString).
Proof.
  intros template formatted res Hs Hk Hok Hfail Hfmt.
  rewrite (windows_run_spawn_fails o buffer heap hOut hErr N k Hs Hk Hok Hfail).
  cbn [fst]. exists (Windows.failure_text buffer k).
  split; [read_trace|].
  assert (Hlen : String.length formatted = (33 + String.length (dec k))%nat).
  { unfold formatted. rewrite !length_cat. simpl. lia. }
  pose proof (dec_nonempty k) as Hdec.
  assert (Hcut : Windows.failure_text buffer k
                 = take 35 (formatted +++ String NUL EmptyString)).
  { unfold Windows.failure_text. cbv zeta. fold template. fold res.
    rewrite Hfmt. change (Windows.S_OK =? Windows.S_OK) with true. cbv iota.
    change (strlen template) with 35%nat.
    unfold res, Windows.StringCchPrintfA in *.
    change (sprintf1 template k) with formatted in *.
    destruct (String.length formatted <? Windows.ARRAYSIZE_messageBuffer)%nat;
      [|discriminate Hfmt].
    cbn [snd]. unfold overlay. rewrite take_cat_less; [reflexivity|].
    rewrite length_cat, Hlen. cbn [String.length]. lia. }
  assert (Hres : Windows.failure_text buffer k = take (strlen template) (snd res)).
  { unfold Windows.failure_text. cbv zeta. fold template. fold res.
    rewrite Hfmt. reflexivity. }
  change (strlen template) with 35%nat in *.
  split; [exact Hres|]. split; [reflexivity|].
  split; [rewrite Hcut, length_take, length_cat, Hlen; cbn [String.length]; lia|].
  split; [exact Hcut|]. split.
  - intros Hlong. rewrite Hcut. now apply take_cat_less.
  - intros Hshort. rewrite Hcut.
    replace 35%nat with (String.length formatted + 1)%nat by lia.
    rewrite take_cat_more. reflexivity.
Qed.

Lemma windows_spawn_diagnostic_has_template_length_witness :
  Windows.starts (windows_host_spawn_fails 4 2) 111 112 4
  /\ 0 <= 2 < 4
  /\ (forall i, 0 <= i < 2 ->
        windows_host_spawn_fails 4 2 (Windows.CreateThread i) <> NULL)
  /\ windows_host_spawn_fails 4 2 (Windows.CreateThread 2) = NULL
  /\ fst (Windows.StringCchPrintfA stale_buffer Windows.ARRAYSIZE_messageBuffer
            ("ERROR: Failed to create thread %d." +++ LF) 2) = Windows.S_OK
  /\ exists written,
    filter Windows.is_write
      (fst (exec (windows_host_spawn_fails 4 2) (Windows.main stale_buffer stale_heap)))
    = [Windows.WriteConsoleA 112 written]
    /\ written
       = take (strlen ("ERROR: Failed to create thread %d." +++ LF))
           (snd (Windows.StringCchPrintfA stale_buffer Windows.ARRAYSIZE_messageBuffer
                   ("ERROR: Failed to create thread %d." +++ LF) 2))
    /\ strlen ("ERROR: Failed to create thread %d." +++ LF) = 35%nat
    /\ String.length written = strlen ("ERROR: Failed to create thread %d." +++ LF)
    /\ written
       = take (strlen ("ERROR: Failed to create thread %d." +++ LF))
           (("ERROR: Failed to create thread " +++ dec 2 +++ "." +++ LF)
              +++ String NUL EmptyString)
    /\ ((strlen ("ERROR: Failed to create thread %d." +++ LF)
         <= String.length ("ERROR: Failed to create thread " +++ dec 2 +++ "." +++ LF))%nat ->
        written
        = take (strlen ("ERROR: Failed to create thread %d." +++ LF))
            ("ERROR: Failed to create thread " +++ dec 2 +++ "." +++ LF))
    /\ ((String.length ("ERROR: Failed to create thread " +++ dec 2 +++ "." +++ LF)
         < strlen ("ERROR: Failed to create thread %d." +++ LF))%nat ->
        written
        = ("ERROR: Failed to create thread " +++ dec 2 +++ "." +++ LF)
            +++ String NUL EmptyString).
Proof.
  assert (Hs : Windows.starts (windows_host_spawn_fails 4 2) 111 112 4)
    by (unfold Windows.starts, Windows.console_ready, NULL,
          Windows.INVALID_HANDLE_VALUE, Windows.FALSE; simpl; repeat split; lia).
  assert (Hk : 0 <= 2 < 4) by lia.
  assert (Hok : forall i, 0 <= i < 2 ->
                  windows_host_spawn_fails 4 2 (Windows.CreateThread i) <> NULL).
  { intros i Hi. unfold windows_host_spawn_fails.
    replace (i =? 2) with false by (symmetry; apply Z.eqb_neq; lia).
    unfold NULL. lia. }
  assert (Hfail : windows_host_spawn_fails 4 2 (Windows.CreateThread 2) = NULL)
    by reflexivity.
  assert (Hfmt : fst (Windows.StringCchPrintfA stale_buffer
                        Windows.ARRAYSIZE_messageBuffer
                        ("ERROR: Failed to create thread %d." +++ LF) 2)
                 = Windows.S_OK) by reflexivity.
  split; [exact Hs|]. split; [exact Hk|]. split; [exact Hok|].
  split; [exact Hfail|]. split; [exact Hfmt|].
  exact (windows_spawn_diagnostic_has_template_length
           (windows_host_spawn_fails 4 2) stale_buffer stale_heap 111 112 4 2
           Hs Hk Hok Hfail Hfmt).
Defined.

(** Where the Windows diagnostic stops naming the thread: with 10001
processors and the spawn of slot 10000 failing, the diagnostic written to standard error is
[ERROR: Failed to create thread 1000]: the formatted message
[ERROR: Failed to create thread 10000.\n] cut to the 35 characters of its
template.  It names thread 1000, not thread 10000.  The rest of the claim
holds there: the array is freed, the status is nonzero, there is no wait and
no start-up line. *)
Theorem windows_spawn_diagnostic_names_another_thread :
  let o := windows_host_spawn_fails 10001 10000 in
  let run := exec o (Windows.main stale_buffer stale_heap) in
  sprintf1 ("ERROR: Failed to create thread %d." +++ LF) 10000
  = "ERROR: Failed to create thread 10000." +++ LF
  /\ filter Windows.is_write (fst run)
     = [Windows.WriteConsoleA 112 "ERROR: Failed to create thread 1000"]
  /\ filter Windows.is_wait (fst run) = []
  /\ last (fst run) Windows.GetSystemInfo = Windows.HeapFree
  /\ snd run = EXIT_FAILURE.
Proof.
  intros o run. unfold run.
  rewrite (windows_run_spawn_fails o stale_buffer stale_heap 111 112 10001 10000).
  - cbn [fst snd].
    assert (Hcut : Windows.failure_text stale_buffer 10000
                   = "ERROR: Failed to create thread 1000"%string)
      by (vm_compute; reflexivity).
    rewrite Hcut. split; [vm_compute; reflexivity|].
    split; [read_trace|]. split; [read_trace|]. split; [|reflexivity].
    rewrite !app_assoc.
    change [Windows.CreateThread 10000;
            Windows.WriteConsoleA 112 "ERROR: Failed to create thread 1000";
            Windows.HeapFree]
      with ([Windows.CreateThread 10000;
             Windows.WriteConsoleA 112 "ERROR: Failed to create thread 1000"]
              ++ [Windows.HeapFree]).
    rewrite app_assoc. apply last_last.
  - unfold Windows.starts, Windows.console_ready, NULL,
      Windows.INVALID_HANDLE_VALUE, Windows.FALSE. simpl. repeat split; lia.
  - lia.
  - intros i Hi. unfold o, windows_host_spawn_fails.
    replace (i =? 10000) with false by (symmetry; apply Z.eqb_neq; lia).
    unfold NULL. lia.
  - reflexivity.
Qed.

(** The POSIX sibling of C7: when the spawn of slot k fails, main writes
[Error creating thread <k>.] to standard error, frees the array and returns
EXIT_FAILURE; it joins nothing and does not write the start-up line. *)
Lemma posix_spawn_failure (o : Posix.call -> Z) (N k : Z) :
  Posix.starts o N ->
  0 <= k < N ->
  (forall i, 0 <= i < k -> o (Posix.pthread_create i) = 0) ->
  o (Posix.pthread_create k) <> 0 ->
  let run := exec o Posix.main in
  snd run = EXIT_FAILURE
  /\ filter (Posix.writes_to Stderr) (fst run)
     = [Posix.fprintf Stderr ("Error creating thread " +++ dec k +++ "." +++ LF)]
  /\ filter (Posix.writes_to Stdout) (fst run) = []
  /\ filter Posix.is_join (fst run) = []
  /\ filter Posix.is_create (fst run) = map Posix.pthread_create (range k ++ [k])
  /\ last (fst run) Posix.sysconf_NPROCESSORS_ONLN = Posix.free.
Proof.
  intros Hs Hk Hok Hfail run. unfold run.
  rewrite (posix_run_spawn_fails o N k Hs Hk Hok Hfail). cbn [fst snd].
  split; [reflexivity|]. repeat split; try solve [read_trace].
  - rewrite map_app. read_trace.
  - rewrite !app_assoc.
    change [Posix.pthread_create k;
            Posix.fprintf Stderr ("Error creating thread " +++ dec k +++ "." +++ LF);
            Posix.free]
      with ([Posix.pthread_create k;
             Posix.fprintf Stderr ("Error creating thread " +++ dec k +++ "." +++ LF)]
              ++ [Posix.free]).
    rewrite app_assoc. apply last_last.
Qed.

Lemma posix_spawn_failure_example :
  exec posix_host4_third_spawn_fails Posix.main
  = ([Posix.sysconf_NPROCESSORS_ONLN; Posix.signal 2; Posix.signal 15;
      Posix.malloc 4; Posix.pthread_create 0; Posix.pthread_create 1;
      Posix.pthread_create 2;
      Posix.fprintf Stderr ("Error creating thread 2." +++ LF); Posix.free],
     EXIT_FAILURE).
Proof. reflexivity. Qed.

(** C6: On the POSIX host where signal(SIGTERM, exit_handler) fails, main
does not abort: it writes no diagnostic, creates both workers, announces
them, joins them and returns EXIT_SUCCESS. *)
Theorem posix_failed_registration_goes_unnoticed :
  posix_host2_sigterm_refused (Posix.signal Posix.SIGTERM) = Posix.SIG_ERR
  /\ exec posix_host2_sigterm_refused Posix.main
     = ([Posix.sysconf_NPROCESSORS_ONLN;
         Posix.signal Posix.SIGINT; Posix.signal Posix.SIGTERM;
         Posix.malloc 2; Posix.pthread_create 0; Posix.pthread_create 1;
         Posix.fprintf Stdout ("Started 2 worker threads" +++ LF);
         Posix.pthread_join 0; Posix.pthread_join 1; Posix.free],
        EXIT_SUCCESS).
Proof. split; reflexivity. Qed.

(** The Windows sibling of C6: when SetConsoleCtrlHandler fails, main writes
a diagnostic to standard error and exits with EXIT_FAILURE before anything
else happens. *)
Lemma windows_failed_registration_is_fatal
    (o : Windows.call -> Z) (buffer : string) (heap : Z -> Z) (hOut hErr : Z) :
  o (Windows.GetStdHandle Windows.STD_OUTPUT_HANDLE) = hOut ->
  hOut <> NULL -> hOut <> Windows.INVALID_HANDLE_VALUE ->
  o (Windows.GetStdHandle Windows.STD_ERROR_HANDLE) = hErr ->
  hErr <> NULL -> hErr <> Windows.INVALID_HANDLE_VALUE ->
  o Windows.SetConsoleCtrlHandler = Windows.FALSE ->
  exec o (Windows.main buffer heap)
  = ([Windows.GetStdHandle Windows.STD_OUTPUT_HANDLE;
      Windows.GetStdHandle Windows.STD_ERROR_HANDLE;
      Windows.SetConsoleCtrlHandler;
      Windows.WriteConsoleA hErr ("ERROR: Failed to set console ctrl handler" +++ LF)],
     EXIT_FAILURE).
Proof.
  intros HO HO1 HO2 HE HE1 HE2 HC.
  unfold Windows.main. cbn [exec]. rewrite HO, (valid_handle hOut HO1 HO2).
  cbn [exec]. rewrite HE, (valid_handle hErr HE1 HE2). cbn [exec].
  rewrite HC. reflexivity.
Qed.

(** C5: The POSIX signal handler writes its line
[Received exit signal <id>: Exiting...] to standard output, and nothing to
standard error, whatever the signal. *)
Theorem posix_handler_writes_to_standard_output (signal : Z) (m : Posix.memory) :
  fst (Posix.exit_handler signal m)
  = [Posix.fprintf Stdout ("Received exit signal " +++ dec signal +++ ": Exiting..." +++ LF)]
  /\ filter (Posix.writes_to Stderr) (fst (Posix.exit_handler signal m)) = []
  /\ fst (Posix.exit_handler Posix.SIGINT m)
     = [Posix.fprintf Stdout ("Received exit signal 2: Exiting..." +++ LF)].
Proof. repeat split. Qed.

(** * The stop flag *)

Section StopFlag.

Import Posix.

Variable o : call -> Z.

(** A step leaves the flag alone, unless it is the handler setting it. *)
Lemma step_stop (p p' : process) (a : action) :
  step o p a = Some p' ->
  stop (mem p') = stop (mem p)
  \/ ((exists sig, a = Deliver sig) /\ stop (mem p') = 1).
Proof.
  unfold step. destruct (exit_status p); [discriminate|].
  destruct a as [|i|sig].
  - unfold supervisor_step. destruct (supervisor p) as [status|c k].
    + intros [= <-]. now left.
    + destruct c; try (intros [= <-]; now left).
      destruct (lookup i (threads p)) as [[|]|]; try discriminate.
      intros [= <-]. now left.
  - unfold worker_step. destruct (lookup i (threads p)) as [[|]|]; try discriminate.
    intros [= <-]. now left.
  - unfold deliver_step. destruct (existsb (Z.eqb sig) (handlers p)); [|discriminate].
    intros [= <-]. right. split; [now exists sig|reflexivity].
Qed.

(** A step leaves the log of reads alone, unless it is a worker reading the
flag. *)
Lemma step_reads (p p' : process) (a : action) :
  step o p a = Some p' ->
  (reads p' = reads p)
  \/ (reads p' = reads p ++ [stop (mem p)] /\ mem p' = mem p).
Proof.
  unfold step. destruct (exit_status p); [discriminate|].
  destruct a as [|i|sig].
  - unfold supervisor_step. destruct (supervisor p) as [status|c k].
    + intros [= <-]. now left.
    + destruct c; try (intros [= <-]; now left).
      destruct (lookup i (threads p)) as [[|]|]; try discriminate.
      intros [= <-]. now left.
  - unfold worker_step. destruct (lookup i (threads p)) as [[|]|]; try discriminate.
    intros [= <-]. right. split; reflexivity.
  - unfold deliver_step. destruct (existsb (Z.eqb sig) (handlers p)); [|discriminate].
    intros [= <-]. now left.
Qed.

Lemma settled_snoc (l : list Z) (x : Z) :
  (forall earlier v later,
      l = earlier ++ v :: later -> v <> 0 -> Forall (fun w => w <> 0) later) ->
  (x = 0 -> Forall (fun v => v = 0) l) ->
  forall earlier v later,
    l ++ [x] = earlier ++ v :: later -> v <> 0 -> Forall (fun w => w <> 0) later.
Proof.
  intros Hl Hx earlier v later Heq Hv.
  destruct (Z.eq_dec x 0) as [Hx0|Hx0].
  - exfalso. assert (Hall : Forall (fun v => v = 0) (l ++ [x])).
    { apply Forall_app. split; [now apply Hx|]. now constructor. }
    rewrite Heq in Hall. apply Forall_app in Hall as [_ Hall].
    inversion Hall; subst. contradiction.
  - destruct later as [|y later' _] using rev_ind.
    + constructor.
    + rewrite app_comm_cons, app_assoc in Heq.
      apply app_inj_tail in Heq as [Heq ->].
      apply Forall_app. split; [|now constructor].
      now apply (Hl earlier v later').
Qed.

Lemma step_settled (p p' : process) (a : action) :
  step o p a = Some p' -> reads_settled p -> reads_settled p'.
Proof.
  intros Hstep [Hclear Hmono].
  destruct (step_reads p p' a Hstep) as [Hr|[Hr Hm]];
    destruct (step_stop p p' a Hstep) as [Hs|[_ Hs]]; unfold reads_settled.
  - rewrite Hr, Hs. now split.
  - rewrite Hr, Hs. split; [discriminate|assumption].
  - rewrite Hr, Hs. split.
    + intros H0. apply Forall_app. split; [now apply Hclear|]. now constructor.
    + now apply settled_snoc.
  - rewrite Hr, Hm. split.
    + intros H0. apply Forall_app. split; [now apply Hclear|]. now constructor.
    + now apply settled_snoc.
Qed.

Lemma run_settled (schedule : list action) (p : process) :
  reads_settled p -> reads_settled (run o schedule p).
Proof.
  revert p. induction schedule as [|a schedule IH]; intros p Hp; simpl.
  - exact Hp.
  - destruct (step o p a) as [p'|] eqn:Hstep.
    + apply IH. now apply (step_settled p p' a).
    + now apply IH.
Qed.

Lemma initial_settled : reads_settled initial.
Proof.
  split.
  - intros _. constructor.
  - intros [|x earlier] v later H; discriminate H.
Qed.

End StopFlag.

(** C2: The stop flag starts false; a step of the process changes it only
when it is the signal handler running, and then to true; and in every
execution, under every schedule, once a worker's read has seen the flag
true, no later read sees it false. *)
Theorem stop_flag_is_monotonic (o : Posix.call -> Z) (schedule : list Posix.action) :
  Posix.stop (Posix.mem Posix.initial) = 0
  /\ (forall (p p' : Posix.process) (a : Posix.action),
         Posix.step o p a = Some p' ->
         Posix.stop (Posix.mem p') <> Posix.stop (Posix.mem p) ->
         (exists sig, a = Posix.Deliver sig) /\ Posix.stop (Posix.mem p') = 1)
  /\ (forall (earlier : list Z) (v : Z) (later : list Z),
         Posix.reads (Posix.run o schedule Posix.initial) = earlier ++ v :: later ->
         v <> 0 ->
         Forall (fun w => w <> 0) later).
Proof.
  split; [reflexivity|]. split.
  - intros p p' a Hstep Hchange.
    destruct (step_stop o p p' a Hstep) as [Hsame|Hset]; [contradiction|exact Hset].
  - apply (run_settled o schedule Posix.initial (initial_settled)).
Qed.

Lemma stop_flag_is_monotonic_witness :
  Posix.reads (Posix.run posix_host4 sigint_run Posix.initial) = [0; 0] ++ 1 :: [1]
  /\ 1 <> 0
  /\ Forall (fun w => w <> 0) [1].
Proof.
  assert (Hreads : Posix.reads (Posix.run posix_host4 sigint_run Posix.initial)
                   = [0; 0] ++ 1 :: [1]) by reflexivity.
  assert (Hset : 1 <> 0) by discriminate.
  split; [exact Hreads|]. split; [exact Hset|].
  exact (proj2 (proj2 (stop_flag_is_monotonic posix_host4 sigint_run))
           [0; 0] 1 [1] Hreads Hset).
Defined.

(** C4: On the POSIX host where signal(SIGINT, exit_handler) fails, the
process still runs to a zero exit status: main starts its worker, SIGTERM
stops it, main joins it and returns EXIT_SUCCESS.  Only the handler for
SIGTERM was ever installed. *)
Theorem posix_exit_status_zero_after_failed_registration :
  let p := Posix.run posix_host1_sigint_refused sigterm_run Posix.initial in
  posix_host1_sigint_refused (Posix.signal Posix.SIGINT) = Posix.SIG_ERR
  /\ Posix.handlers p = [Posix.SIGTERM]
  /\ Posix.threads p = [(0, Posix.Returned)]
  /\ Posix.exit_status p = Some EXIT_SUCCESS.
Proof. repeat split. Qed.

(** * The exit status *)

Section ExitStatus.

Import Posix.

Variable o : call -> Z.

Lemma first_failure (idx : list Z) :
  (forall i, In i idx -> o (pthread_create i) = 0)
  \/ (exists before k later,
         idx = before ++ k :: later
         /\ (forall i, In i before -> o (pthread_create i) = 0)
         /\ o (pthread_create k) <> 0).
Proof.
  induction idx as [|j idx IH].
  - left. intros i [].
  - destruct (Z.eq_dec (o (pthread_create j)) 0) as [Hj|Hj].
    + destruct IH as [Hall|(before & k & later & -> & Hbefore & Hk)].
      * left. intros i [<-|Hi]; auto.
      * right. exists (j :: before), k, later. split; [reflexivity|].
        split; [|exact Hk]. intros i [<-|Hi]; auto.
    + right. exists [], j, idx. split; [reflexivity|].
      split; [intros i []|exact Hj].
Qed.

(** main returns EXIT_SUCCESS only when the count is positive, the array is
allocated and every thread is created. *)
Lemma posix_success_needs_every_spawn :
  snd (exec o main) = EXIT_SUCCESS ->
  starts o (o sysconf_NPROCESSORS_ONLN)
  /\ (forall i, 0 <= i < o sysconf_NPROCESSORS_ONLN -> o (pthread_create i) = 0).
Proof.
  set (N := o sysconf_NPROCESSORS_ONLN). intros Hzero.
  assert (Hs : starts o N).
  { unfold starts. split; [reflexivity|].
    unfold main in Hzero. cbn [exec snd] in Hzero. fold N in Hzero.
    destruct (N <=? 0) eqn:HN; [discriminate Hzero|].
    cbn [exec snd] in Hzero.
    destruct (o (malloc N) =? NULL) eqn:HM; [discriminate Hzero|].
    apply Z.leb_gt in HN. apply Z.eqb_neq in HM. now split. }
  split; [exact Hs|].
  rewrite (posix_exec_main o N Hs) in Hzero. cbv zeta in Hzero. cbn [snd] in Hzero.
  destruct (first_failure (range N)) as [Hall|(before & k & later & Heq & Hb & Hk)].
  - intros i Hi. apply Hall, In_range, Hi.
  - rewrite Heq, posix_exec_spawn_loop_fails in Hzero by assumption.
    discriminate Hzero.
Qed.

(** main returns EXIT_FAILURE when the array cannot be allocated. *)
Lemma posix_allocation_failure (N : Z) :
  o sysconf_NPROCESSORS_ONLN = N -> 0 < N -> o (malloc N) = NULL ->
  exec o main
  = ([sysconf_NPROCESSORS_ONLN; signal SIGINT; signal SIGTERM; malloc N;
      fprintf Stderr ("Error allocating memory for threads." +++ LF)],
     EXIT_FAILURE).
Proof.
  intros HN Hpos Hmem. unfold main. cbn [exec]. rewrite HN.
  apply Z.leb_gt in Hpos. rewrite Hpos. cbn [exec]. rewrite Hmem. reflexivity.
Qed.

Lemma step_follows_main (p p' : process) (a : action) :
  step o p a = Some p' -> follows_main o p -> follows_main o p'.
Proof.
  unfold step, follows_main. destruct (exit_status p) eqn:Hexit; [discriminate|].
  intros Hstep [Hcalls _]. destruct a as [|i|sig].
  - unfold supervisor_step in Hstep.
    destruct (supervisor p) as [status|c k] eqn:Hsup.
    + injection Hstep as <-. cbn [supervisor trace exit_status].
      split; [exact Hcalls|]. now intros s [= <-].
    + assert (Hnext : exec o main
                      = ((trace p ++ [c]) ++ fst (exec o (k (o c))),
                         snd (exec o (k (o c)))))
        by (rewrite Hcalls, <- app_assoc; reflexivity).
      destruct c;
        try (injection Hstep as <-; cbn [supervisor trace exit_status];
             split; [exact Hnext|discriminate]).
      destruct (lookup i (threads p)) as [[|]|]; try discriminate.
      injection Hstep as <-. cbn [supervisor trace exit_status].
      split; [exact Hnext|discriminate].
  - unfold worker_step in Hstep.
    destruct (lookup i (threads p)) as [[|]|]; try discriminate.
    injection Hstep as <-. cbn [supervisor trace exit_status].
    split; [exact Hcalls|discriminate].
  - unfold deliver_step in Hstep.
    destruct (existsb (Z.eqb sig) (handlers p)); [|discriminate].
    injection Hstep as <-. cbn [supervisor trace exit_status].
    split; [exact Hcalls|discriminate].
Qed.

Lemma lookup_In (i : Z) (t : thread_state) (l : list (Z * thread_state)) :
  lookup i l = Some t -> In (i, t) l.
Proof.
  induction l as [|[j u] l IH]; simpl; [discriminate|].
  destruct (Z.eqb_spec i j) as [->|_].
  - intros [= ->]. now left.
  - intros H. right. now apply IH.
Qed.

Lemma In_update (i j : Z) (t u : thread_state) (l : list (Z * thread_state)) :
  In (j, u) (update i t l) -> u = t \/ In (j, u) l.
Proof.
  induction l as [|[k v] l IH]; simpl; [tauto|].
  destruct (i =? k); simpl.
  - intros [[= <- <-]|H]; auto.
  - intros [H|H]; auto. destruct (IH H); auto.
Qed.

Lemma step_flag_explains (p p' : process) (a : action) :
  step o p a = Some p' -> flag_explains p -> flag_explains p'.
Proof.
  unfold step, flag_explains. destruct (exit_status p); [discriminate|].
  intros Hstep (Hbit & Hret & Hjoin). destruct a as [|i|sig].
  - unfold supervisor_step in Hstep.
    destruct (supervisor p) as [status|c k].
    + injection Hstep as <-. cbn. auto.
    + destruct c;
        try (injection Hstep as <-; cbn; split; [exact Hbit|]; split;
             [exact Hret|];
             intros j Hj; apply in_app_or in Hj as [Hj|[Hj|[]]];
             [now apply (Hjoin j)|discriminate Hj]).
      * injection Hstep as <-. cbn. split; [exact Hbit|]. split.
        -- intros j Hj. destruct (o (pthread_create i) =? 0).
           ++ destruct Hj as [Hj|Hj]; [discriminate Hj|now apply (Hret j)].
           ++ now apply (Hret j).
        -- intros j Hj. apply in_app_or in Hj as [Hj|[Hj|[]]];
             [now apply (Hjoin j)|discriminate Hj].
      * destruct (lookup i (threads p)) as [[|]|] eqn:Hlook; try discriminate.
        injection Hstep as <-. cbn. split; [exact Hbit|]. split; [exact Hret|].
        intros j Hj. apply (Hret i). now apply lookup_In.
  - unfold worker_step in Hstep.
    destruct (lookup i (threads p)) as [[|]|]; try discriminate.
    injection Hstep as <-. cbn. split; [exact Hbit|]. split; [|exact Hjoin].
    intros j Hj. apply In_update in Hj as [Hj|Hj]; [|now apply (Hret j)].
    destruct (stop (mem p) =? 0) eqn:Hz; [discriminate Hj|].
    now apply Z.eqb_neq.
  - unfold deliver_step in Hstep.
    destruct (existsb (Z.eqb sig) (handlers p)); [|discriminate].
    injection Hstep as <-. cbn. split; [now right|]. split; discriminate.
Qed.

Lemma run_invariants (schedule : list action) (p : process) :
  follows_main o p /\ flag_explains p ->
  follows_main o (run o schedule p) /\ flag_explains (run o schedule p).
Proof.
  revert p. induction schedule as [|a schedule IH]; intros p [Hf He]; simpl.
  - now split.
  - destruct (step o p a) as [p'|] eqn:Hstep.
    + apply IH. split;
        [now apply (step_follows_main p p' a)|now apply (step_flag_explains p p' a)].
    + apply IH. now split.
Qed.

Lemma initial_invariants : follows_main o initial /\ flag_explains initial.
Proof.
  split.
  - split; [cbn [initial supervisor trace app]; now destruct (exec o main)|discriminate].
  - split; [now left|]. split; intros i [].
Qed.

(** Under every schedule, the status the process ends with is the one main
returns when run on its own. *)
Lemma posix_exit_status_is_mains (schedule : list action) (status : Z) :
  exit_status (run o schedule initial) = Some status ->
  status = snd (exec o main)
  /\ trace (run o schedule initial) = fst (exec o main).
Proof.
  intros Hexit.
  destruct (run_invariants schedule initial initial_invariants) as [[Hcalls Hret] _].
  rewrite (Hret status Hexit) in Hcalls. cbn [exec fst snd] in Hcalls.
  rewrite Hcalls. cbn [fst snd]. now rewrite List.app_nil_r.
Qed.

(** The first half of C4 on POSIX: under every schedule, a zero exit status
means a normal shutdown.  The processor count N was positive, main created
its N workers, announced them, joined every one of them and freed the array;
and the stop flag is set, which only the signal handler does. *)
Lemma posix_exit_zero_is_normal_shutdown (schedule : list action) :
  exit_status (run o schedule initial) = Some EXIT_SUCCESS ->
  let N := o sysconf_NPROCESSORS_ONLN in
  0 < N
  /\ trace (run o schedule initial)
     = prologue N
         ++ map pthread_create (range N)
         ++ [fprintf Stdout ("Started " +++ dec N +++ " worker threads" +++ LF)]
         ++ map pthread_join (range N)
         ++ [free]
  /\ stop (mem (run o schedule initial)) = 1.
Proof.
  intros Hexit N.
  destruct (posix_exit_status_is_mains schedule EXIT_SUCCESS Hexit) as [Hzero Htrace].
  destruct (posix_success_needs_every_spawn (eq_sym Hzero)) as [Hs Hok].
  fold N in Hs, Hok. pose proof Hs as (_ & Hpos & _).
  rewrite (posix_run_to_completion o N Hs Hok) in Htrace. cbn [fst] in Htrace.
  split; [exact Hpos|]. split; [exact Htrace|].
  destruct (run_invariants schedule initial initial_invariants)
    as [_ (Hbit & _ & Hjoin)].
  destruct Hbit as [Hbit|Hbit]; [|exact Hbit].
  exfalso. apply (Hjoin 0); [|exact Hbit].
  rewrite Htrace. apply in_or_app. right. apply in_or_app. right.
  apply in_or_app. right. apply in_or_app. left.
  apply in_map, In_range. lia.
Qed.

End ExitStatus.

(** * The Windows failure paths and handler *)

Section WindowsSiblings.

Import Windows.

Variable o : call -> Z.
Variables (buffer : string) (heap : Z -> Z).

Lemma windows_stdout_handle_failure :
  o (GetStdHandle STD_OUTPUT_HANDLE) = NULL
  \/ o (GetStdHandle STD_OUTPUT_HANDLE) = INVALID_HANDLE_VALUE ->
  exec o (main buffer heap)
  = ([GetStdHandle STD_OUTPUT_HANDLE;
      OutputDebugStringA "ERROR: Failed to initialize standard output"],
     EXIT_FAILURE).
Proof.
  intros H. unfold main. cbn [exec]. destruct H as [-> | ->]; reflexivity.
Qed.

Lemma windows_stderr_handle_failure (hOut : Z) :
  o (GetStdHandle STD_OUTPUT_HANDLE) = hOut ->
  hOut <> NULL -> hOut <> INVALID_HANDLE_VALUE ->
  o (GetStdHandle STD_ERROR_HANDLE) = NULL
  \/ o (GetStdHandle STD_ERROR_HANDLE) = INVALID_HANDLE_VALUE ->
  exec o (main buffer heap)
  = ([GetStdHandle STD_OUTPUT_HANDLE; GetStdHandle STD_ERROR_HANDLE;
      OutputDebugStringA "ERROR: Failed to initialize standard error ouput"],
     EXIT_FAILURE).
Proof.
  intros HO HO1 HO2 H. unfold main. cbn [exec].
  rewrite HO, (valid_handle hOut HO1 HO2). cbn [exec].
  destruct H as [-> | ->]; reflexivity.
Qed.

Lemma windows_allocation_failure (hOut hErr N : Z) :
  console_ready o hOut hErr ->
  o GetSystemInfo = N -> 0 < N -> o (HeapAlloc N) = NULL ->
  exec o (main buffer heap)
  = (prologue N
       ++ [WriteConsoleA hErr ("ERROR: Failed to allocate memory for threads" +++ LF)],
     EXIT_FAILURE).
Proof.
  intros Hready HN Hpos Hmem.
  rewrite (windows_exec_main_ready o buffer heap hOut hErr Hready). cbv zeta.
  rewrite HN. apply Z.leb_gt in Hpos. rewrite Hpos. cbn [exec].
  rewrite Hmem. reflexivity.
Qed.

Lemma strlen_cat (a b : string) :
  strlen a = String.length a ->
  strlen (a +++ b) = (String.length a + strlen b)%nat.
Proof.
  unfold cat. induction a as [|c a IH]; simpl; intros H; [reflexivity|].
  destruct (Ascii.eqb c NUL); [discriminate|]. f_equal. apply IH. lia.
Qed.

Lemma dec_length_dword (z : Z) :
  0 <= z < 2 ^ 32 -> (String.length (dec z) <= 32)%nat.
Proof.
  intros Hz. destruct (Z.eq_dec z 0) as [->|Hnz].
  - simpl. lia.
  - apply dec_length_le. simpl. lia.
Qed.

(** The Windows sibling of C5: ExitHandler writes its line to the handle of
standard error, sets the flag and returns TRUE. *)
Lemma windows_handler_writes_to_standard_error (signal : Z) (m : memory) :
  0 <= signal < 2 ^ 32 ->
  ExitHandler buffer signal m
  = ([WriteConsoleA (stdErr m)
        ("Received exit signal " +++ dec signal +++ ": Exiting..." +++ LF)],
     {| stdOut := stdOut m; stdErr := stdErr m; stop := TRUE |},
     TRUE).
Proof.
  intros Hsig. unfold ExitHandler. cbv zeta.
  set (text := "Received exit signal " +++ dec signal +++ ": Exiting..." +++ LF).
  assert (Hfits : (String.length text < ARRAYSIZE_messageBuffer)%nat).
  { unfold text. rewrite !length_cat. pose proof (dec_length_dword signal Hsig).
    unfold ARRAYSIZE_messageBuffer. simpl. lia. }
  assert (Hlen : strlen text = String.length text).
  { unfold text. rewrite strlen_cat by reflexivity.
    rewrite dec_strlen, !length_cat. reflexivity. }
  rewrite (format_fits buffer ("Received exit signal %lu: Exiting..." +++ LF) signal)
    by exact Hfits.
  change (sprintf1 ("Received exit signal %lu: Exiting..." +++ LF) signal) with text.
  cbn [fst snd]. change (S_OK =? S_OK) with true. cbv iota.
  unfold overlay. rewrite strlen_terminated by exact Hlen.
  rewrite cat_assoc, take_cat. reflexivity.
Qed.

End WindowsSiblings.

(** * Workers and the flag *)

Section Workers.

Import Posix.

Lemma lookup_update (i : Z) (t u : thread_state) (l : list (Z * thread_state)) :
  lookup i l = Some u -> lookup i (update i t l) = Some t.
Proof.
  induction l as [|[j v] l IH]; simpl; [discriminate|].
  destruct (i =? j) eqn:Hij; simpl; rewrite Hij; [reflexivity|exact IH].
Qed.

(** With the interleaved, sequentially consistent memory of the model, a
worker that tests its loop condition after the flag was set returns at that
test. *)
Lemma worker_returns_at_next_test (o : call -> Z) (p p' : process) (i : Z) :
  stop (mem p) <> 0 ->
  step o p (Worker i) = Some p' ->
  lookup i (threads p') = Some Returned.
Proof.
  intros Hset. unfold step, worker_step.
  destruct (exit_status p); [discriminate|].
  destruct (lookup i (threads p)) as [[|]|] eqn:Hlook; try discriminate.
  unfold cpu_heater_test. apply Z.eqb_neq in Hset. rewrite Hset.
  intros [= <-]. cbn [threads]. now apply lookup_update with (u := Spinning).
Qed.

(** The handler sets the flag whatever it was, so a second signal changes
nothing. *)
Lemma exit_handler_idempotent (sig sig' : Z) (m : memory) :
  snd (exit_handler sig' (snd (exit_handler sig m))) = snd (exit_handler sig m)
  /\ stop (snd (exit_handler sig m)) = 1.
Proof. split; reflexivity. Qed.

End Workers.

(** * Further properties of the POSIX supervisor *)

Ltac read_calls :=
  repeat first
    [ rewrite filter_app
    | rewrite filter_map_all by reflexivity
    | rewrite filter_map_none by reflexivity
    | progress cbn [filter app Posix.prologue Windows.prologue
        Posix.is_create Posix.is_join Posix.writes_to Posix.is_free Posix.is_signal
        Windows.is_create Windows.is_wait Windows.is_write
        Windows.is_free Windows.is_close Windows.is_debug Windows.is_alloc
        Posix.is_print] ];
  rewrite ?List.app_nil_r; try reflexivity.

Lemma last_snoc {A : Type} (l : list A) (x d : A) : last (l ++ [x]) d = x.
Proof. apply last_last. Qed.

Section PosixOutcomes.

Import Posix.

Variable o : call -> Z.

(** Either every spawn below N succeeds, or there is a first one that fails. *)
Lemma first_failure_below (N : Z) :
  (forall i, 0 <= i < N -> o (pthread_create i) = 0)
  \/ (exists k, 0 <= k < N
        /\ (forall i, 0 <= i < k -> o (pthread_create i) = 0)
        /\ o (pthread_create k) <> 0).
Proof.
  destruct (Z.le_gt_cases N 0) as [Hle|Hpos]; [left; intros i Hi; lia|].
  rewrite <- (Z2Nat.id N) by lia. clear Hpos.
  induction (Z.to_nat N) as [|n IH].
  - left. intros i Hi. lia.
  - destruct IH as [Hall|(k & Hk & Hbelow & Hfail)].
    + destruct (Z.eq_dec (o (pthread_create (Z.of_nat n))) 0) as [Hn|Hn].
      * left. intros i Hi.
        destruct (Z.eq_dec i (Z.of_nat n)) as [->|Hne]; [exact Hn|].
        apply Hall. lia.
      * right. exists (Z.of_nat n). split; [lia|]. split; [exact Hall|exact Hn].
    + right. exists k. split; [lia|]. split; assumption.
Qed.

(** Case analysis on a run of main: a property holds of the run if it holds
of each of the four runs main can make. *)
Lemma posix_main_cases (P : list call * Z -> Prop) :
  let N := o sysconf_NPROCESSORS_ONLN in
  (N <= 0 ->
   P ([sysconf_NPROCESSORS_ONLN; signal SIGINT; signal SIGTERM;
       fprintf Stderr ("Error getting the number of processors." +++ LF)],
      EXIT_FAILURE)) ->
  (0 < N -> o (malloc N) = NULL ->
   P (prologue N ++ [fprintf Stderr ("Error allocating memory for threads." +++ LF)],
      EXIT_FAILURE)) ->
  (forall k, 0 <= k < N -> o (malloc N) <> NULL ->
   (forall i, 0 <= i < k -> o (pthread_create i) = 0) ->
   o (pthread_create k) <> 0 ->
   P (prologue N
        ++ map pthread_create (range k)
        ++ [pthread_create k;
            fprintf Stderr ("Error creating thread " +++ dec k +++ "." +++ LF);
            free],
      EXIT_FAILURE)) ->
  (0 < N -> o (malloc N) <> NULL ->
   (forall i, 0 <= i < N -> o (pthread_create i) = 0) ->
   P (prologue N
        ++ map pthread_create (range N)
        ++ [fprintf Stdout ("Started " +++ dec N +++ " worker threads" +++ LF)]
        ++ map pthread_join (range N)
        ++ [free],
      EXIT_SUCCESS)) ->
  P (exec o main).
Proof.
  intros N Hcount Halloc Hspawn Hdone.
  destruct (Z.le_gt_cases N 0) as [Hle|Hpos].
  { replace (exec o main)
      with ([sysconf_NPROCESSORS_ONLN; signal SIGINT; signal SIGTERM;
             fprintf Stderr ("Error getting the number of processors." +++ LF)],
            EXIT_FAILURE); [now apply Hcount|].
    unfold main. cbn [exec]. fold N.
    pose proof Hle as Hle'. apply Z.leb_le in Hle'. rewrite Hle'. reflexivity. }
  destruct (Z.eq_dec (o (malloc N)) NULL) as [Hnull|Hmem].
  { rewrite (posix_allocation_failure o N eq_refl Hpos Hnull). now apply Halloc. }
  assert (Hs : starts o N) by (repeat split; assumption).
  destruct (first_failure_below N) as [Hall|(k & Hk & Hbelow & Hfail)].
  - rewrite (posix_run_to_completion o N Hs Hall). now apply Hdone.
  - rewrite (posix_run_spawn_fails o N k Hs Hk Hbelow Hfail). now apply Hspawn.
Qed.

End PosixOutcomes.

Lemma posix_exec_spawn_loop_ext (o o' : Posix.call -> Z) (idx : list Z)
    (rest : prog Posix.call) :
  (forall i, o (Posix.pthread_create i) = o' (Posix.pthread_create i)) ->
  exec o rest = exec o' rest ->
  exec o (Posix.spawn_loop idx rest) = exec o' (Posix.spawn_loop idx rest).
Proof.
  intros Hcreate Hrest. induction idx as [|i idx IH]; cbn [Posix.spawn_loop exec].
  - exact Hrest.
  - rewrite <- Hcreate. destruct (negb (o (Posix.pthread_create i) =? 0)).
    + reflexivity.
    + now rewrite IH.
Qed.

(** X4: The POSIX main never looks at what signal() returns: two operating
systems that answer every other call alike get the same calls from main and
the same exit status. *)
Theorem posix_signal_results_unused (o o' : Posix.call -> Z) :
  (forall c, Posix.is_signal c = false -> o c = o' c) ->
  exec o Posix.main = exec o' Posix.main.
Proof.
  intros Hsame. unfold Posix.main. cbn [exec].
  rewrite <- (Hsame Posix.sysconf_NPROCESSORS_ONLN) by reflexivity.
  destruct (o Posix.sysconf_NPROCESSORS_ONLN <=? 0); [reflexivity|].
  cbn [exec]. rewrite <- (Hsame (Posix.malloc _)) by reflexivity.
  destruct (o (Posix.malloc (o Posix.sysconf_NPROCESSORS_ONLN)) =? NULL);
    [reflexivity|].
  rewrite (posix_exec_spawn_loop_ext o o'); [reflexivity| |].
  - intros i. now apply Hsame.
  - cbn [exec]. now rewrite !posix_exec_join_loop.
Qed.

Lemma posix_signal_results_unused_witness :
  (forall c, Posix.is_signal c = false -> posix_host2 c = posix_host2_sigterm_refused c)
  /\ posix_host2 (Posix.signal Posix.SIGTERM)
     <> posix_host2_sigterm_refused (Posix.signal Posix.SIGTERM)
  /\ exec posix_host2 Posix.main = exec posix_host2_sigterm_refused Posix.main.
Proof.
  assert (Hsame : forall c, Posix.is_signal c = false ->
                    posix_host2 c = posix_host2_sigterm_refused c)
    by (intros [| sig | n | i | s text | | i] H; try reflexivity; discriminate H).
  split; [exact Hsame|]. split; [discriminate|].
  exact (posix_signal_results_unused posix_host2 posix_host2_sigterm_refused Hsame).
Defined.

(** * Further properties of the POSIX process *)

Section PosixProcess.

Import Posix.

Variable o : call -> Z.

Ltac split_in :=
  repeat match goal with
    | H : In _ (_ ++ _) |- _ => apply in_app_or in H; destruct H as [H|H]
    | H : In _ (map _ _) |- _ =>
        apply in_map_iff in H; let x := fresh "x" in destruct H as (x & H & ?)
    | H : In _ (_ :: _) |- _ => destruct H as [H|H]
    | H : In _ [] |- _ => destruct H
    end.

(** The signals main registers a handler for, and the slots it spawns. *)
Lemma posix_main_calls :
  (forall sig, In (signal sig) (fst (exec o main)) -> sig = SIGINT \/ sig = SIGTERM)
  /\ (forall i, In (pthread_create i) (fst (exec o main)) ->
        0 <= i < o sysconf_NPROCESSORS_ONLN).
Proof.
  apply posix_main_cases; cbn [fst]; unfold prologue.
  - intros _. split; intros x H; split_in; try discriminate;
      injection H as <-; auto.
  - intros _ _. split; intros x H; split_in; try discriminate;
      injection H as <-; auto.
  - intros k Hk _ _ _. split; intros x H; split_in; try discriminate.
    + injection H as <-; auto.
    + injection H as <-; auto.
    + injection H as <-. match goal with H' : In _ (range k) |- _ =>
        apply In_range in H' end. lia.
    + injection H as <-. lia.
  - intros _ _ _. split; intros x H; split_in; try discriminate.
    + injection H as <-; auto.
    + injection H as <-; auto.
    + injection H as <-. match goal with H' : In _ (range _) |- _ =>
        apply In_range in H' end. lia.
Qed.

Lemma In_update_slot (i j : Z) (t u : thread_state) (l : list (Z * thread_state)) :
  In (j, u) (update i t l) -> exists u', In (j, u') l.
Proof.
  induction l as [|[k v] l IH]; simpl; [tauto|].
  destruct (i =? k); simpl.
  - intros [Heq|H].
    + injection Heq as Hk _. subst k. exists v. now left.
    + exists u. now right.
  - intros [Heq|H].
    + injection Heq as Hk Hv. subst k v. exists u. now left.
    + destruct (IH H) as [u' Hu']. exists u'. now right.
Qed.

Lemma step_pool_from_trace (p p' : process) (a : action) :
  step o p a = Some p' -> pool_from_trace o p -> pool_from_trace o p'.
Proof.
  unfold step, pool_from_trace. destruct (exit_status p); [discriminate|].
  intros Hstep [Hpool Hsig]. destruct a as [|i|sig].
  - unfold supervisor_step in Hstep.
    destruct (supervisor p) as [status|c k].
    + injection Hstep as <-. cbn [threads trace handlers]. now split.
    + assert (Hpool' : forall i t, In (i, t) (threads p) ->
                In (pthread_create i) (trace p ++ [c]) /\ o (pthread_create i) = 0)
        by (intros i t H; destruct (Hpool i t H); split;
            [apply in_or_app; now left|assumption]).
      assert (Hsig' : forall sig, In sig (handlers p) ->
                In (signal sig) (trace p ++ [c]) /\ o (signal sig) <> SIG_ERR)
        by (intros sig H; destruct (Hsig sig H); split;
            [apply in_or_app; now left|assumption]).
      destruct c;
        try (injection Hstep as <-; cbn [threads trace handlers]; now split).
      * injection Hstep as <-. cbn [threads trace handlers]. split; [exact Hpool'|].
        destruct (o (signal sig) =? SIG_ERR) eqn:Herr; [exact Hsig'|].
        intros s [<-|Hs]; [|now apply Hsig'].
        split; [apply in_or_app; right; now left|now apply Z.eqb_neq].
      * injection Hstep as <-. cbn [threads trace handlers]. split; [|exact Hsig'].
        destruct (o (pthread_create i) =? 0) eqn:Hok; [|exact Hpool'].
        intros j t [[= <- <-]|Hj]; [|now apply (Hpool' j t)].
        split; [apply in_or_app; right; now left|now apply Z.eqb_eq].
      * destruct (lookup i (threads p)) as [[|]|]; try discriminate.
        injection Hstep as <-. cbn [threads trace handlers]. now split.
  - unfold worker_step in Hstep.
    destruct (lookup i (threads p)) as [[|]|]; try discriminate.
    injection Hstep as <-. cbn [threads trace handlers]. split; [|exact Hsig].
    intros j t Hj. apply In_update_slot in Hj as [u Hu]. now apply (Hpool j u).
  - unfold deliver_step in Hstep.
    destruct (existsb (Z.eqb sig) (handlers p)); [|discriminate].
    injection Hstep as <-. cbn [threads trace handlers]. now split.
Qed.

Lemma step_reachable_facts (p p' : process) (a : action) :
  step o p a = Some p' -> reachable_facts o p -> reachable_facts o p'.
Proof.
  intros Hstep (Hf & He & Hp). split; [|split].
  - now apply (step_follows_main o p p' a).
  - now apply (step_flag_explains o p p' a).
  - now apply (step_pool_from_trace p p' a).
Qed.

Lemma run_reachable_facts (schedule : list action) (p : process) :
  reachable_facts o p -> reachable_facts o (run o schedule p).
Proof.
  revert p. induction schedule as [|a schedule IH]; intros p Hp; simpl.
  - exact Hp.
  - destruct (step o p a) as [p'|] eqn:Hstep.
    + apply IH. now apply (step_reachable_facts p p' a).
    + now apply IH.
Qed.

Lemma initial_reachable_facts : reachable_facts o initial.
Proof.
  destruct (initial_invariants o) as [Hf He]. split; [exact Hf|]. split; [exact He|].
  split; [intros i t []|intros sig []].
Qed.

(** The handlers of a reachable state are for SIGINT or SIGTERM, registered
with success. *)
Lemma reachable_handlers (p : process) (sig : Z) :
  reachable_facts o p -> In sig (handlers p) ->
  (sig = SIGINT \/ sig = SIGTERM) /\ o (signal sig) <> SIG_ERR.
Proof.
  intros ([Hcalls _] & _ & _ & Hsig) Hin.
  destruct (Hsig sig Hin) as [Htrace Hok]. split; [|exact Hok].
  apply (proj1 posix_main_calls). rewrite Hcalls. cbn [fst].
  apply in_or_app. now left.
Qed.

(** Without the arrival of a registered SIGINT or SIGTERM the flag keeps its
value. *)
Lemma run_without_stop_signal (schedule : list action) (p : process) :
  reachable_facts o p ->
  existsb (stops_heater o) schedule = false ->
  stop (mem (run o schedule p)) = stop (mem p).
Proof.
  revert p. induction schedule as [|a schedule IH]; intros p Hp Hquiet; simpl.
  - reflexivity.
  - simpl in Hquiet. apply orb_false_elim in Hquiet as [Ha Hquiet].
    destruct (step o p a) as [p'|] eqn:Hstep; [|now apply IH].
    rewrite IH by (try apply (step_reachable_facts p p' a); assumption).
    destruct (step_stop o p p' a Hstep) as [Hsame|[[sig ->] _]]; [exact Hsame|].
    exfalso. unfold step in Hstep. destruct (exit_status p); [discriminate|].
    unfold deliver_step in Hstep.
    destruct (existsb (Z.eqb sig) (handlers p)) eqn:Hin; [|discriminate].
    apply existsb_exists in Hin as (s & Hs & Heq). apply Z.eqb_eq in Heq. subst s.
    destruct (reachable_handlers p sig Hp Hs) as [Hwhich Hok].
    unfold stops_heater in Ha. apply Z.eqb_neq in Hok. rewrite Hok in Ha.
    destruct Hwhich as [-> | ->]; discriminate Ha.
Qed.

End PosixProcess.

(** X6: Under every schedule, when the POSIX process ends with status zero,
the shutdown was a normal one: the processor count N is positive, main
created its N workers, announced them, joined every one and freed the array;
the stop flag is set; and the schedule holds the arrival of SIGINT or of
SIGTERM, whose handler had been registered with success. *)
Theorem posix_zero_exit_means_normal_shutdown
    (o : Posix.call -> Z) (schedule : list Posix.action) :
  Posix.exit_status (Posix.run o schedule Posix.initial) = Some EXIT_SUCCESS ->
  let p := Posix.run o schedule Posix.initial in
  let N := o Posix.sysconf_NPROCESSORS_ONLN in
  0 < N
  /\ Posix.trace p
     = Posix.prologue N
         ++ map Posix.pthread_create (range N)
         ++ [Posix.fprintf Stdout ("Started " +++ dec N +++ " worker threads" +++ LF)]
         ++ map Posix.pthread_join (range N)
         ++ [Posix.free]
  /\ Posix.stop (Posix.mem p) = 1
  /\ exists sig,
       In (Posix.Deliver sig) schedule
       /\ (sig = Posix.SIGINT \/ sig = Posix.SIGTERM)
       /\ o (Posix.signal sig) <> Posix.SIG_ERR.
Proof.
  intros Hexit p N.
  destruct (posix_exit_zero_is_normal_shutdown o schedule Hexit)
    as (Hpos & Htrace & Hstop).
  split; [exact Hpos|]. split; [exact Htrace|]. split; [exact Hstop|].
  destruct (existsb (stops_heater o) schedule) eqn:Hsome.
  - apply existsb_exists in Hsome as (a & Hin & Ha).
    destruct a as [|i|sig]; try discriminate Ha.
    exists sig. split; [exact Hin|].
    unfold stops_heater in Ha. apply andb_prop in Ha as [Hwhich Hok].
    apply orb_prop in Hwhich. apply negb_true_iff, Z.eqb_neq in Hok.
    split; [|exact Hok].
    destruct Hwhich as [H|H]; apply Z.eqb_eq in H; auto.
  - exfalso.
    pose proof (run_without_stop_signal o schedule Posix.initial
                  (initial_reachable_facts o) Hsome) as Hkept.
    rewrite Hstop in Hkept. discriminate Hkept.
Qed.

Lemma posix_zero_exit_means_normal_shutdown_witness :
  Posix.exit_status (Posix.run posix_host1_sigint_refused sigterm_run Posix.initial)
  = Some EXIT_SUCCESS
  /\ 0 < 1
  /\ Posix.trace (Posix.run posix_host1_sigint_refused sigterm_run Posix.initial)
     = Posix.prologue 1
         ++ map Posix.pthread_create (range 1)
         ++ [Posix.fprintf Stdout ("Started " +++ dec 1 +++ " worker threads" +++ LF)]
         ++ map Posix.pthread_join (range 1)
         ++ [Posix.free]
  /\ Posix.stop (Posix.mem (Posix.run posix_host1_sigint_refused sigterm_run Posix.initial))
     = 1
  /\ exists sig,
       In (Posix.Deliver sig) sigterm_run
       /\ (sig = Posix.SIGINT \/ sig = Posix.SIGTERM)
       /\ posix_host1_sigint_refused (Posix.signal sig) <> Posix.SIG_ERR.
Proof.
  assert (Hexit : Posix.exit_status
                    (Posix.run posix_host1_sigint_refused sigterm_run Posix.initial)
                  = Some EXIT_SUCCESS) by reflexivity.
  split; [exact Hexit|].
  exact (posix_zero_exit_means_normal_shutdown
           posix_host1_sigint_refused sigterm_run Hexit).
Defined.

(** X7: Under every schedule, the POSIX process has handlers only for SIGINT
and SIGTERM, each registered with success, and its pool holds only threads
of slots 0..N-1 whose pthread_create returned 0: no other signal can run
exit_handler and no thread exists outside the handle array. *)
Theorem posix_pool_and_handlers_bounded
    (o : Posix.call -> Z) (schedule : list Posix.action) :
  let p := Posix.run o schedule Posix.initial in
  (forall sig, In sig (Posix.handlers p) ->
     (sig = Posix.SIGINT \/ sig = Posix.SIGTERM)
     /\ o (Posix.signal sig) <> Posix.SIG_ERR)
  /\ (forall i t, In (i, t) (Posix.threads p) ->
        0 <= i < o Posix.sysconf_NPROCESSORS_ONLN
        /\ o (Posix.pthread_create i) = 0).
Proof.
  intros p.
  pose proof (run_reachable_facts o schedule Posix.initial (initial_reachable_facts o))
    as Hfacts. fold p in Hfacts.
  split.
  - intros sig Hin. now apply (reachable_handlers o p sig).
  - intros i t Hin. destruct Hfacts as ([Hcalls _] & _ & Hpool & _).
    destruct (Hpool i t Hin) as [Htrace Hok]. split; [|exact Hok].
    apply (proj2 (posix_main_calls o)). rewrite Hcalls. cbn [fst].
    apply in_or_app. now left.
Qed.

(** X8: Under every schedule, as long as the stop flag is clear no worker
of the POSIX process has returned, every read of the flag by a worker has
seen 0, main has completed no join and the process has not ended with
success: nothing but the flag lets a worker leave its loop. *)
Theorem posix_clear_flag_keeps_workers_spinning
    (o : Posix.call -> Z) (schedule : list Posix.action) :
  Posix.stop (Posix.mem (Posix.run o schedule Posix.initial)) = 0 ->
  let p := Posix.run o schedule Posix.initial in
  (forall i, ~ In (i, Posix.Returned) (Posix.threads p))
  /\ Forall (fun v => v = 0) (Posix.reads p)
  /\ (forall i, ~ In (Posix.pthread_join i) (Posix.trace p))
  /\ Posix.exit_status p <> Some EXIT_SUCCESS.
Proof.
  intros Hclear p.
  destruct (run_reachable_facts o schedule Posix.initial (initial_reachable_facts o))
    as (_ & (_ & Hret & Hjoin) & _).
  destruct (run_settled o schedule Posix.initial (initial_settled)) as [Hreads _].
  fold p in Hret, Hjoin, Hreads, Hclear.
  split; [intros i Hi; now apply (Hret i Hi)|].
  split; [now apply Hreads|].
  split; [intros i Hi; now apply (Hjoin i Hi)|].
  intros Hexit.
  destruct (posix_exit_zero_is_normal_shutdown o schedule Hexit) as (_ & _ & Hstop).
  fold p in Hstop. rewrite Hclear in Hstop. discriminate Hstop.
Qed.

Lemma posix_clear_flag_keeps_workers_spinning_witness :
  Posix.stop (Posix.mem (Posix.run posix_host2 quiet_run Posix.initial)) = 0
  /\ Posix.threads (Posix.run posix_host2 quiet_run Posix.initial)
     = [(1, Posix.Spinning); (0, Posix.Spinning)]
  /\ (forall i, ~ In (i, Posix.Returned)
                  (Posix.threads (Posix.run posix_host2 quiet_run Posix.initial)))
  /\ Forall (fun v => v = 0) (Posix.reads (Posix.run posix_host2 quiet_run Posix.initial))
  /\ (forall i, ~ In (Posix.pthread_join i)
                  (Posix.trace (Posix.run posix_host2 quiet_run Posix.initial)))
  /\ Posix.exit_status (Posix.run posix_host2 quiet_run Posix.initial)
     <> Some EXIT_SUCCESS.
Proof.
  assert (Hclear : Posix.stop (Posix.mem (Posix.run posix_host2 quiet_run Posix.initial))
                   = 0) by reflexivity.
  split; [exact Hclear|]. split; [reflexivity|].
  exact (posix_clear_flag_keeps_workers_spinning posix_host2 quiet_run Hclear).
Defined.

(** ** A run to the end *)

Section PosixShutdown.

Import Posix.

Variable o : call -> Z.

Lemma run_app (s1 s2 : list action) (p : process) :
  run o (s1 ++ s2) p = run o s2 (run o s1 p).
Proof.
  revert p. induction s1 as [|a s1 IH]; intros p; simpl; [reflexivity|].
  destruct (step o p a); apply IH.
Qed.

Lemma lookup_update_other (i j : Z) (t : thread_state) (l : list (Z * thread_state)) :
  i <> j -> lookup i (update j t l) = lookup i l.
Proof.
  intros Hij. induction l as [|[k v] l IH]; simpl; [reflexivity|].
  destruct (Z.eqb_spec j k) as [->|Hjk]; simpl.
  - apply Z.eqb_neq in Hij. now rewrite Hij.
  - destruct (i =? k); [reflexivity|exact IH].
Qed.

Lemma In_lookup (i : Z) (t : thread_state) (l : list (Z * thread_state)) :
  In (i, t) l -> exists t', lookup i l = Some t'.
Proof.
  induction l as [|[k v] l IH]; simpl; [tauto|].
  intros [Heq|Hin].
  - injection Heq as -> ->. rewrite Z.eqb_refl. now exists t.
  - destruct (i =? k); [now exists v|now apply IH].
Qed.

(** The spawn loop, step by step: each supervisor step creates one thread. *)
Lemma spawn_phase (idx : list Z) (rest : prog call) (m : memory) (t : list call)
    (th : list (Z * thread_state)) (h : list Z) (c : list (stream * string))
    (r : list Z) :
  (forall i, In i idx -> o (pthread_create i) = 0) ->
  run o (repeat Supervisor (List.length idx))
    {| mem := m; supervisor := spawn_loop idx rest; trace := t; threads := th;
       handlers := h; console := c; reads := r; exit_status := None |}
  = {| mem := m; supervisor := rest; trace := t ++ map pthread_create idx;
       threads := rev (map (fun i => (i, Spinning)) idx) ++ th;
       handlers := h; console := c; reads := r; exit_status := None |}.
Proof.
  revert t th. induction idx as [|i idx IH]; intros t th Hok.
  - cbn. now rewrite List.app_nil_r.
  - cbn [List.length repeat run step exit_status supervisor_step supervisor spawn_loop].
    rewrite (Hok i) by now left.
    cbn [Z.eqb negb mem trace threads handlers console reads].
    rewrite IH by (intros j Hj; apply Hok; now right).
    cbn [map rev]. now rewrite <- !app_assoc.
Qed.

(** The join loop, step by step, once every thread has returned. *)
Lemma join_phase (idx : list Z) (rest : prog call) (m : memory) (t : list call)
    (th : list (Z * thread_state)) (h : list Z) (c : list (stream * string))
    (r : list Z) :
  (forall i, In i idx -> lookup i th = Some Returned) ->
  run o (repeat Supervisor (List.length idx))
    {| mem := m; supervisor := join_loop idx rest; trace := t; threads := th;
       handlers := h; console := c; reads := r; exit_status := None |}
  = {| mem := m; supervisor := rest; trace := t ++ map pthread_join idx;
       threads := th; handlers := h; console := c; reads := r;
       exit_status := None |}.
Proof.
  revert t. induction idx as [|i idx IH]; intros t Hret.
  - cbn. now rewrite List.app_nil_r.
  - cbn [List.length repeat run step exit_status supervisor_step supervisor join_loop
         threads].
    rewrite (Hret i) by now left.
    cbn [mem trace threads handlers console reads].
    rewrite IH by (intros j Hj; apply Hret; now right).
    cbn [map]. now rewrite <- !app_assoc.
Qed.

(** One worker tests its loop condition while the flag is set: if it was
spinning it has returned, and nothing else changes but the log of reads. *)
Lemma worker_test_with_flag_set (j : Z) (p : process) :
  exit_status p = None -> stop (mem p) <> 0 ->
  let p' := run o [Worker j] p in
  (exit_status p' = None /\ supervisor p' = supervisor p /\ mem p' = mem p
   /\ trace p' = trace p /\ console p' = console p /\ handlers p' = handlers p)
  /\ forall i,
       lookup i (threads p')
       = if i =? j then option_map (fun _ => Returned) (lookup j (threads p))
         else lookup i (threads p).
Proof.
  intros Hexit Hset. cbn [run]. unfold step, worker_step. rewrite Hexit.
  destruct (lookup j (threads p)) as [[|]|] eqn:Hlook.
  - unfold cpu_heater_test. apply Z.eqb_neq in Hset. rewrite Hset.
    cbn [exit_status supervisor mem threads trace console handlers].
    split; [repeat split|].
    intros i. destruct (Z.eqb_spec i j) as [->|Hij].
    + now apply lookup_update with (u := Spinning).
    + now apply lookup_update_other.
  - split; [repeat split; assumption|]. intros i.
    destruct (Z.eqb_spec i j) as [->|Hij]; [now rewrite Hlook|reflexivity].
  - split; [repeat split; assumption|]. intros i.
    destruct (Z.eqb_spec i j) as [->|Hij]; [now rewrite Hlook|reflexivity].
Qed.

(** Every worker of [idx] tests its loop condition while the flag is set:
each of them that exists has returned afterwards, and so has every thread
that had returned before. *)
Lemma worker_phase (idx : list Z) (p : process) :
  exit_status p = None -> stop (mem p) <> 0 ->
  let p' := run o (map Worker idx) p in
  (exit_status p' = None /\ supervisor p' = supervisor p /\ mem p' = mem p
   /\ trace p' = trace p /\ console p' = console p /\ handlers p' = handlers p)
  /\ forall i, (exists t, lookup i (threads p) = Some t) ->
               In i idx \/ lookup i (threads p) = Some Returned ->
               lookup i (threads p') = Some Returned.
Proof.
  revert p. induction idx as [|j idx IH]; intros p Hexit Hset.
  - cbn. split; [repeat split; assumption|]. intros i _ [[]|H]. exact H.
  - change (map Worker (j :: idx)) with ([Worker j] ++ map Worker idx).
    cbv zeta. rewrite run_app.
    destruct (worker_test_with_flag_set j p Hexit Hset)
      as ((Hexit1 & Hsup1 & Hmem1 & Htr1 & Hcon1 & Hh1) & Hth1).
    set (p1 := run o [Worker j] p) in *.
    assert (Hset1 : stop (mem p1) <> 0) by now rewrite Hmem1.
    destruct (IH p1 Hexit1 Hset1)
      as ((Hexit2 & Hsup2 & Hmem2 & Htr2 & Hcon2 & Hh2) & Hth2).
    split; [repeat split; congruence|].
    intros i [t Ht] Hwhy. apply Hth2; rewrite Hth1.
    + destruct (Z.eqb_spec i j) as [->|_];
        [rewrite Ht; now exists Returned|now exists t].
    + destruct (Z.eqb_spec i j) as [->|Hij]; [right; now rewrite Ht|].
      destruct Hwhy as [[Heq|Hin]|Hret]; [congruence|now left|now right].
Qed.

Lemma repeat_around {A : Type} (x : A) (n : nat) :
  repeat x (n + 2) = [x] ++ repeat x n ++ [x].
Proof.
  replace (n + 2)%nat with (1 + (n + 1))%nat by lia.
  now rewrite repeat_app, repeat_app.
Qed.

Lemma repeat_then_two {A : Type} (x : A) (n : nat) :
  repeat x (n + 2) = repeat x n ++ [x; x].
Proof. now rewrite repeat_app. Qed.

Local Notation "'announce' N" :=
  (Call (fprintf Stdout ("Started " +++ dec N +++ " worker threads" +++ LF))
     (fun _ => join_loop (range N) (Call free (fun _ => Ret EXIT_SUCCESS))))
  (at level 10, N at level 0, only parsing).

Local Notation "'received' sig" :=
  (Stdout, "Received exit signal " +++ dec sig +++ ": Exiting..." +++ LF)
  (at level 10, sig at level 0, only parsing).

(** The first three steps of main: the count and the two registrations. *)
Lemma registration_phase (N : Z) :
  starts o N ->
  run o (repeat Supervisor 3) initial
  = {| mem := initial_memory;
       supervisor :=
         Call (malloc N) (fun threads =>
           if threads =? NULL then
             Call (fprintf Stderr ("Error allocating memory for threads." +++ LF))
               (fun _ => Ret EXIT_FAILURE)
           else spawn_loop (range N) (announce N));
       trace := [sysconf_NPROCESSORS_ONLN; signal SIGINT; signal SIGTERM];
       threads := [];
       handlers :=
         (if o (signal SIGTERM) =? SIG_ERR
          then (if o (signal SIGINT) =? SIG_ERR then [] else [SIGINT])
          else SIGTERM :: (if o (signal SIGINT) =? SIG_ERR then [] else [SIGINT]));
       console := []; reads := []; exit_status := None |}.
Proof.
  intros (HN & Hpos & _). unfold initial, main.
  cbn [repeat run step exit_status supervisor_step supervisor
       mem trace threads handlers console reads app].
  rewrite HN. apply Z.leb_gt in Hpos. rewrite Hpos. reflexivity.
Qed.

(** Allocation, the spawn loop and the start-up line. *)
Lemma spawning_phase (N : Z) (m : memory) (t : list call) (h : list Z)
    (c : list (stream * string)) (r : list Z) :
  o (malloc N) <> NULL ->
  (forall i, 0 <= i < N -> o (pthread_create i) = 0) ->
  run o (repeat Supervisor (Z.to_nat N + 2))
    {| mem := m;
       supervisor :=
         Call (malloc N) (fun threads =>
           if threads =? NULL then
             Call (fprintf Stderr ("Error allocating memory for threads." +++ LF))
               (fun _ => Ret EXIT_FAILURE)
           else spawn_loop (range N) (announce N));
       trace := t; threads := []; handlers := h; console := c; reads := r;
       exit_status := None |}
  = {| mem := m;
       supervisor := join_loop (range N) (Call free (fun _ => Ret EXIT_SUCCESS));
       trace := ((t ++ [malloc N]) ++ map pthread_create (range N))
                  ++ [fprintf Stdout ("Started " +++ dec N +++ " worker threads" +++ LF)];
       threads := rev (map (fun i => (i, Spinning)) (range N)) ++ [];
       handlers := h;
       console := c ++ [(Stdout, "Started " +++ dec N +++ " worker threads" +++ LF)];
       reads := r; exit_status := None |}.
Proof.
  intros Hmem Hok. rewrite repeat_around, !run_app.
  cbn [run step exit_status supervisor_step supervisor
       mem trace threads handlers console reads].
  apply Z.eqb_neq in Hmem. rewrite Hmem.
  rewrite <- (range_length N).
  rewrite spawn_phase by (intros i Hi; apply Hok, In_range, Hi).
  reflexivity.
Qed.

(** A registered signal arrives: the handler writes its line and sets the
flag. *)
Lemma delivery (sig : Z) (m : memory) (s : prog call) (t : list call)
    (th : list (Z * thread_state)) (h : list Z) (c : list (stream * string))
    (r : list Z) :
  existsb (Z.eqb sig) h = true ->
  run o [Deliver sig]
    {| mem := m; supervisor := s; trace := t; threads := th; handlers := h;
       console := c; reads := r; exit_status := None |}
  = {| mem := {| stop := 1 |}; supervisor := s; trace := t; threads := th;
       handlers := h; console := c ++ [received sig]; reads := r;
       exit_status := None |}.
Proof.
  intros Hin. cbn [run]. unfold step, deliver_step. cbn [exit_status handlers].
  rewrite Hin. reflexivity.
Qed.

Lemma registered_handler (sig : Z) :
  sig = SIGINT \/ sig = SIGTERM -> o (signal sig) <> SIG_ERR ->
  existsb (Z.eqb sig)
    (if o (signal SIGTERM) =? SIG_ERR
     then (if o (signal SIGINT) =? SIG_ERR then [] else [SIGINT])
     else SIGTERM :: (if o (signal SIGINT) =? SIG_ERR then [] else [SIGINT]))
  = true.
Proof.
  intros [-> | ->] Hok; apply Z.eqb_neq in Hok; rewrite Hok.
  - destruct (o (signal SIGTERM) =? SIG_ERR); reflexivity.
  - reflexivity.
Qed.

(** From the joins to the end, once the flag is set and the workers have
tested it. *)
Lemma draining_phase (N : Z) (p : process) :
  exit_status p = None -> stop (mem p) <> 0 ->
  supervisor p = join_loop (range N) (Call free (fun _ => Ret EXIT_SUCCESS)) ->
  (forall i, In i (range N) -> exists t, lookup i (threads p) = Some t) ->
  let p' := run o (map Worker (range N) ++ repeat Supervisor (Z.to_nat N + 2)) p in
  exit_status p' = Some EXIT_SUCCESS /\ mem p' = mem p /\ console p' = console p
  /\ trace p' = (trace p ++ map pthread_join (range N)) ++ [free].
Proof.
  intros Hexit Hset Hsup Halive. cbv zeta. rewrite run_app.
  destruct (worker_phase (range N) p Hexit Hset)
    as ((Hexit1 & Hsup1 & Hmem1 & Htr1 & Hcon1 & _) & Hret).
  destruct (run o (map Worker (range N)) p) as [m s t th h c r e].
  cbn [exit_status supervisor mem trace console threads] in *. subst e s m t c.
  rewrite Hsup, repeat_then_two, run_app, <- (range_length N).
  rewrite join_phase by (intros i Hi; apply Hret; [now apply Halive|now left]).
  repeat split.
Qed.

End PosixShutdown.

(** X10: A stop signal ends the POSIX process cleanly, for every processor
count.  When start-up succeeds and the handler of SIGINT or SIGTERM is
registered, the schedule in which that signal arrives (before the workers
are spawned, or after the start-up line), every worker then tests its loop
condition once and main goes on, ends with EXIT_SUCCESS: every worker is
joined, the array is freed, and the console holds the start-up line and the
handler's line, both on standard output. *)
Theorem posix_stop_signal_ends_the_process
    (o : Posix.call -> Z) (early : bool) (sig N : Z) :
  Posix.starts o N ->
  (forall i, 0 <= i < N -> o (Posix.pthread_create i) = 0) ->
  sig = Posix.SIGINT \/ sig = Posix.SIGTERM ->
  o (Posix.signal sig) <> Posix.SIG_ERR ->
  let p := Posix.run o (Posix.shutdown_schedule early sig N) Posix.initial in
  Posix.exit_status p = Some EXIT_SUCCESS
  /\ Posix.stop (Posix.mem p) = 1
  /\ Posix.trace p
     = Posix.prologue N
         ++ map Posix.pthread_create (range N)
         ++ [Posix.fprintf Stdout ("Started " +++ dec N +++ " worker threads" +++ LF)]
         ++ map Posix.pthread_join (range N)
         ++ [Posix.free]
  /\ Posix.console p
     = (if early
        then [(Stdout, "Received exit signal " +++ dec sig +++ ": Exiting..." +++ LF);
              (Stdout, "Started " +++ dec N +++ " worker threads" +++ LF)]
        else [(Stdout, "Started " +++ dec N +++ " worker threads" +++ LF);
              (Stdout, "Received exit signal " +++ dec sig +++ ": Exiting..." +++ LF)]).
Proof.
  intros Hs Hok Hwhich Hreg p. unfold p, Posix.shutdown_schedule.
  pose proof Hs as (_ & _ & Hmem).
  pose proof (registered_handler o sig Hwhich Hreg) as Hin.
  assert (Halive : forall th i, In i (range N) ->
            exists t, Posix.lookup i
                        (rev (map (fun i => (i, Posix.Spinning)) (range N)) ++ th)
                      = Some t).
  { intros th i Hi. apply In_lookup with (t := Posix.Spinning).
    apply in_or_app. left. apply -> in_rev.
    apply in_map_iff. now exists i. }
  rewrite run_app, (registration_phase o N Hs).
  destruct early.
  - rewrite run_app, (delivery o sig) by exact Hin.
    rewrite run_app, (spawning_phase o N) by assumption.
    rewrite List.app_nil_l.
    match goal with |- context [Posix.run o _ ?q] =>
      destruct (draining_phase o N q) as (He & Hm & Hc & Ht);
        [reflexivity|discriminate|reflexivity|apply Halive|] end.
    rewrite He, Hm, Hc, Ht. cbn [Posix.mem Posix.stop Posix.console Posix.trace app].
    repeat split. unfold Posix.prologue. now rewrite <- !app_assoc.
  - rewrite List.app_nil_l.
    rewrite run_app, (spawning_phase o N) by assumption.
    rewrite run_app, (delivery o sig) by exact Hin.
    match goal with |- context [Posix.run o _ ?q] =>
      destruct (draining_phase o N q) as (He & Hm & Hc & Ht);
        [reflexivity|discriminate|reflexivity|apply Halive|] end.
    rewrite He, Hm, Hc, Ht. cbn [Posix.mem Posix.stop Posix.console Posix.trace app].
    repeat split. unfold Posix.prologue. now rewrite <- !app_assoc.
Qed.

Lemma posix_stop_signal_ends_the_process_witness :
  Posix.starts posix_host4 4
  /\ (forall i, 0 <= i < 4 -> posix_host4 (Posix.pthread_create i) = 0)
  /\ (Posix.SIGTERM = Posix.SIGINT \/ Posix.SIGTERM = Posix.SIGTERM)
  /\ posix_host4 (Posix.signal Posix.SIGTERM) <> Posix.SIG_ERR
  /\ Posix.exit_status
       (Posix.run posix_host4 (Posix.shutdown_schedule true Posix.SIGTERM 4) Posix.initial)
     = Some EXIT_SUCCESS
  /\ Posix.stop
       (Posix.mem
          (Posix.run posix_host4 (Posix.shutdown_schedule true Posix.SIGTERM 4)
             Posix.initial))
     = 1
  /\ Posix.trace
       (Posix.run posix_host4 (Posix.shutdown_schedule true Posix.SIGTERM 4) Posix.initial)
     = Posix.prologue 4
         ++ map Posix.pthread_create (range 4)
         ++ [Posix.fprintf Stdout ("Started " +++ dec 4 +++ " worker threads" +++ LF)]
         ++ map Posix.pthread_join (range 4)
         ++ [Posix.free]
  /\ Posix.console
       (Posix.run posix_host4 (Posix.shutdown_schedule true Posix.SIGTERM 4) Posix.initial)
     = [(Stdout, "Received exit signal " +++ dec Posix.SIGTERM +++ ": Exiting..." +++ LF);
        (Stdout, "Started " +++ dec 4 +++ " worker threads" +++ LF)].
Proof.
  assert (Hs : Posix.starts posix_host4 4)
    by (unfold Posix.starts, NULL; simpl; repeat split; lia).
  assert (Hok : forall i, 0 <= i < 4 -> posix_host4 (Posix.pthread_create i) = 0)
    by (intros i Hi; reflexivity).
  assert (Hwhich : Posix.SIGTERM = Posix.SIGINT \/ Posix.SIGTERM = Posix.SIGTERM)
    by (right; reflexivity).
  assert (Hreg : posix_host4 (Posix.signal Posix.SIGTERM) <> Posix.SIG_ERR)
    by discriminate.
  split; [exact Hs|]. split; [exact Hok|]. split; [exact Hwhich|]. split; [exact Hreg|].
  exact (posix_stop_signal_ends_the_process posix_host4 true Posix.SIGTERM 4
           Hs Hok Hwhich Hreg).
Defined.

(** * Further properties of the Windows supervisor *)

Lemma first_failure_generic (ok : Z -> bool) (N : Z) :
  (forall i, 0 <= i < N -> ok i = true)
  \/ (exists k, 0 <= k < N
        /\ (forall i, 0 <= i < k -> ok i = true)
        /\ ok k = false).
Proof.
  destruct (Z.le_gt_cases N 0) as [Hle|Hpos]; [left; intros i Hi; lia|].
  rewrite <- (Z2Nat.id N) by lia. clear Hpos.
  induction (Z.to_nat N) as [|n IH].
  - left. intros i Hi. lia.
  - destruct IH as [Hall|(k & Hk & Hbelow & Hfail)].
    + destruct (ok (Z.of_nat n)) eqn:Hn.
      * left. intros i Hi.
        destruct (Z.eq_dec i (Z.of_nat n)) as [->|Hne]; [exact Hn|].
        apply Hall. lia.
      * right. exists (Z.of_nat n). split; [lia|]. split; [exact Hall|exact Hn].
    + right. exists k. split; [lia|]. split; assumption.
Qed.

Section WindowsOutcomes.

Import Windows.

Variable o : call -> Z.
Variables (buffer : string) (heap : Z -> Z).

(** The whole run when every thread is created, whatever the processor
count and the outcome of formatting the start-up line. *)
Lemma windows_run_to_completion_any (hOut hErr N : Z) :
  starts o hOut hErr N ->
  (forall i, 0 <= i < N -> o (CreateThread i) <> NULL) ->
  exec o (main buffer heap)
  = (prologue N
       ++ map CreateThread (range N)
       ++ [WriteConsoleA hOut (started_text buffer N);
           WaitForMultipleObjects N (map (fun i => o (CreateThread i)) (range N))]
       ++ map (fun i => CloseHandle (o (CreateThread i))) (range N)
       ++ [HeapFree],
     EXIT_SUCCESS).
Proof.
  intros (Hready & HN & Hpos & Hmem) Hok.
  rewrite (windows_exec_main_ready o buffer heap hOut hErr Hready). cbv zeta.
  rewrite HN. apply Z.leb_gt in Hpos as Hpos'. rewrite Hpos'. cbn [exec].
  apply Z.eqb_neq in Hmem. rewrite Hmem.
  rewrite windows_exec_spawn_loop by (intros i Hi; apply Hok, In_range, Hi).
  unfold started_text. cbv zeta.
  destruct (fst (StringCchPrintfA buffer ARRAYSIZE_messageBuffer
                   ("Started %d worker threads" +++ LF) N) =? S_OK);
    cbn [exec fst snd]; rewrite windows_exec_close_loop; cbn [exec fst snd];
    rewrite (map_ext_in (filled o (range N) heap) (fun i => o (CreateThread i)))
      by (intros i Hi; now apply filled_inside);
    rewrite (map_ext_in (fun i => CloseHandle (filled o (range N) heap i))
                        (fun i => CloseHandle (o (CreateThread i))))
      by (intros i Hi; now rewrite filled_inside);
    reflexivity.
Qed.

(** Case analysis on a run of main: a property holds of the run if it holds
of each of the seven runs main can make. *)
Lemma windows_main_cases (P : list call * Z -> Prop) :
  let hOut := o (GetStdHandle STD_OUTPUT_HANDLE) in
  let hErr := o (GetStdHandle STD_ERROR_HANDLE) in
  let N := o GetSystemInfo in
  (hOut = NULL \/ hOut = INVALID_HANDLE_VALUE ->
   P ([GetStdHandle STD_OUTPUT_HANDLE;
       OutputDebugStringA "ERROR: Failed to initialize standard output"],
      EXIT_FAILURE)) ->
  (hOut <> NULL -> hOut <> INVALID_HANDLE_VALUE ->
   hErr = NULL \/ hErr = INVALID_HANDLE_VALUE ->
   P ([GetStdHandle STD_OUTPUT_HANDLE; GetStdHandle STD_ERROR_HANDLE;
       OutputDebugStringA "ERROR: Failed to initialize standard error ouput"],
      EXIT_FAILURE)) ->
  (hOut <> NULL -> hOut <> INVALID_HANDLE_VALUE ->
   hErr <> NULL -> hErr <> INVALID_HANDLE_VALUE ->
   o SetConsoleCtrlHandler = FALSE ->
   P ([GetStdHandle STD_OUTPUT_HANDLE; GetStdHandle STD_ERROR_HANDLE;
       SetConsoleCtrlHandler;
       WriteConsoleA hErr ("ERROR: Failed to set console ctrl handler" +++ LF)],
      EXIT_FAILURE)) ->
  (console_ready o hOut hErr -> N <= 0 ->
   P ([GetStdHandle STD_OUTPUT_HANDLE; GetStdHandle STD_ERROR_HANDLE;
       SetConsoleCtrlHandler; GetSystemInfo;
       WriteConsoleA hErr ("ERROR: Failed to get number of processors" +++ LF)],
      EXIT_FAILURE)) ->
  (console_ready o hOut hErr -> 0 < N -> o (HeapAlloc N) = NULL ->
   P (prologue N
        ++ [WriteConsoleA hErr ("ERROR: Failed to allocate memory for threads" +++ LF)],
      EXIT_FAILURE)) ->
  (forall k, console_ready o hOut hErr -> 0 <= k < N -> o (HeapAlloc N) <> NULL ->
   (forall i, 0 <= i < k -> o (CreateThread i) <> NULL) ->
   o (CreateThread k) = NULL ->
   P (prologue N
        ++ map CreateThread (range k)
        ++ [CreateThread k; WriteConsoleA hErr (failure_text buffer k); HeapFree],
      EXIT_FAILURE)) ->
  (console_ready o hOut hErr -> 0 < N -> o (HeapAlloc N) <> NULL ->
   (forall i, 0 <= i < N -> o (CreateThread i) <> NULL) ->
   P (prologue N
        ++ map CreateThread (range N)
        ++ [WriteConsoleA hOut (started_text buffer N);
            WaitForMultipleObjects N (map (fun i => o (CreateThread i)) (range N))]
        ++ map (fun i => CloseHandle (o (CreateThread i))) (range N)
        ++ [HeapFree],
      EXIT_SUCCESS)) ->
  P (exec o (main buffer heap)).
Proof.
  intros hOut hErr N Hout Herr Hctrl Hcount Halloc Hspawn Hdone.
  destruct (Z.eq_dec hOut NULL) as [HO1|HO1];
    [rewrite windows_stdout_handle_failure by (now left); apply Hout; now left|].
  destruct (Z.eq_dec hOut INVALID_HANDLE_VALUE) as [HO2|HO2];
    [rewrite windows_stdout_handle_failure by (now right); apply Hout; now right|].
  destruct (Z.eq_dec hErr NULL) as [HE1|HE1];
    [rewrite (windows_stderr_handle_failure o buffer heap hOut)
       by (try reflexivity; try assumption; now left);
     apply Herr; auto|].
  destruct (Z.eq_dec hErr INVALID_HANDLE_VALUE) as [HE2|HE2];
    [rewrite (windows_stderr_handle_failure o buffer heap hOut)
       by (try reflexivity; try assumption; now right);
     apply Herr; auto|].
  destruct (Z.eq_dec (o SetConsoleCtrlHandler) FALSE) as [HC|HC];
    [rewrite (windows_failed_registration_is_fatal o buffer heap hOut hErr)
       by (try reflexivity; assumption);
     now apply Hctrl|].
  assert (Hready : console_ready o hOut hErr) by (repeat split; assumption).
  destruct (Z.le_gt_cases N 0) as [Hle|Hpos].
  { rewrite (windows_exec_main_ready o buffer heap hOut hErr Hready). cbv zeta.
    fold N. pose proof Hle as Hle'. apply Z.leb_le in Hle'. rewrite Hle'.
    now apply Hcount. }
  destruct (Z.eq_dec (o (HeapAlloc N)) NULL) as [Hnull|Hmem].
  { rewrite (windows_allocation_failure o buffer heap hOut hErr N Hready eq_refl Hpos Hnull).
    now apply Halloc. }
  assert (Hs : starts o hOut hErr N) by (repeat split; assumption).
  destruct (first_failure_generic (fun i => negb (o (CreateThread i) =? NULL)) N)
    as [Hall|(k & Hk & Hbelow & Hfail)].
  - assert (Hall' : forall i, 0 <= i < N -> o (CreateThread i) <> NULL)
      by (intros i Hi; apply Z.eqb_neq, negb_true_iff, Hall, Hi).
    rewrite (windows_run_to_completion_any hOut hErr N Hs Hall'). now apply Hdone.
  - assert (Hbelow' : forall i, 0 <= i < k -> o (CreateThread i) <> NULL)
      by (intros i Hi; apply Z.eqb_neq, negb_true_iff, Hbelow, Hi).
    apply negb_false_iff, Z.eqb_eq in Hfail.
    rewrite (windows_run_spawn_fails o buffer heap hOut hErr N k Hs Hk Hbelow' Hfail).
    now apply Hspawn.
Qed.

End WindowsOutcomes.

(** X14: Every run of the POSIX main prints exactly one line: the start-up
line on standard output in the run that returns EXIT_SUCCESS, and a
diagnostic on standard error in every run that returns EXIT_FAILURE. *)
Theorem posix_one_line_per_run (o : Posix.call -> Z) :
  let run := exec o Posix.main in
  exists text,
    filter Posix.is_print (fst run)
    = [Posix.fprintf (if snd run =? EXIT_SUCCESS then Stdout else Stderr) text].
Proof.
  intros run. unfold run. apply posix_main_cases; cbn [fst snd].
  - intros _. eexists. reflexivity.
  - intros _ _. eexists. read_calls.
  - intros k _ _ _ _. eexists. read_calls.
  - intros _ _ _. eexists. read_calls.
Qed.

(** * The Windows handler and workers *)

Section WindowsHandler.

Import Windows.

Lemma dec_length_32 (z : Z) :
  0 <= z < 2 ^ 32 -> (String.length (dec z) <= 32)%nat.
Proof.
  intros Hz. destruct (Z.eq_dec z 0) as [->|Hnz].
  - simpl. lia.
  - apply dec_length_le. simpl. lia.
Qed.

(** What a successful formatting leaves for WriteConsoleA to write. *)
Lemma format_written (buffer format : string) (arg : Z) :
  (String.length (sprintf1 format arg) < ARRAYSIZE_messageBuffer)%nat ->
  strlen (sprintf1 format arg) = String.length (sprintf1 format arg) ->
  let res := StringCchPrintfA buffer ARRAYSIZE_messageBuffer format arg in
  fst res = S_OK /\ take (strlen (snd res)) (snd res) = sprintf1 format arg.
Proof.
  intros Hfits Hlen. cbv zeta. rewrite format_fits by exact Hfits.
  split; [reflexivity|]. cbn [snd]. unfold overlay.
  rewrite strlen_terminated by exact Hlen.
  rewrite cat_assoc. apply take_cat.
Qed.

End WindowsHandler.

(** X15: With a 32-bit argument each of the three formatted messages of the
Windows implementation fits the 128-character messageBuffer, so
StringCchPrintfA returns S_OK and the fallback messages ("ERROR: Failed to
create a thread", "Started worker threads", "Received exit signal:
Exiting...") are never the ones written. *)
Theorem windows_formatting_always_fits (buffer : string) (z : Z) :
  0 <= z < 2 ^ 32 ->
  fst (Windows.StringCchPrintfA buffer Windows.ARRAYSIZE_messageBuffer
         ("ERROR: Failed to create thread %d." +++ LF) z) = Windows.S_OK
  /\ fst (Windows.StringCchPrintfA buffer Windows.ARRAYSIZE_messageBuffer
            ("Started %d worker threads" +++ LF) z) = Windows.S_OK
  /\ fst (Windows.StringCchPrintfA buffer Windows.ARRAYSIZE_messageBuffer
            ("Received exit signal %lu: Exiting..." +++ LF) z) = Windows.S_OK
  /\ Windows.started_text buffer z = "Started " +++ dec z +++ " worker threads" +++ LF
  /\ Windows.failure_text buffer z
     = take 35 (("ERROR: Failed to create thread " +++ dec z +++ "." +++ LF)
                  +++ String NUL EmptyString).
Proof.
  intros Hz. pose proof (dec_length_32 z Hz) as Hdec.
  pose proof (dec_nonempty z) as Hone.
  assert (H1 : (String.length (sprintf1 ("ERROR: Failed to create thread %d." +++ LF) z)
                < Windows.ARRAYSIZE_messageBuffer)%nat).
  { change (sprintf1 ("ERROR: Failed to create thread %d." +++ LF) z)
      with ("ERROR: Failed to create thread " +++ dec z +++ "." +++ LF).
    rewrite !length_cat. unfold Windows.ARRAYSIZE_messageBuffer.
    cbn [String.length LF]. lia. }
  assert (H2 : (String.length (sprintf1 ("Started %d worker threads" +++ LF) z)
                < Windows.ARRAYSIZE_messageBuffer)%nat).
  { change (sprintf1 ("Started %d worker threads" +++ LF) z)
      with ("Started " +++ dec z +++ " worker threads" +++ LF).
    rewrite !length_cat. unfold Windows.ARRAYSIZE_messageBuffer.
    cbn [String.length LF]. lia. }
  assert (H3 : (String.length (sprintf1 ("Received exit signal %lu: Exiting..." +++ LF) z)
                < Windows.ARRAYSIZE_messageBuffer)%nat).
  { change (sprintf1 ("Received exit signal %lu: Exiting..." +++ LF) z)
      with ("Received exit signal " +++ dec z +++ ": Exiting..." +++ LF).
    rewrite !length_cat. unfold Windows.ARRAYSIZE_messageBuffer.
    cbn [String.length LF]. lia. }
  split; [now rewrite format_fits|]. split; [now rewrite format_fits|].
  split; [now rewrite format_fits|]. split.
  - unfold Windows.started_text. cbv zeta.
    destruct (format_written buffer ("Started %d worker threads" +++ LF) z H2)
      as [Hok Htext].
    { change (sprintf1 ("Started %d worker threads" +++ LF) z)
        with ("Started " +++ dec z +++ " worker threads" +++ LF).
      apply started_strlen. }
    rewrite Hok, Htext. reflexivity.
  - unfold Windows.failure_text. cbv zeta. rewrite format_fits by exact H1.
    cbn [fst snd]. change (Windows.S_OK =? Windows.S_OK) with true. cbv iota.
    change (strlen ("ERROR: Failed to create thread %d." +++ LF)) with 35%nat.
    change (sprintf1 ("ERROR: Failed to create thread %d." +++ LF) z)
      with ("ERROR: Failed to create thread " +++ dec z +++ "." +++ LF).
    unfold overlay. apply take_cat_less.
    rewrite !length_cat. cbn [String.length LF]. lia.
Qed.

Lemma windows_formatting_always_fits_witness :
  0 <= 64 < 2 ^ 32
  /\ fst (Windows.StringCchPrintfA stale_buffer Windows.ARRAYSIZE_messageBuffer
            ("ERROR: Failed to create thread %d." +++ LF) 64) = Windows.S_OK
  /\ fst (Windows.StringCchPrintfA stale_buffer Windows.ARRAYSIZE_messageBuffer
            ("Started %d worker threads" +++ LF) 64) = Windows.S_OK
  /\ fst (Windows.StringCchPrintfA stale_buffer Windows.ARRAYSIZE_messageBuffer
            ("Received exit signal %lu: Exiting..." +++ LF) 64) = Windows.S_OK
  /\ Windows.started_text stale_buffer 64
     = "Started " +++ dec 64 +++ " worker threads" +++ LF
  /\ Windows.failure_text stale_buffer 64
     = take 35 (("ERROR: Failed to create thread " +++ dec 64 +++ "." +++ LF)
                  +++ String NUL EmptyString).
Proof.
  assert (Hz : 0 <= 64 < 2 ^ 32) by (simpl; lia).
  split; [exact Hz|].
  exact (windows_formatting_always_fits stale_buffer 64 Hz).
Defined.

(** X16: Whatever the control event, the content of its stack buffer and the
outcome of formatting, the Windows ExitHandler makes exactly one
WriteConsoleA call, on the standard-error handle, sets the stop flag to
TRUE, leaves both console handles as they were, and returns TRUE. *)
Theorem windows_handler_always_sets_the_flag
    (buffer : string) (signal : Z) (m : Windows.memory) :
  let result := Windows.ExitHandler buffer signal m in
  (exists text, fst (fst result) = [Windows.WriteConsoleA (Windows.stdErr m) text])
  /\ Windows.stop (snd (fst result)) = Windows.TRUE
  /\ Windows.stdOut (snd (fst result)) = Windows.stdOut m
  /\ Windows.stdErr (snd (fst result)) = Windows.stdErr m
  /\ snd result = Windows.TRUE.
Proof.
  intros result. unfold result, Windows.ExitHandler. cbv zeta. cbn [fst snd].
  split; [|repeat split].
  destruct (fst (Windows.StringCchPrintfA buffer Windows.ARRAYSIZE_messageBuffer
                   ("Received exit signal %lu: Exiting..." +++ LF) signal)
            =? Windows.S_OK); eexists; reflexivity.
Qed.

(** X17: For a control event code in the range of DWORD, the line the
Windows ExitHandler writes to standard error is
[Received exit signal <code>: Exiting...] with the code in decimal, complete
with its line feed and without the terminating zero. *)
Theorem windows_handler_line
    (buffer : string) (signal : Z) (m : Windows.memory) :
  0 <= signal < 2 ^ 32 ->
  fst (fst (Windows.ExitHandler buffer signal m))
  = [Windows.WriteConsoleA (Windows.stdErr m)
       ("Received exit signal " +++ dec signal +++ ": Exiting..." +++ LF)].
Proof.
  intros Hsig. now rewrite windows_handler_writes_to_standard_error.
Qed.

Lemma windows_handler_line_witness :
  0 <= 2 < 2 ^ 32
  /\ fst (fst (Windows.ExitHandler stale_buffer 2
                 {| Windows.stdOut := 111; Windows.stdErr := 112; Windows.stop := 0 |}))
     = [Windows.WriteConsoleA 112
          ("Received exit signal " +++ dec 2 +++ ": Exiting..." +++ LF)].
Proof.
  assert (Hsig : 0 <= 2 < 2 ^ 32) by (simpl; lia).
  split; [exact Hsig|].
  exact (windows_handler_line stale_buffer 2
           {| Windows.stdOut := 111; Windows.stdErr := 112; Windows.stop := 0 |} Hsig).
Defined.

Lemma handler_effect
    (buffer : string) (signal : Z) (m : Windows.memory) :
  Windows.stop (snd (fst (Windows.ExitHandler buffer signal m))) = Windows.TRUE
  /\ Windows.stdOut (snd (fst (Windows.ExitHandler buffer signal m))) = Windows.stdOut m
  /\ Windows.stdErr (snd (fst (Windows.ExitHandler buffer signal m))) = Windows.stdErr m
  /\ exists text,
       fst (fst (Windows.ExitHandler buffer signal m))
       = [Windows.WriteConsoleA (Windows.stdErr m) text].
Proof.
  unfold Windows.ExitHandler. cbv zeta. cbn [fst snd]. repeat split.
  destruct (fst (Windows.StringCchPrintfA buffer Windows.ARRAYSIZE_messageBuffer
                   ("Received exit signal %lu: Exiting..." +++ LF) signal)
            =? Windows.S_OK); eexists; reflexivity.
Qed.

Section WindowsFlag.

Import Windows.

Lemma play_control (signal : Z) (buffer : string) (es : list event) (m : memory) :
  let handled := ExitHandler buffer signal m in
  let later := play es (snd (fst handled)) in
  play (Control signal buffer :: es) m
  = (fst (fst later), snd (fst later), fst (fst handled) ++ snd later).
Proof.
  cbn [play]. destruct (ExitHandler buffer signal m) as [[cs m'] r]. cbn [fst snd].
  now destruct (play es m') as [[m'' polled] calls].
Qed.

Lemma play_poll (es : list event) (m : memory) :
  play (Poll :: es) m
  = (fst (fst (play es m)),
     fst (CpuHeater_test m) :: snd (fst (play es m)),
     snd (play es m)).
Proof. cbn [play]. now destruct (play es m) as [[m'' polled] calls]. Qed.

(** Once the flag is set it stays set and every poll sees it. *)
Lemma play_with_flag_set (es : list event) (m : memory) :
  stop m <> FALSE ->
  stop (fst (fst (play es m))) <> FALSE
  /\ Forall (fun v => v <> FALSE) (snd (fst (play es m))).
Proof.
  revert m. induction es as [|[signal buffer|] es IH]; intros m Hset.
  - split; [exact Hset|constructor].
  - rewrite play_control. cbn [fst snd]. apply IH.
    destruct (handler_effect buffer signal m) as [H _].
    rewrite H. discriminate.
  - rewrite play_poll. cbn [fst snd]. destruct (IH m Hset) as [H1 H2].
    split; [exact H1|]. constructor; assumption.
Qed.

End WindowsFlag.

(** X18: On Windows, however control events and workers' polls of the loop
condition interleave: once a poll has seen the flag set, every later poll
sees it set; the flag is TRUE after the first event and stays so; every
event makes ExitHandler write one message, to the standard-error handle; and
the console handles never change. *)
Theorem windows_flag_is_monotonic (es : list Windows.event) (m : Windows.memory) :
  let result := Windows.play es m in
  let m' := fst (fst result) in
  let polled := snd (fst result) in
  let calls := snd result in
  Windows.stdOut m' = Windows.stdOut m
  /\ Windows.stdErr m' = Windows.stdErr m
  /\ Windows.stop m'
     = (if existsb Windows.is_control es then Windows.TRUE else Windows.stop m)
  /\ (forall earlier v later,
         polled = earlier ++ v :: later -> v <> Windows.FALSE ->
         Forall (fun w => w <> Windows.FALSE) later)
  /\ Forall (fun c => exists text, c = Windows.WriteConsoleA (Windows.stdErr m) text) calls
  /\ List.length calls = List.length (filter Windows.is_control es).
Proof.
  cbv zeta. revert m. induction es as [|[signal buffer|] es IH]; intros m.
  - cbn. repeat split; try constructor.
    intros [|x earlier] v later H; discriminate H.
  - rewrite play_control. cbv zeta. cbn [fst snd existsb filter Windows.is_control orb].
    destruct (handler_effect buffer signal m) as (Hstop & Hout & Herr & text & Hcall).
    destruct (IH (snd (fst (Windows.ExitHandler buffer signal m))))
      as (IHout & IHerr & IHstop & IHmono & IHcalls & IHlen).
    split; [congruence|]. split; [congruence|]. split.
    { rewrite IHstop, Hstop. now destruct (existsb Windows.is_control es). }
    split; [exact IHmono|]. split.
    + rewrite Hcall. constructor; [now exists text|]. now rewrite <- Herr.
    + rewrite Hcall. cbn [app List.length]. now rewrite IHlen.
  - rewrite play_poll. cbn [fst snd existsb filter Windows.is_control orb].
    destruct (IH m) as (IHout & IHerr & IHstop & IHmono & IHcalls & IHlen).
    repeat split; try assumption.
    intros [|x earlier] v later Heq Hv.
    + injection Heq as Hv' Hl. subst later.
      apply (play_with_flag_set es m). now rewrite Hv'.
    + injection Heq as _ Hl. now apply (IHmono earlier v later).
Qed.

(** * Runs in which main waits *)

Section WaitingFacts.

Variable call : Type.
Variable waits : call -> bool.

(** A run with waiting calls is the run in which every call returns, cut at
the first call that waits. *)
Lemma exec_until_exec (o : call -> Z) (p : prog call) :
  exec_until waits o p
  = (upto waits (fst (exec o p)),
     if existsb waits (fst (exec o p)) then None else Some (snd (exec o p))).
Proof.
  induction p as [status|c k IH]; cbn [exec_until exec fst snd upto existsb].
  - reflexivity.
  - destruct (waits c); [reflexivity|]. rewrite IH. reflexivity.
Qed.

Lemma upto_through (a b : list call) :
  existsb waits a = false -> upto waits (a ++ b) = a ++ upto waits b.
Proof.
  induction a as [|c a IH]; cbn [existsb app upto]; [reflexivity|].
  intros H. apply orb_false_elim in H as [Hc Ha].
  rewrite Hc, IH by exact Ha. reflexivity.
Qed.

Lemma upto_clear (t : list call) : existsb waits t = false -> upto waits t = t.
Proof.
  intros H. rewrite <- (List.app_nil_r t) at 1.
  rewrite upto_through by exact H. cbn [upto]. apply List.app_nil_r.
Qed.

(** The first call that waits ends the run. *)
Lemma upto_stops (a : list call) (c : call) (b : list call) :
  existsb waits a = false -> waits c = true ->
  upto waits (a ++ c :: b) = a ++ [c]
  /\ existsb waits (a ++ c :: b) = true.
Proof.
  intros Ha Hc. split.
  - rewrite upto_through by exact Ha. cbn [upto]. now rewrite Hc.
  - rewrite existsb_app. cbn [existsb]. rewrite Hc. apply orb_true_r.
Qed.

(** A run in which no call waits is the run in which every call returns. *)
Lemma exec_until_clear (o : call -> Z) (p : prog call) :
  existsb waits (fst (exec o p)) = false ->
  exec_until waits o p = (fst (exec o p), Some (snd (exec o p))).
Proof.
  intros H. rewrite exec_until_exec, H, upto_clear by exact H. reflexivity.
Qed.

End WaitingFacts.

Arguments exec_until_exec {call} waits o p.
Arguments upto_through {call} waits a b.
Arguments upto_clear {call} waits t.
Arguments upto_stops {call} waits a c b.
Arguments exec_until_clear {call} waits o p.

Section PosixWaiting.

Import Posix.

Variable o : call -> Z.
Variable returned : Z -> bool.

Lemma posix_only_joins_wait (t : list call) :
  filter is_join t = [] -> existsb (waits_for returned) t = false.
Proof.
  induction t as [|c t IH]; [reflexivity|]. cbn [filter existsb].
  destruct c; cbn [is_join waits_for orb]; try exact IH. discriminate.
Qed.

Lemma posix_joins_return (idx : list Z) :
  (forall i, In i idx -> returned i = true) ->
  existsb (waits_for returned) (map pthread_join idx) = false.
Proof.
  induction idx as [|i idx IH]; intros Hret; [reflexivity|].
  cbn [map existsb waits_for]. rewrite (Hret i) by now left.
  cbn [negb orb]. apply IH. intros j Hj. apply Hret. now right.
Qed.

(** The run of main when every thread is created: main joins the workers in
slot order as long as they have returned. *)
Lemma posix_wait_completion (N : Z) :
  starts o N ->
  (forall i, 0 <= i < N -> o (pthread_create i) = 0) ->
  (forall i, 0 <= i < N -> returned i = true) ->
  exec_until (waits_for returned) o main
  = (prologue N
       ++ map pthread_create (range N)
       ++ [fprintf Stdout ("Started " +++ dec N +++ " worker threads" +++ LF)]
       ++ map pthread_join (range N)
       ++ [free],
     Some EXIT_SUCCESS).
Proof.
  intros Hs Hok Hret. rewrite exec_until_clear.
  - now rewrite (posix_run_to_completion o N Hs Hok).
  - rewrite (posix_run_to_completion o N Hs Hok). cbn [fst].
    rewrite !existsb_app.
    rewrite (posix_joins_return (range N))
      by (intros i Hi; apply Hret, In_range, Hi).
    rewrite (posix_only_joins_wait (map pthread_create (range N))) by read_calls.
    reflexivity.
Qed.

Lemma posix_wait_blocked (N j : Z) :
  starts o N ->
  (forall i, 0 <= i < N -> o (pthread_create i) = 0) ->
  0 <= j < N ->
  (forall i, 0 <= i < j -> returned i = true) ->
  returned j = false ->
  exec_until (waits_for returned) o main
  = (prologue N
       ++ map pthread_create (range N)
       ++ [fprintf Stdout ("Started " +++ dec N +++ " worker threads" +++ LF)]
       ++ map pthread_join (range j)
       ++ [pthread_join j],
     None).
Proof.
  intros Hs Hok Hj Hret Hwait.
  rewrite exec_until_exec, (posix_run_to_completion o N Hs Hok). cbn [fst snd].
  destruct (range_split j N Hj) as [later Hsplit].
  assert (Hshape :
    prologue N
      ++ map pthread_create (range N)
      ++ [fprintf Stdout ("Started " +++ dec N +++ " worker threads" +++ LF)]
      ++ map pthread_join (range N)
      ++ [free]
    = (prologue N
         ++ map pthread_create (range N)
         ++ [fprintf Stdout ("Started " +++ dec N +++ " worker threads" +++ LF)]
         ++ map pthread_join (range j))
        ++ pthread_join j :: (map pthread_join later ++ [free])).
  { rewrite Hsplit at 2. rewrite map_app. cbn [map].
    rewrite <- !app_assoc. reflexivity. }
  rewrite Hshape.
  destruct (upto_stops (waits_for returned)
              (prologue N
                 ++ map pthread_create (range N)
                 ++ [fprintf Stdout ("Started " +++ dec N +++ " worker threads" +++ LF)]
                 ++ map pthread_join (range j))
              (pthread_join j) (map pthread_join later ++ [free]))
    as [Hupto Hsome].
  - rewrite !existsb_app.
    rewrite (posix_joins_return (range j))
      by (intros i Hi; apply Hret, In_range, Hi).
    rewrite (posix_only_joins_wait (map pthread_create (range N))) by read_calls.
    reflexivity.
  - cbn [waits_for]. now rewrite Hwait.
  - rewrite Hupto, Hsome. rewrite <- !app_assoc. reflexivity.
Qed.

(** Case analysis on a run of main with its waits: a property holds of the
run if it holds of each of the five runs main can make. *)
Lemma posix_waiting_cases (P : list call * option Z -> Prop) :
  let N := o sysconf_NPROCESSORS_ONLN in
  (N <= 0 ->
   P ([sysconf_NPROCESSORS_ONLN; signal SIGINT; signal SIGTERM;
       fprintf Stderr ("Error getting the number of processors." +++ LF)],
      Some EXIT_FAILURE)) ->
  (0 < N -> o (malloc N) = NULL ->
   P (prologue N ++ [fprintf Stderr ("Error allocating memory for threads." +++ LF)],
      Some EXIT_FAILURE)) ->
  (forall k, 0 <= k < N -> o (malloc N) <> NULL ->
   (forall i, 0 <= i < k -> o (pthread_create i) = 0) ->
   o (pthread_create k) <> 0 ->
   P (prologue N
        ++ map pthread_create (range k)
        ++ [pthread_create k;
            fprintf Stderr ("Error creating thread " +++ dec k +++ "." +++ LF);
            free],
      Some EXIT_FAILURE)) ->
  (forall j, 0 <= j < N -> o (malloc N) <> NULL ->
   (forall i, 0 <= i < N -> o (pthread_create i) = 0) ->
   (forall i, 0 <= i < j -> returned i = true) ->
   returned j = false ->
   P (prologue N
        ++ map pthread_create (range N)
        ++ [fprintf Stdout ("Started " +++ dec N +++ " worker threads" +++ LF)]
        ++ map pthread_join (range j)
        ++ [pthread_join j],
      None)) ->
  (0 < N -> o (malloc N) <> NULL ->
   (forall i, 0 <= i < N -> o (pthread_create i) = 0) ->
   (forall i, 0 <= i < N -> returned i = true) ->
   P (prologue N
        ++ map pthread_create (range N)
        ++ [fprintf Stdout ("Started " +++ dec N +++ " worker threads" +++ LF)]
        ++ map pthread_join (range N)
        ++ [free],
      Some EXIT_SUCCESS)) ->
  P (exec_until (waits_for returned) o main).
Proof.
  intros N Hcount Halloc Hspawn Hwait Hdone.
  assert (Hfail : forall t s,
            exec o main = (t, s) -> filter is_join t = [] ->
            exec_until (waits_for returned) o main = (t, Some s)).
  { intros t s Hrun Hjoin. rewrite exec_until_clear; rewrite Hrun; cbn [fst snd];
      [reflexivity|now apply posix_only_joins_wait]. }
  destruct (Z.le_gt_cases N 0) as [Hle|Hpos].
  { rewrite (Hfail [sysconf_NPROCESSORS_ONLN; signal SIGINT; signal SIGTERM;
                    fprintf Stderr ("Error getting the number of processors." +++ LF)]
               EXIT_FAILURE); [now apply Hcount| |reflexivity].
    unfold main. cbn [exec]. fold N.
    pose proof Hle as Hle'. apply Z.leb_le in Hle'. rewrite Hle'. reflexivity. }
  destruct (Z.eq_dec (o (malloc N)) NULL) as [Hnull|Hmem].
  { rewrite (Hfail _ _ (posix_allocation_failure o N eq_refl Hpos Hnull))
      by read_calls.
    now apply Halloc. }
  assert (Hs : starts o N) by (repeat split; assumption).
  destruct (first_failure_below o N) as [Hall|(k & Hk & Hbelow & Hbad)].
  - destruct (first_failure_generic returned N) as [Hret|(j & Hj & Hret & Hnot)].
    + rewrite (posix_wait_completion N Hs Hall Hret). now apply Hdone.
    + rewrite (posix_wait_blocked N j Hs Hall Hj Hret Hnot). now apply Hwait.
  - rewrite (Hfail _ _ (posix_run_spawn_fails o N k Hs Hk Hbelow Hbad))
      by read_calls.
    now apply Hspawn.
Qed.

End PosixWaiting.

Section WindowsWaiting.

Import Windows.

Variable o : call -> Z.
Variables (buffer : string) (heap : Z -> Z).
Variable all_returned : bool.

Lemma windows_only_the_wait_waits (b : bool) (t : list call) :
  filter is_wait t = [] -> existsb (waits_for b) t = false.
Proof.
  induction t as [|c t IH]; [reflexivity|]. cbn [filter existsb].
  destruct c; cbn [is_wait waits_for orb]; try exact IH. discriminate.
Qed.

Lemma windows_nothing_waits (t : list call) :
  existsb (waits_for true) t = false.
Proof.
  induction t as [|c t IH]; [reflexivity|]. cbn [existsb].
  rewrite IH. destruct c; reflexivity.
Qed.

(** The run of main when every thread is created: the wait returns only when
all the workers have. *)
Lemma windows_wait_outcome (hOut hErr N : Z) :
  starts o hOut hErr N ->
  (forall i, 0 <= i < N -> o (CreateThread i) <> NULL) ->
  exec_until (waits_for all_returned) o (main buffer heap)
  = if all_returned
    then (prologue N
            ++ map CreateThread (range N)
            ++ [WriteConsoleA hOut (started_text buffer N);
                WaitForMultipleObjects N (map (fun i => o (CreateThread i)) (range N))]
            ++ map (fun i => CloseHandle (o (CreateThread i))) (range N)
            ++ [HeapFree],
          Some EXIT_SUCCESS)
    else (prologue N
            ++ map CreateThread (range N)
            ++ [WriteConsoleA hOut (started_text buffer N);
                WaitForMultipleObjects N (map (fun i => o (CreateThread i)) (range N))],
          None).
Proof.
  intros Hs Hok.
  destruct all_returned eqn:Hall.
  - rewrite exec_until_clear by apply windows_nothing_waits.
    now rewrite (windows_run_to_completion_any o buffer heap hOut hErr N Hs Hok).
  - rewrite exec_until_exec,
      (windows_run_to_completion_any o buffer heap hOut hErr N Hs Hok).
    cbn [fst snd].
    set (spawned := prologue N
                      ++ map CreateThread (range N)
                      ++ [WriteConsoleA hOut (started_text buffer N)]).
    set (wait := WaitForMultipleObjects N
                   (map (fun i => o (CreateThread i)) (range N))).
    set (closing := map (fun i => CloseHandle (o (CreateThread i))) (range N)
                      ++ [HeapFree]).
    replace (prologue N
               ++ map CreateThread (range N)
               ++ [WriteConsoleA hOut (started_text buffer N); wait]
               ++ closing)
      with (spawned ++ wait :: closing)
      by (unfold spawned; rewrite <- !app_assoc; reflexivity).
    destruct (upto_stops (waits_for false) spawned wait closing) as [Hupto Hsome].
    + apply windows_only_the_wait_waits. unfold spawned. read_calls.
    + reflexivity.
    + rewrite Hupto, Hsome. unfold spawned. rewrite <- !app_assoc. reflexivity.
Qed.

(** Case analysis on a run of main with its wait: a property holds of the run
if it holds of each of the eight runs main can make. *)
Lemma windows_waiting_cases (P : list call * option Z -> Prop) :
  let hOut := o (GetStdHandle STD_OUTPUT_HANDLE) in
  let hErr := o (GetStdHandle STD_ERROR_HANDLE) in
  let N := o GetSystemInfo in
  (hOut = NULL \/ hOut = INVALID_HANDLE_VALUE ->
   P ([GetStdHandle STD_OUTPUT_HANDLE;
       OutputDebugStringA "ERROR: Failed to initialize standard output"],
      Some EXIT_FAILURE)) ->
  (hOut <> NULL -> hOut <> INVALID_HANDLE_VALUE ->
   hErr = NULL \/ hErr = INVALID_HANDLE_VALUE ->
   P ([GetStdHandle STD_OUTPUT_HANDLE; GetStdHandle STD_ERROR_HANDLE;
       OutputDebugStringA "ERROR: Failed to initialize standard error ouput"],
      Some EXIT_FAILURE)) ->
  (hOut <> NULL -> hOut <> INVALID_HANDLE_VALUE ->
   hErr <> NULL -> hErr <> INVALID_HANDLE_VALUE ->
   o SetConsoleCtrlHandler = FALSE ->
   P ([GetStdHandle STD_OUTPUT_HANDLE; GetStdHandle STD_ERROR_HANDLE;
       SetConsoleCtrlHandler;
       WriteConsoleA hErr ("ERROR: Failed to set console ctrl handler" +++ LF)],
      Some EXIT_FAILURE)) ->
  (console_ready o hOut hErr -> N <= 0 ->
   P ([GetStdHandle STD_OUTPUT_HANDLE; GetStdHandle STD_ERROR_HANDLE;
       SetConsoleCtrlHandler; GetSystemInfo;
       WriteConsoleA hErr ("ERROR: Failed to get number of processors" +++ LF)],
      Some EXIT_FAILURE)) ->
  (console_ready o hOut hErr -> 0 < N -> o (HeapAlloc N) = NULL ->
   P (prologue N
        ++ [WriteConsoleA hErr ("ERROR: Failed to allocate memory for threads" +++ LF)],
      Some EXIT_FAILURE)) ->
  (forall k, console_ready o hOut hErr -> 0 <= k < N -> o (HeapAlloc N) <> NULL ->
   (forall i, 0 <= i < k -> o (CreateThread i) <> NULL) ->
   o (CreateThread k) = NULL ->
   P (prologue N
        ++ map CreateThread (range k)
        ++ [CreateThread k; WriteConsoleA hErr (failure_text buffer k); HeapFree],
      Some EXIT_FAILURE)) ->
  (console_ready o hOut hErr -> 0 < N -> o (HeapAlloc N) <> NULL ->
   (forall i, 0 <= i < N -> o (CreateThread i) <> NULL) ->
   all_returned = false ->
   P (prologue N
        ++ map CreateThread (range N)
        ++ [WriteConsoleA hOut (started_text buffer N);
            WaitForMultipleObjects N (map (fun i => o (CreateThread i)) (range N))],
      None)) ->
  (console_ready o hOut hErr -> 0 < N -> o (HeapAlloc N) <> NULL ->
   (forall i, 0 <= i < N -> o (CreateThread i) <> NULL) ->
   all_returned = true ->
   P (prologue N
        ++ map CreateThread (range N)
        ++ [WriteConsoleA hOut (started_text buffer N);
            WaitForMultipleObjects N (map (fun i => o (CreateThread i)) (range N))]
        ++ map (fun i => CloseHandle (o (CreateThread i))) (range N)
        ++ [HeapFree],
      Some EXIT_SUCCESS)) ->
  P (exec_until (waits_for all_returned) o (main buffer heap)).
Proof.
  intros hOut hErr N Hout Herr Hctrl Hcount Halloc Hspawn Hwait Hdone.
  assert (Hsplit :
    (exists t s, exec o (main buffer heap) = (t, s)
                 /\ filter is_wait t = [] /\ P (t, Some s))
    \/ (console_ready o hOut hErr /\ 0 < N /\ o (HeapAlloc N) <> NULL
        /\ forall i, 0 <= i < N -> o (CreateThread i) <> NULL)).
  { pattern (exec o (main buffer heap)).
    apply windows_main_cases; fold hOut hErr N.
    - intros H. left. eexists. eexists. split; [reflexivity|].
      split; [reflexivity|now apply Hout].
    - intros H1 H2 H. left. eexists. eexists. split; [reflexivity|].
      split; [reflexivity|now apply Herr].
    - intros H1 H2 H3 H4 H. left. eexists. eexists. split; [reflexivity|].
      split; [reflexivity|now apply Hctrl].
    - intros H1 H. left. eexists. eexists. split; [reflexivity|].
      split; [reflexivity|now apply Hcount].
    - intros H1 H2 H. left. eexists. eexists. split; [reflexivity|].
      split; [read_calls|now apply Halloc].
    - intros k H1 H2 H3 H4 H. left. eexists. eexists. split; [reflexivity|].
      split; [read_calls|now apply Hspawn].
    - intros H1 H2 H3 H4. right.
      split; [exact H1|]. split; [exact H2|]. split; [exact H3|exact H4]. }
  destruct Hsplit as [(t & s & Hrun & Hnowait & HP)|(Hready & Hpos & Hmem & Hall)].
  - rewrite exec_until_clear; rewrite Hrun; cbn [fst snd];
      [exact HP|now apply windows_only_the_wait_waits].
  - assert (Hs : starts o hOut hErr N)
      by (split; [exact Hready|]; repeat split; assumption).
    rewrite (windows_wait_outcome hOut hErr N Hs Hall).
    destruct all_returned eqn:Hret; [now apply Hdone|now apply Hwait].
Qed.

End WindowsWaiting.

(** * The supervisor and its workers *)

(** C1, amended: For every positive processor count N returned by the
CPU-count probe, when the handle array is allocated and all N spawns succeed,
the supervisor spawns exactly N worker threads, one per slot 0..N-1, prints
the start-up line and then waits for them.  On POSIX it joins the handles in
slot order and is left waiting in the join of the first worker that has not
returned; if every worker returns, each of the N handles is joined exactly
once, the array is freed and main returns success.  In the running process
the calls main has made are, under every schedule, an initial part of that
sequence; a join is completed only once the stop flag is set; and when the
process has ended, it ended with success, with the whole sequence made and
the flag set.  On Windows main makes one wait on all N handles; if it
returns, main closes each handle once, frees the array and returns success,
and otherwise main is left in the wait.  The slots [range N] are the N
distinct indices 0..N-1. *)
Theorem supervisor_spawns_and_joins_every_worker :
  (forall (o : Posix.call -> Z) (returned : Z -> bool) (N : Z),
      Posix.starts o N ->
      (forall i, 0 <= i < N -> o (Posix.pthread_create i) = 0) ->
      let run := exec_until (Posix.waits_for returned) o Posix.main in
      ((forall i, 0 <= i < N -> returned i = true) ->
       run = (Posix.prologue N
                ++ map Posix.pthread_create (range N)
                ++ [Posix.fprintf Stdout ("Started " +++ dec N +++ " worker threads" +++ LF)]
                ++ map Posix.pthread_join (range N)
                ++ [Posix.free],
              Some EXIT_SUCCESS))
      /\ (forall j, 0 <= j < N ->
            (forall i, 0 <= i < j -> returned i = true) ->
            returned j = false ->
            run = (Posix.prologue N
                     ++ map Posix.pthread_create (range N)
                     ++ [Posix.fprintf Stdout
                           ("Started " +++ dec N +++ " worker threads" +++ LF)]
                     ++ map Posix.pthread_join (range j)
                     ++ [Posix.pthread_join j],
                   None)))
  /\ (forall (o : Posix.call -> Z) (schedule : list Posix.action) (N : Z),
      Posix.starts o N ->
      (forall i, 0 <= i < N -> o (Posix.pthread_create i) = 0) ->
      let p := Posix.run o schedule Posix.initial in
      let calls := Posix.prologue N
                     ++ map Posix.pthread_create (range N)
                     ++ [Posix.fprintf Stdout
                           ("Started " +++ dec N +++ " worker threads" +++ LF)]
                     ++ map Posix.pthread_join (range N)
                     ++ [Posix.free] in
      (exists rest, calls = Posix.trace p ++ rest)
      /\ (forall i, In (Posix.pthread_join i) (Posix.trace p) ->
            Posix.stop (Posix.mem p) <> 0)
      /\ (forall status, Posix.exit_status p = Some status ->
            status = EXIT_SUCCESS /\ Posix.trace p = calls
            /\ Posix.stop (Posix.mem p) = 1))
  /\ (forall (o : Windows.call -> Z) (all_returned : bool)
             (buffer : string) (heap : Z -> Z) (hOut hErr N : Z),
      Windows.starts o hOut hErr N ->
      N <= Windows.INT_MAX ->
      (forall i, 0 <= i < N -> o (Windows.CreateThread i) <> NULL) ->
      exec_until (Windows.waits_for all_returned) o (Windows.main buffer heap)
      = if all_returned
        then (Windows.prologue N
                ++ map Windows.CreateThread (range N)
                ++ [Windows.WriteConsoleA hOut
                      ("Started " +++ dec N +++ " worker threads" +++ LF);
                    Windows.WaitForMultipleObjects N
                      (map (fun i => o (Windows.CreateThread i)) (range N))]
                ++ map (fun i => Windows.CloseHandle (o (Windows.CreateThread i)))
                     (range N)
                ++ [Windows.HeapFree],
              Some EXIT_SUCCESS)
        else (Windows.prologue N
                ++ map Windows.CreateThread (range N)
                ++ [Windows.WriteConsoleA hOut
                      ("Started " +++ dec N +++ " worker threads" +++ LF);
                    Windows.WaitForMultipleObjects N
                      (map (fun i => o (Windows.CreateThread i)) (range N))],
              None))
  /\ (forall N : Z,
      List.length (range N) = Z.to_nat N
      /\ NoDup (range N)
      /\ forall i, In i (range N) <-> 0 <= i < N).
Proof.
  split; [|split; [|split]].
  - intros o returned N Hs Hok run. unfold run. split.
    + intros Hret. now apply posix_wait_completion.
    + intros j Hj Hret Hnot. now apply posix_wait_blocked.
  - intros o schedule N Hs Hok p calls.
    destruct (run_reachable_facts o schedule Posix.initial (initial_reachable_facts o))
      as ((Hcalls & Hret) & (_ & _ & Hjoin) & _).
    fold p in Hcalls, Hret, Hjoin.
    rewrite (posix_run_to_completion o N Hs Hok) in Hcalls.
    injection Hcalls as Htrace Hstatus. fold calls in Htrace.
    split; [now exists (fst (exec o (Posix.supervisor p)))|].
    split; [exact Hjoin|].
    intros status Hexit. rewrite (Hret status Hexit) in Htrace, Hstatus.
    cbn [exec fst snd] in Htrace, Hstatus. rewrite List.app_nil_r in Htrace.
    subst status. split; [reflexivity|]. split; [now symmetry|].
    now destruct (posix_exit_zero_is_normal_shutdown o schedule Hexit) as (_ & _ & Hstop).
  - intros o all_returned buffer heap hOut hErr N Hs Hmax Hok.
    rewrite (windows_wait_outcome o buffer heap all_returned hOut hErr N Hs Hok).
    assert (Hline : Windows.started_text buffer N
                    = "Started " +++ dec N +++ " worker threads" +++ LF).
    { pose proof Hs as (_ & _ & Hpos & _).
      destruct (started_written buffer N (conj Hpos Hmax)) as [Hres Htext].
      unfold Windows.started_text. cbv zeta. rewrite Hres, Htext. reflexivity. }
    now rewrite Hline.
  - intros N. split; [apply range_length|]. split; [apply range_NoDup|].
    intros i. apply In_range.
Qed.

Lemma supervisor_spawns_and_joins_every_worker_witness :
  (Posix.starts posix_host4 4
   /\ (forall i, 0 <= i < 4 -> posix_host4 (Posix.pthread_create i) = 0)
   /\ exec_until (Posix.waits_for (fun _ => true)) posix_host4 Posix.main
      = (Posix.prologue 4
           ++ map Posix.pthread_create (range 4)
           ++ [Posix.fprintf Stdout ("Started " +++ dec 4 +++ " worker threads" +++ LF)]
           ++ map Posix.pthread_join (range 4)
           ++ [Posix.free],
         Some EXIT_SUCCESS)
   /\ exec_until (Posix.waits_for (fun i => i <? 2)) posix_host4 Posix.main
      = (Posix.prologue 4
           ++ map Posix.pthread_create (range 4)
           ++ [Posix.fprintf Stdout ("Started " +++ dec 4 +++ " worker threads" +++ LF)]
           ++ map Posix.pthread_join (range 2)
           ++ [Posix.pthread_join 2],
         None))
  /\ (exists rest,
        Posix.prologue 4
          ++ map Posix.pthread_create (range 4)
          ++ [Posix.fprintf Stdout ("Started " +++ dec 4 +++ " worker threads" +++ LF)]
          ++ map Posix.pthread_join (range 4)
          ++ [Posix.free]
        = Posix.trace (Posix.run posix_host4 sigint_run Posix.initial) ++ rest)
  /\ (Windows.starts (windows_host 4) 111 112 4
      /\ 4 <= Windows.INT_MAX
      /\ (forall i, 0 <= i < 4 -> windows_host 4 (Windows.CreateThread i) <> NULL)
      /\ exec_until (Windows.waits_for false) (windows_host 4)
           (Windows.main stale_buffer stale_heap)
         = (Windows.prologue 4
              ++ map Windows.CreateThread (range 4)
              ++ [Windows.WriteConsoleA 111 ("Started " +++ dec 4 +++ " worker threads" +++ LF);
                  Windows.WaitForMultipleObjects 4
                    (map (fun i => windows_host 4 (Windows.CreateThread i)) (range 4))],
            None)).
Proof.
  assert (Hp : Posix.starts posix_host4 4)
    by (unfold Posix.starts, NULL; simpl; repeat split; lia).
  assert (Hpc : forall i, 0 <= i < 4 -> posix_host4 (Posix.pthread_create i) = 0)
    by (intros i Hi; reflexivity).
  assert (Hw : Windows.starts (windows_host 4) 111 112 4)
    by (unfold Windows.starts, Windows.console_ready, NULL,
          Windows.INVALID_HANDLE_VALUE, Windows.FALSE; simpl; repeat split; lia).
  assert (Hmax : 4 <= Windows.INT_MAX) by (unfold Windows.INT_MAX; lia).
  assert (Hwc : forall i, 0 <= i < 4 -> windows_host 4 (Windows.CreateThread i) <> NULL)
    by (intros i Hi; change (500 + i <> 0); lia).
  assert (Hlow : forall i, 0 <= i < 2 -> (i <? 2) = true)
    by (intros i Hi; apply Z.ltb_lt; lia).
  assert (Hj : 0 <= 2 < 4) by lia.
  split; [|split].
  - split; [exact Hp|]. split; [exact Hpc|]. split.
    + exact (proj1 (proj1 supervisor_spawns_and_joins_every_worker
                      posix_host4 (fun _ => true) 4 Hp Hpc)
               (fun _ _ => eq_refl)).
    + exact (proj2 (proj1 supervisor_spawns_and_joins_every_worker
                      posix_host4 (fun i => i <? 2) 4 Hp Hpc)
               2 Hj Hlow eq_refl).
  - exact (proj1 (proj1 (proj2 supervisor_spawns_and_joins_every_worker)
                    posix_host4 sigint_run 4 Hp Hpc)).
  - split; [exact Hw|]. split; [exact Hmax|]. split; [exact Hwc|].
    exact (proj1 (proj2 (proj2 supervisor_spawns_and_joins_every_worker))
             (windows_host 4) false stale_buffer stale_heap 111 112 4 Hw Hmax Hwc).
Defined.

(** ** A spawn that fails *)

Section SmallNumbers.

Lemma usize_nb_digits (d : Decimal.uint) :
  Unsigned.usize d = N.of_nat (Decimal.nb_digits d).
Proof.
  induction d; cbn [Unsigned.usize Decimal.nb_digits];
    rewrite ?IHd, ?Nnat.Nat2N.inj_succ; reflexivity.
Qed.

Lemma to_uint_normal (p : positive) :
  Decimal.unorm (Pos.to_uint p) = Pos.to_uint p.
Proof.
  rewrite <- (Unsigned.to_of (Pos.to_uint p)), Unsigned.of_to. reflexivity.
Qed.

(** A positive number is at least the power of ten of the number of its
decimal digits but one: its leading digit is not zero. *)
Lemma value_at_least (p : positive) :
  (10 ^ N.of_nat (Nat.pred (Decimal.nb_digits (Pos.to_uint p))) <= Npos p)%N.
Proof.
  pose proof (Unsigned.of_to p) as Hval.
  pose proof (to_uint_normal p) as Hnorm.
  pose proof (Unsigned.to_uint_nonnil p) as Hnil.
  pose proof (Unsigned.to_uint_nonzero p) as Hzero.
  rewrite Unsigned.of_uint_alt in Hval.
  destruct (Pos.to_uint p) as [|d|d|d|d|d|d|d|d|d|d] eqn:E; try congruence.
  1: { exfalso. unfold Decimal.unorm in Hnorm. cbn [Decimal.nzhead] in Hnorm.
       pose proof (nb_digits_nzhead d) as Hle.
       destruct (Decimal.nzhead d) eqn:En; try discriminate Hnorm.
       - injection Hnorm as <-. now apply Hzero.
       - rewrite Hnorm in Hle. cbn [Decimal.nb_digits] in Hle. lia. }
  all: unfold Decimal.rev in Hval; cbn [Decimal.revapp] in Hval;
    rewrite Unsigned.of_lu_revapp in Hval; rewrite <- Hval;
    cbn [Decimal.nb_digits Nat.pred]; rewrite <- usize_nb_digits;
    cbn [Unsigned.of_lu Unsigned.hd Unsigned.tl]; nia.
Qed.

(** A number below ten thousand has at most four decimal digits. *)
Lemma dec_length_small (k : Z) :
  0 <= k < 10000 -> (String.length (dec k) <= 4)%nat.
Proof.
  intros Hk. destruct k as [|p|p]; try lia; [simpl; lia|].
  unfold dec. simpl Z.to_int. simpl NilZero.string_of_int.
  assert (Hd : (Decimal.nb_digits (Pos.to_uint p) <= 4)%nat).
  { pose proof (value_at_least p) as Hlow.
    destruct (Nat.le_gt_cases (Decimal.nb_digits (Pos.to_uint p)) 4) as [Hle|Hgt];
      [exact Hle|exfalso].
    assert (Hpow : (10 ^ 4 <= 10 ^ N.of_nat (Nat.pred (Decimal.nb_digits (Pos.to_uint p))))%N)
      by (apply N.pow_le_mono_r; lia).
    change (10 ^ 4)%N with 10000%N in Hpow. lia. }
  pose proof (DecimalPos.Unsigned.to_uint_nonnil p) as Hnn.
  destruct (Pos.to_uint p) eqn:E; try congruence;
    unfold NilZero.string_of_uint; rewrite uint_length; exact Hd.
Qed.

(** For a slot below ten thousand the characters passed to WriteConsoleA on
the failure branch of the Windows spawn loop hold the slot in full, followed
by as much of the rest of the message (and of its terminating zero byte) as
the length of the template leaves room for. *)
Lemma failure_text_names_thread (buffer : string) (k : Z) :
  0 <= k < 10000 ->
  Windows.failure_text buffer k
  = "ERROR: Failed to create thread " +++ dec k
      +++ take (4 - String.length (dec k)) ("." +++ LF +++ String NUL EmptyString).
Proof.
  intros Hk. pose proof (dec_length_small k Hk) as Hshort.
  pose proof (dec_nonempty k) as Hdec.
  unfold Windows.failure_text. cbv zeta.
  assert (Hfmt : sprintf1 ("ERROR: Failed to create thread %d." +++ LF) k
                 = "ERROR: Failed to create thread " +++ dec k +++ "." +++ LF)
    by reflexivity.
  assert (Hlen : String.length ("ERROR: Failed to create thread " +++ dec k +++ "." +++ LF)
                 = (33 + String.length (dec k))%nat).
  { rewrite !length_cat. simpl. lia. }
  rewrite format_fits
    by (rewrite Hfmt, Hlen; unfold Windows.ARRAYSIZE_messageBuffer; lia).
  rewrite Hfmt. cbn [fst snd].
  change (Windows.S_OK =? Windows.S_OK) with true. cbv iota.
  change (strlen ("ERROR: Failed to create thread %d." +++ LF)) with 35%nat.
  unfold overlay.
  rewrite take_cat_less
    by (rewrite length_cat, Hlen; cbn [String.length]; lia).
  rewrite !cat_assoc.
  change 35%nat with (String.length "ERROR: Failed to create thread " + 4)%nat.
  rewrite take_cat_more. f_equal.
  replace 4%nat with (String.length (dec k) + (4 - String.length (dec k)))%nat at 1
    by lia.
  rewrite take_cat_more. reflexivity.
Qed.

End SmallNumbers.

(** C7: If the spawn of the k-th worker (0 <= k < N) fails, the program
writes a diagnostic identifying thread index k to standard error, frees the
handle sequence and exits with nonzero status; it attempts no join (or wait,
or CloseHandle) and does not print the start-up line: the diagnostic is the
only thing it writes.  On POSIX the diagnostic is [Error creating thread
<k>.]; on Windows, for a processor count up to ten thousand, it is [ERROR:
Failed to create thread <k>] followed by as much of [.], the line feed and
the terminating zero byte as the 35 characters of the template leave room
for. *)
Theorem spawn_failure_is_fatal :
  (forall (o : Posix.call -> Z) (returned : Z -> bool) (N k : Z),
      Posix.starts o N ->
      0 <= k < N ->
      (forall i, 0 <= i < k -> o (Posix.pthread_create i) = 0) ->
      o (Posix.pthread_create k) <> 0 ->
      let run := exec_until (Posix.waits_for returned) o Posix.main in
      run = (Posix.prologue N
               ++ map Posix.pthread_create (range k)
               ++ [Posix.pthread_create k;
                   Posix.fprintf Stderr ("Error creating thread " +++ dec k +++ "." +++ LF);
                   Posix.free],
             Some EXIT_FAILURE)
      /\ filter Posix.is_print (fst run)
         = [Posix.fprintf Stderr ("Error creating thread " +++ dec k +++ "." +++ LF)]
      /\ filter Posix.is_join (fst run) = []
      /\ filter Posix.is_free (fst run) = [Posix.free])
  /\ (forall (o : Windows.call -> Z) (all_returned : bool)
             (buffer : string) (heap : Z -> Z) (hOut hErr N k : Z),
      Windows.starts o hOut hErr N ->
      N <= 10000 ->
      0 <= k < N ->
      (forall i, 0 <= i < k -> o (Windows.CreateThread i) <> NULL) ->
      o (Windows.CreateThread k) = NULL ->
      let run := exec_until (Windows.waits_for all_returned) o
                   (Windows.main buffer heap) in
      let diagnostic :=
        Windows.WriteConsoleA hErr
          ("ERROR: Failed to create thread " +++ dec k
             +++ take (4 - String.length (dec k))
                   ("." +++ LF +++ String NUL EmptyString)) in
      run = (Windows.prologue N
               ++ map Windows.CreateThread (range k)
               ++ [Windows.CreateThread k; diagnostic; Windows.HeapFree],
             Some EXIT_FAILURE)
      /\ filter Windows.is_write (fst run) = [diagnostic]
      /\ filter Windows.is_wait (fst run) = []
      /\ filter Windows.is_close (fst run) = []
      /\ filter Windows.is_free (fst run) = [Windows.HeapFree])
  /\ EXIT_FAILURE <> 0.
Proof.
  split; [|split].
  - intros o returned N k Hs Hk Hok Hfail run. unfold run.
    rewrite exec_until_clear;
      rewrite (posix_run_spawn_fails o N k Hs Hk Hok Hfail); cbn [fst snd].
    + split; [reflexivity|]. repeat split; read_calls.
    + apply posix_only_joins_wait. read_calls.
  - intros o all_returned buffer heap hOut hErr N k Hs Hmax Hk Hok Hfail run diagnostic.
    unfold run, diagnostic.
    rewrite exec_until_clear;
      rewrite (windows_run_spawn_fails o buffer heap hOut hErr N k Hs Hk Hok Hfail);
      cbn [fst snd].
    + rewrite failure_text_names_thread by lia.
      split; [reflexivity|]. repeat split; read_calls.
    + apply windows_only_the_wait_waits. read_calls.
  - discriminate.
Qed.

Lemma spawn_failure_is_fatal_witness :
  (Posix.starts posix_host4_third_spawn_fails 4
   /\ 0 <= 2 < 4
   /\ (forall i, 0 <= i < 2 -> posix_host4_third_spawn_fails (Posix.pthread_create i) = 0)
   /\ posix_host4_third_spawn_fails (Posix.pthread_create 2) <> 0
   /\ exec_until (Posix.waits_for (fun _ => false)) posix_host4_third_spawn_fails Posix.main
      = (Posix.prologue 4
           ++ map Posix.pthread_create (range 2)
           ++ [Posix.pthread_create 2;
               Posix.fprintf Stderr ("Error creating thread " +++ dec 2 +++ "." +++ LF);
               Posix.free],
         Some EXIT_FAILURE))
  /\ (Windows.starts (windows_host_spawn_fails 4 2) 111 112 4
      /\ 4 <= 10000
      /\ 0 <= 2 < 4
      /\ (forall i, 0 <= i < 2 ->
            windows_host_spawn_fails 4 2 (Windows.CreateThread i) <> NULL)
      /\ windows_host_spawn_fails 4 2 (Windows.CreateThread 2) = NULL
      /\ exec_until (Windows.waits_for false) (windows_host_spawn_fails 4 2)
           (Windows.main stale_buffer stale_heap)
         = (Windows.prologue 4
              ++ map Windows.CreateThread (range 2)
              ++ [Windows.CreateThread 2;
                  Windows.WriteConsoleA 112
                    ("ERROR: Failed to create thread " +++ dec 2
                       +++ take (4 - String.length (dec 2))
                             ("." +++ LF +++ String NUL EmptyString));
                  Windows.HeapFree],
            Some EXIT_FAILURE)).
Proof.
  assert (Hp : Posix.starts posix_host4_third_spawn_fails 4)
    by (unfold Posix.starts, NULL; simpl; repeat split; lia).
  assert (Hk : 0 <= 2 < 4) by lia.
  assert (Hpok : forall i, 0 <= i < 2 ->
                   posix_host4_third_spawn_fails (Posix.pthread_create i) = 0).
  { intros i Hi. assert (Hi' : i = 0 \/ i = 1) by lia.
    destruct Hi' as [-> | ->]; reflexivity. }
  assert (Hpfail : posix_host4_third_spawn_fails (Posix.pthread_create 2) <> 0)
    by discriminate.
  assert (Hs : Windows.starts (windows_host_spawn_fails 4 2) 111 112 4)
    by (unfold Windows.starts, Windows.console_ready, NULL,
          Windows.INVALID_HANDLE_VALUE, Windows.FALSE; simpl; repeat split; lia).
  assert (Hmax : 4 <= 10000) by lia.
  assert (Hok : forall i, 0 <= i < 2 ->
                  windows_host_spawn_fails 4 2 (Windows.CreateThread i) <> NULL).
  { intros i Hi. unfold windows_host_spawn_fails.
    replace (i =? 2) with false by (symmetry; apply Z.eqb_neq; lia).
    unfold NULL. lia. }
  assert (Hfail : windows_host_spawn_fails 4 2 (Windows.CreateThread 2) = NULL)
    by reflexivity.
  split.
  - split; [exact Hp|]. split; [exact Hk|]. split; [exact Hpok|].
    split; [exact Hpfail|].
    exact (proj1 (proj1 spawn_failure_is_fatal
                    posix_host4_third_spawn_fails (fun _ => false) 4 2
                    Hp Hk Hpok Hpfail)).
  - split; [exact Hs|]. split; [exact Hmax|]. split; [exact Hk|].
    split; [exact Hok|]. split; [exact Hfail|].
    exact (proj1 (proj1 (proj2 spawn_failure_is_fatal)
                    (windows_host_spawn_fails 4 2) false stale_buffer stale_heap
                    111 112 4 2 Hs Hmax Hk Hok Hfail)).
Defined.

(** * The runs of the POSIX supervisor, with its waits *)

(** X1: Whatever the operating system answers and whichever workers return,
a run of the POSIX main is one of five: the count is not positive
(diagnostic, EXIT_FAILURE); the array cannot be allocated (diagnostic,
EXIT_FAILURE, nothing to free); the spawn of some slot k is the first to
fail (diagnostic naming k, the array freed, EXIT_FAILURE, no join); every
spawn succeeds and the worker of some slot j is the first that never
returns (start-up line, the joins of the slots below j, and main left
waiting in the join of j: nothing freed, no status); or every spawn succeeds
and every worker returns (start-up line, one join per slot, the array freed,
EXIT_SUCCESS).  Both handlers are registered in each of them. *)
Theorem posix_main_outcomes (o : Posix.call -> Z) (returned : Z -> bool) :
  let N := o Posix.sysconf_NPROCESSORS_ONLN in
  let run := exec_until (Posix.waits_for returned) o Posix.main in
  (N <= 0
   /\ run
      = ([Posix.sysconf_NPROCESSORS_ONLN;
          Posix.signal Posix.SIGINT; Posix.signal Posix.SIGTERM;
          Posix.fprintf Stderr ("Error getting the number of processors." +++ LF)],
         Some EXIT_FAILURE))
  \/ (0 < N /\ o (Posix.malloc N) = NULL
      /\ run
         = (Posix.prologue N
              ++ [Posix.fprintf Stderr ("Error allocating memory for threads." +++ LF)],
            Some EXIT_FAILURE))
  \/ (exists k,
        0 <= k < N /\ o (Posix.malloc N) <> NULL
        /\ (forall i, 0 <= i < k -> o (Posix.pthread_create i) = 0)
        /\ o (Posix.pthread_create k) <> 0
        /\ run
           = (Posix.prologue N
                ++ map Posix.pthread_create (range k)
                ++ [Posix.pthread_create k;
                    Posix.fprintf Stderr ("Error creating thread " +++ dec k +++ "." +++ LF);
                    Posix.free],
              Some EXIT_FAILURE))
  \/ (exists j,
        0 <= j < N /\ o (Posix.malloc N) <> NULL
        /\ (forall i, 0 <= i < N -> o (Posix.pthread_create i) = 0)
        /\ (forall i, 0 <= i < j -> returned i = true)
        /\ returned j = false
        /\ run
           = (Posix.prologue N
                ++ map Posix.pthread_create (range N)
                ++ [Posix.fprintf Stdout ("Started " +++ dec N +++ " worker threads" +++ LF)]
                ++ map Posix.pthread_join (range j)
                ++ [Posix.pthread_join j],
              None))
  \/ (0 < N /\ o (Posix.malloc N) <> NULL
      /\ (forall i, 0 <= i < N -> o (Posix.pthread_create i) = 0)
      /\ (forall i, 0 <= i < N -> returned i = true)
      /\ run
         = (Posix.prologue N
              ++ map Posix.pthread_create (range N)
              ++ [Posix.fprintf Stdout ("Started " +++ dec N +++ " worker threads" +++ LF)]
              ++ map Posix.pthread_join (range N)
              ++ [Posix.free],
            Some EXIT_SUCCESS)).
Proof.
  intros N run. unfold run.
  pattern (exec_until (Posix.waits_for returned) o Posix.main).
  apply posix_waiting_cases; fold N.
  - intros Hle. left. now split.
  - intros Hpos Hnull. right. left. now repeat split.
  - intros k Hk Hmem Hbelow Hfail. right. right. left. exists k. now repeat split.
  - intros j Hj Hmem Hall Hret Hnot. do 3 right. left. exists j. now repeat split.
  - intros Hpos Hmem Hall Hret. do 4 right. now repeat split.
Qed.

(** X2: The POSIX main returns EXIT_SUCCESS exactly when the processor count
is positive, the array is allocated, every pthread_create returns 0 and
every one of the N workers returns from cpu_heater.  It is left waiting in a
join, and never returns, exactly when start-up and every spawn succeed and
some worker never returns.  In every other case it returns EXIT_FAILURE. *)
Theorem posix_exit_status_characterised (o : Posix.call -> Z) (returned : Z -> bool) :
  let N := o Posix.sysconf_NPROCESSORS_ONLN in
  let run := exec_until (Posix.waits_for returned) o Posix.main in
  (snd run = Some EXIT_SUCCESS
   <-> (0 < N /\ o (Posix.malloc N) <> NULL
        /\ (forall i, 0 <= i < N -> o (Posix.pthread_create i) = 0)
        /\ forall i, 0 <= i < N -> returned i = true))
  /\ (snd run = None
      <-> (0 < N /\ o (Posix.malloc N) <> NULL
           /\ (forall i, 0 <= i < N -> o (Posix.pthread_create i) = 0)
           /\ exists j, 0 <= j < N /\ returned j = false))
  /\ (snd run = Some EXIT_SUCCESS \/ snd run = Some EXIT_FAILURE \/ snd run = None).
Proof.
  intros N run. unfold run.
  apply posix_waiting_cases; fold N; cbn [snd].
  - intros Hle. split; [|split; [|right; now left]].
    + split; [intros [=]|]. intros (H & _). lia.
    + split; [discriminate|]. intros (H & _). lia.
  - intros Hpos Hnull. split; [|split; [|right; now left]].
    + split; [intros [=]|]. intros (_ & H & _). contradiction.
    + split; [discriminate|]. intros (_ & H & _). contradiction.
  - intros k Hk Hmem Hbelow Hfail. split; [|split; [|right; now left]].
    + split; [intros [=]|]. intros (_ & _ & H & _). elim Hfail. now apply H.
    + split; [discriminate|]. intros (_ & _ & H & _). elim Hfail. now apply H.
  - intros j Hj Hmem Hall Hret Hnot. split; [|split; [|now do 2 right]].
    + split; [discriminate|]. intros (_ & _ & _ & H).
      rewrite (H j Hj) in Hnot. discriminate Hnot.
    + split; [intros _|reflexivity].
      split; [lia|]. split; [exact Hmem|]. split; [exact Hall|]. now exists j.
  - intros Hpos Hmem Hall Hret. split; [|split; [|now left]].
    + split; [intros _|reflexivity]. now repeat split.
    + split; [discriminate|]. intros (_ & _ & _ & j & Hj & Hnot).
      rewrite (Hret j Hj) in Hnot. discriminate Hnot.
Qed.

(** X3: In every run of the POSIX main that returns, the array is freed
exactly once when it was allocated, and free is then the last call main
makes; when the count is not positive or malloc returns NULL, free is never
called.  In the run in which main is left waiting in a join the array is
allocated and is not freed. *)
Theorem posix_frees_what_it_allocated (o : Posix.call -> Z) (returned : Z -> bool) :
  let N := o Posix.sysconf_NPROCESSORS_ONLN in
  let allocated := (0 <? N) && negb (o (Posix.malloc N) =? NULL) in
  let run := exec_until (Posix.waits_for returned) o Posix.main in
  match snd run with
  | Some _ =>
      filter Posix.is_free (fst run) = (if allocated then [Posix.free] else [])
      /\ (if allocated
          then last (fst run) Posix.sysconf_NPROCESSORS_ONLN = Posix.free
          else True)
  | None =>
      allocated = true
      /\ filter Posix.is_free (fst run) = []
      /\ exists j, last (fst run) Posix.sysconf_NPROCESSORS_ONLN = Posix.pthread_join j
  end.
Proof.
  intros N allocated run. unfold run, allocated.
  apply posix_waiting_cases; fold N; cbn [fst snd].
  - intros Hle. apply Z.ltb_ge in Hle. rewrite Hle. cbn [andb]. now split.
  - intros Hpos Hnull. rewrite Hnull. rewrite Z.eqb_refl, andb_false_r. split; read_calls.
  - intros k Hk Hmem Hbelow Hfail.
    assert (Hpos : 0 < N) by lia. apply Z.ltb_lt in Hpos. apply Z.eqb_neq in Hmem.
    rewrite Hpos, Hmem. cbn [andb negb]. split; [read_calls|].
    change [Posix.pthread_create k;
            Posix.fprintf Stderr ("Error creating thread " +++ dec k +++ "." +++ LF);
            Posix.free]
      with ([Posix.pthread_create k;
             Posix.fprintf Stderr ("Error creating thread " +++ dec k +++ "." +++ LF)]
              ++ [Posix.free]).
    rewrite !app_assoc. apply last_snoc.
  - intros j Hj Hmem Hall Hret Hnot.
    assert (Hpos : 0 < N) by lia. apply Z.ltb_lt in Hpos. apply Z.eqb_neq in Hmem.
    rewrite Hpos, Hmem. cbn [andb negb]. split; [reflexivity|]. split; [read_calls|].
    exists j. rewrite !app_assoc. apply last_snoc.
  - intros Hpos Hmem Hall Hret. apply Z.ltb_lt in Hpos. apply Z.eqb_neq in Hmem.
    rewrite Hpos, Hmem. cbn [andb negb]. split; [read_calls|].
    rewrite !app_assoc. apply last_snoc.
Qed.

(** * A heater that cannot be stopped *)

Section PosixSpinning.

Import Posix.

Variable o : call -> Z.




End PosixSpinning.



(** * The runs of the Windows supervisor, with its wait *)

Section Handles.

Import Windows.

Lemma unusable_handle (h : Z) :
  h = NULL \/ h = INVALID_HANDLE_VALUE ->
  (h =? NULL) || (h =? INVALID_HANDLE_VALUE) = true.
Proof. intros [-> | ->]; reflexivity. Qed.

End Handles.

(** X11: The Windows main returns EXIT_SUCCESS exactly when both console
handles are valid, the control handler is registered, the processor count is
positive, the array is allocated, every CreateThread returns a handle and
the wait on the workers returns.  It is left in WaitForMultipleObjects, and
never returns, exactly when all of start-up succeeds and the workers do not
all return.  In every other case it ends with EXIT_FAILURE. *)
Theorem windows_exit_status_characterised
    (o : Windows.call -> Z) (all_returned : bool) (buffer : string) (heap : Z -> Z) :
  let hOut := o (Windows.GetStdHandle Windows.STD_OUTPUT_HANDLE) in
  let hErr := o (Windows.GetStdHandle Windows.STD_ERROR_HANDLE) in
  let N := o Windows.GetSystemInfo in
  let run := exec_until (Windows.waits_for all_returned) o (Windows.main buffer heap) in
  let started :=
    Windows.console_ready o hOut hErr
    /\ 0 < N /\ o (Windows.HeapAlloc N) <> NULL
    /\ forall i, 0 <= i < N -> o (Windows.CreateThread i) <> NULL in
  (snd run = Some EXIT_SUCCESS <-> (started /\ all_returned = true))
  /\ (snd run = None <-> (started /\ all_returned = false))
  /\ (snd run = Some EXIT_SUCCESS \/ snd run = Some EXIT_FAILURE \/ snd run = None).
Proof.
  intros hOut hErr N run started. unfold run, started.
  apply windows_waiting_cases; fold hOut hErr N; cbn [snd].
  - intros H. split; [|split; [|right; now left]].
    + split; [intros [=]|]. intros (((_ & H1 & H2 & _) & _) & _).
      destruct H; contradiction.
    + split; [discriminate|]. intros (((_ & H1 & H2 & _) & _) & _).
      destruct H; contradiction.
  - intros _ _ H. split; [|split; [|right; now left]].
    + split; [intros [=]|]. intros (((_ & _ & _ & _ & H1 & H2 & _) & _) & _).
      destruct H; contradiction.
    + split; [discriminate|]. intros (((_ & _ & _ & _ & H1 & H2 & _) & _) & _).
      destruct H; contradiction.
  - intros _ _ _ _ H. split; [|split; [|right; now left]].
    + split; [intros [=]|]. intros (((_ & _ & _ & _ & _ & _ & H1) & _) & _).
      contradiction.
    + split; [discriminate|]. intros (((_ & _ & _ & _ & _ & _ & H1) & _) & _).
      contradiction.
  - intros _ H. split; [|split; [|right; now left]].
    + split; [intros [=]|]. intros ((_ & H1 & _) & _). lia.
    + split; [discriminate|]. intros ((_ & H1 & _) & _). lia.
  - intros _ _ H. split; [|split; [|right; now left]].
    + split; [intros [=]|]. intros ((_ & _ & H1 & _) & _). contradiction.
    + split; [discriminate|]. intros ((_ & _ & H1 & _) & _). contradiction.
  - intros k _ Hk _ _ H. split; [|split; [|right; now left]].
    + split; [intros [=]|]. intros ((_ & _ & _ & H1) & _). exfalso. exact (H1 k Hk H).
    + split; [discriminate|]. intros ((_ & _ & _ & H1) & _). exfalso. exact (H1 k Hk H).
  - intros Hready Hpos Hmem Hall Hret. split; [|split; [|now do 2 right]].
    + split; [discriminate|]. intros (_ & H). rewrite H in Hret. discriminate Hret.
    + split; [intros _|reflexivity]. split; [|exact Hret].
      split; [exact Hready|]. split; [exact Hpos|]. split; [exact Hmem|exact Hall].
  - intros Hready Hpos Hmem Hall Hret. split; [|split; [|now left]].
    + split; [intros _|reflexivity]. split; [|exact Hret].
      split; [exact Hready|]. split; [exact Hpos|]. split; [exact Hmem|exact Hall].
    + split; [discriminate|]. intros (_ & H). rewrite H in Hret. discriminate Hret.
Qed.

(** X12: In every run of the Windows main that returns, the array is freed
exactly once when HeapAlloc was called and returned a block, and never
otherwise; the CloseHandle calls happen only in the run that ends with
EXIT_SUCCESS, where every created handle is waited for and closed once.  On
a failed spawn the handles of the workers already created are neither waited
for nor closed.  In the run in which main is left in the wait, the one wait
on all the handles is made, no handle is closed and the array is not
freed. *)
Theorem windows_releases_what_it_acquired
    (o : Windows.call -> Z) (all_returned : bool) (buffer : string) (heap : Z -> Z) :
  let N := o Windows.GetSystemInfo in
  let run := exec_until (Windows.waits_for all_returned) o (Windows.main buffer heap) in
  let handles := map (fun i => o (Windows.CreateThread i)) (range N) in
  match snd run with
  | Some status =>
      filter Windows.is_free (fst run)
      = match filter Windows.is_alloc (fst run) with
        | [] => []
        | _ => if o (Windows.HeapAlloc N) =? NULL then [] else [Windows.HeapFree]
        end
      /\ filter Windows.is_wait (fst run)
         = (if status =? EXIT_SUCCESS
            then [Windows.WaitForMultipleObjects N handles] else [])
      /\ filter Windows.is_close (fst run)
         = (if status =? EXIT_SUCCESS then map Windows.CloseHandle handles else [])
  | None =>
      filter Windows.is_free (fst run) = []
      /\ filter Windows.is_wait (fst run) = [Windows.WaitForMultipleObjects N handles]
      /\ filter Windows.is_close (fst run) = []
      /\ last (fst run) Windows.GetSystemInfo = Windows.WaitForMultipleObjects N handles
  end.
Proof.
  intros N run handles. unfold run, handles.
  apply windows_waiting_cases; fold N; cbn [fst snd].
  - intros _. repeat split.
  - intros _ _ _. repeat split.
  - intros _ _ _ _ _. repeat split.
  - intros _ _. repeat split.
  - intros _ _ Hnull. rewrite Hnull. repeat split; read_calls.
  - intros k _ _ Hmem _ _. apply Z.eqb_neq in Hmem. repeat split; read_calls.
    now rewrite Hmem.
  - intros _ _ _ _ _. repeat split; try solve [read_calls].
    change [Windows.WriteConsoleA (o (Windows.GetStdHandle Windows.STD_OUTPUT_HANDLE))
              (Windows.started_text buffer N);
            Windows.WaitForMultipleObjects N
              (map (fun i => o (Windows.CreateThread i)) (range N))]
      with ([Windows.WriteConsoleA (o (Windows.GetStdHandle Windows.STD_OUTPUT_HANDLE))
               (Windows.started_text buffer N)]
              ++ [Windows.WaitForMultipleObjects N
                    (map (fun i => o (Windows.CreateThread i)) (range N))]).
    rewrite !app_assoc. apply last_snoc.
  - intros _ _ Hmem _ _. apply Z.eqb_neq in Hmem. repeat split; read_calls.
    + now rewrite Hmem.
    + now rewrite map_map.
Qed.

(** X13: Every run of the Windows main emits exactly one message.  When a
console handle is missing (GetStdHandle returned NULL or
INVALID_HANDLE_VALUE for standard output or for standard error) the message
is a debug string, naming the first handle that is missing; nothing is
written to the console and main ends with EXIT_FAILURE.  When both handles
are there, no debug string is emitted and there is one WriteConsoleA: to the
standard-error handle in every run that ends with EXIT_FAILURE, and to the
standard-output handle otherwise. *)
Theorem windows_one_message_per_run
    (o : Windows.call -> Z) (all_returned : bool) (buffer : string) (heap : Z -> Z) :
  let hOut := o (Windows.GetStdHandle Windows.STD_OUTPUT_HANDLE) in
  let hErr := o (Windows.GetStdHandle Windows.STD_ERROR_HANDLE) in
  let missing := fun h => (h =? NULL) || (h =? Windows.INVALID_HANDLE_VALUE) in
  let run := exec_until (Windows.waits_for all_returned) o (Windows.main buffer heap) in
  if missing hOut then
    filter Windows.is_debug (fst run)
    = [Windows.OutputDebugStringA "ERROR: Failed to initialize standard output"]
    /\ filter Windows.is_write (fst run) = []
    /\ snd run = Some EXIT_FAILURE
  else if missing hErr then
    filter Windows.is_debug (fst run)
    = [Windows.OutputDebugStringA "ERROR: Failed to initialize standard error ouput"]
    /\ filter Windows.is_write (fst run) = []
    /\ snd run = Some EXIT_FAILURE
  else
    filter Windows.is_debug (fst run) = []
    /\ exists text,
         filter Windows.is_write (fst run)
         = [Windows.WriteConsoleA
              (match snd run with
               | Some status => if status =? EXIT_FAILURE then hErr else hOut
               | None => hOut
               end) text].
Proof.
  intros hOut hErr missing run. unfold run, missing.
  apply windows_waiting_cases; fold hOut hErr; cbn [fst snd].
  - intros H. rewrite (unusable_handle hOut H). repeat split.
  - intros H1 H2 H. rewrite (valid_handle hOut H1 H2), (unusable_handle hErr H).
    repeat split.
  - intros H1 H2 H3 H4 _. rewrite (valid_handle hOut H1 H2), (valid_handle hErr H3 H4).
    split; [reflexivity|]. eexists. reflexivity.
  - intros (_ & H1 & H2 & _ & H3 & H4 & _) _.
    rewrite (valid_handle hOut H1 H2), (valid_handle hErr H3 H4).
    split; [reflexivity|]. eexists. reflexivity.
  - intros (_ & H1 & H2 & _ & H3 & H4 & _) _ _.
    rewrite (valid_handle hOut H1 H2), (valid_handle hErr H3 H4).
    split; [read_calls|]. eexists. read_calls.
  - intros k (_ & H1 & H2 & _ & H3 & H4 & _) _ _ _ _.
    rewrite (valid_handle hOut H1 H2), (valid_handle hErr H3 H4).
    split; [read_calls|]. eexists. read_calls.
  - intros (_ & H1 & H2 & _ & H3 & H4 & _) _ _ _ _.
    rewrite (valid_handle hOut H1 H2), (valid_handle hErr H3 H4).
    split; [read_calls|]. eexists. read_calls.
  - intros (_ & H1 & H2 & _ & H3 & H4 & _) _ _ _ _.
    rewrite (valid_handle hOut H1 H2), (valid_handle hErr H3 H4).
    split; [read_calls|]. eexists. read_calls.
Qed.

